(** * DreamUp browser interaction layer: executor and sessions

    A shallow embedding of
      - [InteractionEngine] (agent/interaction-engine.ts): the action executor,
      - [LocalPlaywrightSession] (src/browser/local-provider.ts),
      - [BrowserbaseSession] (src/browser/browserbase-provider.ts),
    with the properties of the design document stated over the embedding.

    Conventions.
      - A JavaScript [number] is a rational ([Q]); NaN and infinities are not
        represented.  [Date.now()] is an integer number of milliseconds ([Z]).
      - Asynchronous code is sequential here: every [await] is a bind in a
        state-and-exception monad.  State changes made before a [throw]
        persist, as object mutation does in JavaScript.
      - Calls that leave the repository (Playwright, CDP, the Browserbase SDK,
        the page's DOM) are answered by a driver: a function of the call and
        of the trace of what happened so far, so that a driver may answer
        the same call differently the second time.  Every such call is
        assumed to settle. *)

From Stdlib Require Import ZArith QArith Qminmax Qround Lqa Lia.
From Stdlib Require Import String Ascii List Bool DecimalString.
Import ListNotations.

Local Open Scope string_scope.

(* ===================================================================== *)
(** ** JavaScript values, exceptions and strings *)
(* ===================================================================== *)

Module Js.

Definition number := Q.

(** [x > y] on numbers, as a boolean. *)
Definition gtb (x y : number) : bool := negb (Qle_bool x y).

(** [n || d] for an optional number: [undefined] and [0] are falsy. *)
Definition or_num (n : option number) (d : number) : number :=
  match n with
  | Some q => if Qeq_bool q 0 then d else q
  | None => d
  end.

(** Truthiness of an optional string: [undefined] and [""] are falsy. *)
Definition truthy_str (s : option string) : option string :=
  match s with
  | Some EmptyString => None
  | Some t => Some t
  | None => None
  end.

(** A thrown value: an [Error] object with its message, or anything else
    (shown as [String(value)]). *)
Inductive Thrown : Type :=
| JsError (message : string)
| JsOther (shown : string).

(** [error instanceof Error ? error.message : String(error)] *)
Definition describe (e : Thrown) : string :=
  match e with
  | JsError m => m
  | JsOther t => t
  end.

(** [s.includes(sub)] *)
Definition includes (sub s : string) : bool :=
  match String.index 0 sub s with
  | Some _ => true
  | None => false
  end.

(** A character of a string is a code unit below 256: the strings of this
    development are the JavaScript strings of Latin-1 text.

    The class [\s] on these code units, which is also what [trim] strips:
    tab, line feed, vertical tab, form feed, carriage return, space and the
    no-break space U+00A0. *)
Definition is_space (c : ascii) : bool :=
  let n := nat_of_ascii c in
  ((9 <=? n) && (n <=? 13))%nat || (n =? 32)%nat || (n =? 160)%nat.

(** [s.replace(/\s+/g, ' ')]: every maximal run of white space becomes one
    space.  [in_run] tells that the previous character was white space. *)
Fixpoint collapse_from (in_run : bool) (s : string) : string :=
  match s with
  | EmptyString => EmptyString
  | String c r =>
      if is_space c
      then (if in_run then collapse_from true r
            else String " "%char (collapse_from true r))
      else String c (collapse_from false r)
  end.

Definition collapse_spaces (s : string) : string := collapse_from false s.

Fixpoint trim_start (s : string) : string :=
  match s with
  | EmptyString => EmptyString
  | String c r => if is_space c then trim_start r else s
  end.

(** Drops trailing white space: a character is kept when it is not white
    space or when something is kept after it. *)
Fixpoint trim_end (s : string) : string :=
  match s with
  | EmptyString => EmptyString
  | String c r =>
      match trim_end r with
      | EmptyString => if is_space c then EmptyString else String c EmptyString
      | r' => String c r'
      end
  end.

(** [s.trim()] *)
Definition trim (s : string) : string := trim_end (trim_start s).

(** [s.toLowerCase()] on code units below 256: the letters A to Z and the
    letters U+00C0 to U+00DE (but the sign U+00D7) move up by 32; everything
    else stays. *)
Definition lower_char (c : ascii) : ascii :=
  let n := nat_of_ascii c in
  if ((65 <=? n) && (n <=? 90))%nat
     || ((192 <=? n) && (n <=? 222) && negb (n =? 215))%nat
  then ascii_of_nat (n + 32) else c.

Fixpoint toLowerCase (s : string) : string :=
  match s with
  | EmptyString => EmptyString
  | String c r => String (lower_char c) (toLowerCase r)
  end.

(** The outcome of a call: a value or a thrown exception. *)
Inductive Res (A : Type) : Type :=
| Ok (a : A)
| Throw (e : Thrown).
Arguments Ok {A} a.
Arguments Throw {A} e.

(** Computations over a state [S] that may throw. *)
Definition M (S A : Type) : Type := S -> Res A * S.

Definition ret {S A} (a : A) : M S A := fun s => (Ok a, s).

Definition bind {S A B} (c : M S A) (k : A -> M S B) : M S B :=
  fun s =>
    match c s with
    | (Ok a, s') => k a s'
    | (Throw e, s') => (Throw e, s')
    end.

Definition throw {S A} (e : Thrown) : M S A := fun s => (Throw e, s).

(** [try { body } catch (error) { handler(error) }] *)
Definition try_catch {S A} (body : M S A) (handler : Thrown -> M S A) : M S A :=
  fun s =>
    match body s with
    | (Ok a, s') => (Ok a, s')
    | (Throw e, s') => handler e s'
    end.

Definition gets {S A} (f : S -> A) : M S A := fun s => (Ok (f s), s).

Definition modify {S} (f : S -> S) : M S unit := fun s => (Ok tt, f s).

(** [if (c) { body }] for a statement. *)
Definition when {S} (c : bool) (body : M S unit) : M S unit :=
  if c then body else ret tt.

End Js.

Import Js.

Declare Scope js_scope.
Delimit Scope js_scope with js.
Notation "x <- c ;; k" := (bind c (fun x => k))
  (at level 61, c at next level, right associativity) : js_scope.
Notation "c ;; k" := (bind c (fun _ => k))
  (at level 61, right associativity) : js_scope.
Local Open Scope js_scope.

(* ===================================================================== *)
(** ** InteractionEngine: the action executor *)
(* ===================================================================== *)

Module Engine.

(** [TimeoutConfig], in seconds. *)
Record TimeoutConfig : Type := {
  load : number;
  action : number;
  total : number
}.

(** [ActionConfig]: [{type, duration?, selector?, key?, repeat?}]. *)
Record ActionConfig : Type := {
  type : string;
  duration : option number;
  selector : option string;
  key : option string;
  repeat : option number
}.

(** The calls the executor makes on its [BrowserSession]. *)
Inductive Call : Type :=
| SWait (ms : number)
| SClick (sel : string)
| SKeypress (k : string).

(** How a session call settles: after how many milliseconds, and whether the
    promise resolves or rejects. *)
Inductive Outcome : Type :=
| Resolves (after : Z)
| Rejects (after : Z) (e : Thrown).

(** The executor's world: the wall clock, the session calls made so far in
    order, and what [console.warn] printed. *)
Record World : Type := {
  now : Z;
  calls : list Call;
  warnings : list (string * Thrown)
}.

(** A session answers a call from the world it is made in. *)
Definition Session : Type := World -> Call -> Outcome.

Definition tick (d : Z) (w : World) : World :=
  {| now := now w + Z.max 0 d; calls := calls w; warnings := warnings w |}.

Definition record (c : Call) (w : World) : World :=
  {| now := now w; calls := calls w ++ [c]; warnings := warnings w |}.

Definition warn (label : string) (e : Thrown) (w : World) : World :=
  {| now := now w; calls := calls w; warnings := warnings w ++ [(label, e)] |}.

(** [Date.now()] *)
Definition clock : M World Z := gets now.

(** Milliseconds after which a timer of [ms] has fired on the integer clock. *)
Definition timer_fires (ms : number) : Z := Z.max 0 (Qceiling ms).

Section Executor.

(** [String(n)] for a number, as template literals use it. *)
Variable showNumber : number -> string.

Variable session : Session.
Variable timeouts : TimeoutConfig.

(** [await this.session.f(...)], not raced against a timer. *)
Definition await_call (c : Call) : M World unit :=
  fun w =>
    match session w c with
    | Resolves d => (Ok tt, tick d (record c w))
    | Rejects d e => (Throw e, tick d (record c w))
    end.

(** [await Promise.race([this.session.f(...), this.timeoutPromise(ms)])].
    The session's promise is listed first and started first, so it wins a
    tie; when the timer wins, the session call is abandoned. *)
Definition race (c : Call) (ms : number) : M World unit :=
  fun w =>
    let expired := (Throw (JsError "Action timeout"), tick (timer_fires ms) (record c w)) in
    match session w c with
    | Resolves d =>
        if Qle_bool (inject_Z (Z.max 0 d)) ms
        then (Ok tt, tick d (record c w)) else expired
    | Rejects d e =>
        if Qle_bool (inject_Z (Z.max 0 d)) ms
        then (Throw e, tick d (record c w)) else expired
    end.

(** [for (let i = 0; i < repeat; i++)]: the number of iterations. *)
Definition iterations (r : number) : nat := Z.to_nat (Qceiling r).

Fixpoint pressKeys (k : string) (ms : number) (n : nat) : M World unit :=
  match n with
  | O => ret tt
  | S n' => race (SKeypress k) ms ;; pressKeys k ms n'
  end.

(** The [try] block of [executeAction]. *)
Definition actionBody (a : ActionConfig) : M World unit :=
  let actionTimeout := (action timeouts * 1000)%Q in
  startTime <- clock ;;
  (if type a =? "wait" then
     let duration := (or_num (duration a) 1 * 1000)%Q in
     race (SWait duration) actionTimeout
   else if type a =? "click" then
     match truthy_str (selector a) with
     | None => throw (JsError "Click action requires a selector")
     | Some sel => race (SClick sel) actionTimeout
     end
   else if type a =? "keypress" then
     match truthy_str (key a) with
     | None => throw (JsError "Keypress action requires a key")
     | Some k =>
         let repeat := or_num (repeat a) 1 in
         pressKeys k actionTimeout (iterations repeat)
     end
   else if type a =? "screenshot" then
     await_call (SWait 200)
   else
     throw (JsError ("Unknown action type: " ++ type a))) ;;
  t <- clock ;;
  when (gtb (inject_Z (t - startTime)) actionTimeout)
    (throw (JsError ("Action timeout exceeded (" ++ showNumber (action timeouts) ++ "s)"))).

(** [error instanceof Error && error.message.includes('timeout')] *)
Definition is_timeout (e : Thrown) : bool :=
  match e with
  | JsError m => includes "timeout" m
  | JsOther _ => false
  end.

(** The [catch] block of [executeAction]. *)
Definition actionHandler (a : ActionConfig) (e : Thrown) : M World unit :=
  if is_timeout e then throw e
  else modify (warn ("Action " ++ type a ++ " failed:") e).

Definition executeAction (a : ActionConfig) : M World unit :=
  try_catch (actionBody a) (actionHandler a).

Definition totalTimeoutError : Thrown :=
  JsError ("Total execution timeout exceeded (" ++ showNumber (total timeouts) ++ "s)").

(** The [for] loop of [executeActions], with the recorded start time. *)
Fixpoint runFrom (startTime : Z) (actions : list ActionConfig) : M World unit :=
  match actions with
  | [] => ret tt
  | a :: rest =>
      t <- clock ;;
      (if gtb (inject_Z (t - startTime)) (total timeouts * 1000)%Q
       then throw totalTimeoutError
       else executeAction a) ;;
      runFrom startTime rest
  end.

Definition executeActions (actions : list ActionConfig) : M World unit :=
  startTime <- clock ;;
  runFrom startTime actions.

End Executor.

End Engine.

(* ===================================================================== *)
(** ** The backends behind a session *)
(* ===================================================================== *)

Module Backend.

(** What [this.page] points at: the tab, or a frame entered by
    [switchToIframe]. *)
Inductive PageRef : Type :=
| MainPage
| FramePage (frame : nat).

Inductive WaitUntil : Type :=
| DomContentLoaded
| Commit.

(** Playwright locators as the sessions build them. *)
Inductive Locator : Type :=
| GetByRole (role : string) (nameRegex : string)
| GetByText (text : string) (exact : bool)
| Css (sel : string)
| HasText (l : Locator) (text : string)
| XPath (expr : string)
| Nth (l : Locator) (i : nat).

(** [locator.first()] *)
Definition first (l : Locator) : Locator := Nth l 0.

Definition Buffer : Type := list Byte.byte.

(** [iframe.boundingBox()] *)
Record Box : Type := {
  x : number;
  y : number;
  width : number;
  height : number
}.

(** One entry of [document.getAnimations()]: [a.effect?.getTiming()?.duration],
    [None] when the animation has no effect. *)
Record Animation : Type := {
  timing_duration : option number
}.

(** A [<button>] as the in-page scan of [clickByText] sees it. *)
Record Button : Type := {
  textContent : string;
  innerText : string;
  offsetParent : bool;     (* [offsetParent !== null] *)
  click_ok : bool;         (* [btn.click()] does not throw *)
  dispatch_ok : bool       (* [btn.dispatchEvent(...)] does not throw *)
}.

(** The result object of CDP [Page.captureScreenshot]. *)
Record CdpShot : Type := {
  data : option string
}.

(** [sessions.get] / [sessions.retrieve] of the Browserbase SDK. *)
Record SessionInfo : Type := {
  info_connectUrl : option string;
  info_wsUrl : option string
}.

(** What [chromium.connectOverCDP] hands back: the number of contexts of the
    browser and the number of pages of its first context. *)
Record BrowserInfo : Type := {
  contexts : nat;
  pages : nat
}.

(** The calls that leave the repository, indexed by the type of what they
    return.  [Timed ms p] is [p] raced against a timer of [ms] milliseconds:
    it answers [None] when the timer wins.  [HasMethod path] is not a call:
    it tells whether the SDK client has the method [client.path], which an
    optional call [client.path?.(...)] looks at first. *)
Inductive Prim : Type -> Type :=
| PageGoto (pg : PageRef) (url : string) (waitUntil : option WaitUntil) (timeout : number) : Prim unit
| PageFocus (pg : PageRef) (sel : string) : Prim unit
| GetAnimations (pg : PageRef) (unhide : bool) : Prim (list Animation)
| PageScreenshot (pg : PageRef) (timeout : number) : Prim Buffer
| RegExpNew (source flags : string) : Prim unit
| IsVisible (pg : PageRef) (l : Locator) (timeout : number) : Prim bool
| WaitVisible (pg : PageRef) (l : Locator) (timeout : number) : Prim unit
| LocClick (pg : PageRef) (l : Locator) (timeout : number) : Prim unit
| LocCount (pg : PageRef) (l : Locator) : Prim nat
| LocAll (pg : PageRef) (l : Locator) : Prim nat
| QueryButtons (pg : PageRef) : Prim (list Button)
| QuerySelector (pg : PageRef) (sel : string) : Prim (option nat)
| QueryIframes (pg : PageRef) : Prim (list nat)
| BoundingBox (iframe : nat) : Prim (option Box)
| ContentFrame (iframe : nat) : Prim (option nat)
| Timed {A : Type} (ms : number) (p : Prim A) : Prim (option A)
| CdpDetach : Prim unit
| CaptureScreenshot : Prim (option CdpShot)
| BufferFromBase64 (s : string) : Prim Buffer
| ContextClose : Prim unit
| BrowserClose : Prim unit
| GetDebugConnectionURLs (id : string) : Prim (option string)
| SessionsGet (id : string) : Prim (option SessionInfo)
| SessionsRetrieve (id : string) : Prim (option SessionInfo)
| ConnectOverCDP (url : string) (timeout : number) : Prim BrowserInfo
| NewPage : Prim unit
| NewCDPSession : Prim unit
| LoadURL (url : string) (id : string) : Prim unit
| CompleteSession (id : string) : Prim unit
| HasMethod (path : string) : Prim bool.

(** What a session leaves behind, in order: calls out of the repository,
    time spent waiting, and console output. *)
Inductive Entry : Type :=
| Called {A : Type} (p : Prim A)
| Slept (ms : number)
| Console (level : string) (text : string).

Definition Trace : Type := list Entry.

(** A backend answers every call, knowing what happened before. *)
Definition Driver : Type := forall A : Type, Prim A -> Trace -> Res A.

(** What the text of a script is written in. *)
Inductive Syntax : Type :=
| JavaScript
| TypeScriptCasts.

(** Session states carry their trace. *)
Class Traced (S : Type) : Type := {
  trace_of : S -> Trace;
  log_entry : Entry -> S -> S
}.

Section Effects.
Context {S : Type} `{Traced S}.
Variable drv : Driver.

Definition perform {A : Type} (p : Prim A) : M S A :=
  fun s => (drv A p (trace_of s), log_entry (Called p) s).

(** [await new Promise(resolve => setTimeout(resolve, ms))] *)
Definition wait (ms : number) : M S unit := modify (log_entry (Slept ms)).

Definition console (level text : string) : M S unit :=
  modify (log_entry (Console level text)).

(** [promise.catch(() => {})] *)
Definition ignore_errors (c : M S unit) : M S unit :=
  try_catch c (fun _ => ret tt).

(** [promise.catch(() => false)] *)
Definition false_on_error (c : M S bool) : M S bool :=
  try_catch c (fun _ => ret false).

(** A chain of strategies that return [true] as soon as one succeeds. *)
Definition or_else (c : M S bool) (k : M S bool) : M S bool :=
  b <- c ;; if b then ret true else k.

(** An optional call [client.a?.b?.(args)]: when the client has no such
    method the expression is [undefined] and nothing is called. *)
Definition perform_optional {A : Type} (path : string) (p : Prim (option A))
  : M S (option A) :=
  fun s =>
    match drv bool (HasMethod path) (trace_of s) with
    | Ok true => perform p s
    | Ok false => (Ok None, s)
    | Throw e => (Throw e, s)
    end.

(** [page.evaluate(text)] with the script given as a string: the page parses
    the text as JavaScript.  A text that holds TypeScript casts is rejected
    with a [SyntaxError] before any of it runs (the session never looks at
    the message). *)
Definition evaluateText {A : Type} (syntax : Syntax) (p : Prim A) : M S A :=
  match syntax with
  | JavaScript => perform p
  | TypeScriptCasts =>
      fun s => (Throw (JsError "SyntaxError"), log_entry (Called p) s)
  end.

End Effects.

(** [Math.max(x, ...l)] *)
Definition math_max (x : number) (l : list number) : number :=
  fold_left Qmax l x.

(** [a => (a.effect?.getTiming()?.duration || 0) * 1000] *)
Definition scaledDuration (a : Animation) : number :=
  (or_num (timing_duration a) 0 * 1000)%Q.

(** [box.width * box.height] *)
Definition area (b : Box) : number := (width b * height b)%Q.

(** The threshold [400 * 400] of [switchToIframe]. *)
Definition minIframeArea : number := (400 * 400)%Q.

(** The time the session spent waiting, as its trace records it. *)
Fixpoint slept (tr : Trace) : number :=
  match tr with
  | [] => 0%Q
  | Slept ms :: rest => (ms + slept rest)%Q
  | _ :: rest => slept rest
  end.

(** The loop of [switchToIframe] over the handles of [page.$$('iframe')]:
    [acc] is [(largestIframe, maxArea)]. *)
Section IframeScan.
Context {S : Type} `{Traced S}.
Variable drv : Driver.

Fixpoint scanIframes (iframes : list nat) (acc : option nat * number)
  : M S (option nat * number) :=
  match iframes with
  | [] => ret acc
  | iframe :: rest =>
      box <- perform drv (BoundingBox iframe) ;;
      match box with
      | Some b =>
          if gtb (area b) (snd acc) && gtb (area b) minIframeArea
          then scanIframes rest (Some iframe, area b)
          else scanIframes rest acc
      | None => scanIframes rest acc
      end
  end.

End IframeScan.

End Backend.

Import Backend.

(** [JSON.stringify(s)] for a string. *)
Module Json.

Definition dquote : ascii := "034"%char.
Definition backslash : ascii := "092"%char.

Definition hex_digit (n : nat) : ascii :=
  if (n <? 10)%nat then ascii_of_nat (48 + n) else ascii_of_nat (87 + n).

Definition escape_char (c : ascii) : string :=
  let n := nat_of_ascii c in
  if (n =? 34)%nat then String backslash (String dquote EmptyString)
  else if (n =? 92)%nat then String backslash (String backslash EmptyString)
  else if (n =? 8)%nat then String backslash "b"
  else if (n =? 9)%nat then String backslash "t"
  else if (n =? 10)%nat then String backslash "n"
  else if (n =? 12)%nat then String backslash "f"
  else if (n =? 13)%nat then String backslash "r"
  else if (n <? 32)%nat then
    String backslash ("u00" ++ String (hex_digit (n / 16)) (String (hex_digit (n mod 16)) EmptyString))
  else String c EmptyString.

Fixpoint escape (s : string) : string :=
  match s with
  | EmptyString => EmptyString
  | String c r => escape_char c ++ escape r
  end.

Definition stringify (s : string) : string :=
  String dquote (escape s ++ String dquote EmptyString).

End Json.

(* ===================================================================== *)
(** ** LocalPlaywrightSession *)
(* ===================================================================== *)

Module Local.

(** The fields of the session: [cdpSession] tells whether the CDP session of
    the constructor is non-null. *)
Record State : Type := {
  currentUrl : string;
  page : PageRef;
  cdpSession : bool;
  trace : Trace
}.

Definition set_currentUrl (u : string) (s : State) : State :=
  {| currentUrl := u; page := page s; cdpSession := cdpSession s; trace := trace s |}.

Definition set_page (p : PageRef) (s : State) : State :=
  {| currentUrl := currentUrl s; page := p; cdpSession := cdpSession s; trace := trace s |}.

Definition add_entry (e : Entry) (s : State) : State :=
  {| currentUrl := currentUrl s; page := page s; cdpSession := cdpSession s;
     trace := (trace s ++ [e])%list |}.

#[export] Instance traced : Traced State :=
  {| trace_of := trace; log_entry := add_entry |}.

Section Session.
Variable drv : Driver.

Definition navigate (url : string) : M State unit :=
  modify (set_currentUrl url) ;;
  try_catch
    (pg <- gets page ;;
     perform drv (PageGoto pg url (Some DomContentLoaded) 45000) ;;
     wait 2000)
    (fun error =>
       console "warn" ("Navigation warning: " ++ describe error) ;;
       wait 3000).

(** The delay of the in-page repaint script:
    [Math.min(maxDuration + 100, 500)], or 200 without animations. *)
Definition settleDelay (animations : list Animation) : number :=
  match map scaledDuration animations with
  | d :: ds => Qmin (math_max d ds + 100) 500
  | [] => 200
  end.

Definition screenshot : M State Buffer :=
  try_catch
    (pg <- gets page ;;
     try_catch
       (r <- perform drv (Timed 1000 (GetAnimations pg false)) ;;
        match r with
        | Some animations => wait (settleDelay animations)
        | None => wait 1000 ;; throw (JsError "Repaint timeout")
        end)
       (fun _ => wait 100) ;;
     r <- perform drv (Timed 10000 (PageScreenshot pg 10000)) ;;
     match r with
     | Some buffer => ret buffer
     | None => wait 10000 ;; throw (JsError "Screenshot timeout after 10s")
     end)
    (fun error =>
       console "error" ("Screenshot failed: " ++ describe error) ;;
       throw (JsError ("Screenshot failed: " ++ describe error))).

(** The loop of [clickByText] over the elements of the XPath locator. *)
Fixpoint clickFirstVisible (pg : PageRef) (l : Locator) (i n : nat) : M State bool :=
  match n with
  | O => ret false
  | S n' =>
      visible <- false_on_error (perform drv (IsVisible pg (Nth l i) 1000)) ;;
      if visible
      then perform drv (LocClick pg (Nth l i) 5000) ;; wait 200 ;; ret true
      else clickFirstVisible pg l (S i) n'
  end.

Definition clickByText (text : string) (exact : option bool) : M State bool :=
  try_catch
    (let normalizedText := trim (collapse_spaces text) in
     pg <- gets page ;;
     perform drv (PageFocus pg "body") ;;
     let element := GetByText normalizedText (match exact with Some b => b | None => false end) in
     visible <- false_on_error (perform drv (IsVisible pg element 2000)) ;;
     if visible
     then perform drv (LocClick pg element 5000) ;; wait 200 ;; ret true
     else
       let xpath := "//*[contains(text(), " ++ Json.stringify normalizedText ++ ")]" in
       n <- perform drv (LocAll pg (XPath ("xpath=" ++ xpath))) ;;
       clickFirstVisible pg (XPath ("xpath=" ++ xpath)) 0 n)
    (fun _ => ret false).

Definition close : M State unit :=
  try_catch
    (cdp <- gets cdpSession ;;
     when cdp (ignore_errors (perform drv CdpDetach)) ;;
     ignore_errors (perform drv ContextClose) ;;
     ignore_errors (perform drv BrowserClose))
    (fun error => console "warn" ("Error closing local browser: " ++ describe error)).

(** [const frame = await iframe.contentFrame(); if (frame) { this.page = frame;
    return true }] *)
Definition enterFrame (iframe : nat) : M State bool :=
  frame <- perform drv (ContentFrame iframe) ;;
  match frame with
  | Some f => modify (set_page (FramePage f)) ;; ret true
  | None => ret false
  end.

Definition switchToIframe (selector : option string) : M State bool :=
  try_catch
    (or_else
       (match truthy_str selector with
        | Some sel =>
            pg <- gets page ;;
            iframe <- perform drv (QuerySelector pg sel) ;;
            match iframe with
            | Some i => enterFrame i
            | None => ret false
            end
        | None => ret false
        end)
       (pg <- gets page ;;
        iframes <- perform drv (QueryIframes pg) ;;
        match iframes with
        | [] => ret false
        | _ =>
            found <- scanIframes drv iframes (None, 0%Q) ;;
            match fst found with
            | Some largestIframe => enterFrame largestIframe
            | None => ret false
            end
        end))
    (fun _ => ret false).

End Session.

End Local.

(* ===================================================================== *)
(** ** BrowserbaseSession *)
(* ===================================================================== *)

Module Browserbase.

(** The fields of the session: [browser] and [cdpSession] tell whether the
    handle is non-null, [page] is the page handle or [null]. *)
Record State : Type := {
  sessionId : string;
  currentUrl : string;
  browser : bool;
  page : option PageRef;
  cdpSession : bool;
  connectUrl : option string;
  trace : Trace
}.

Definition set_currentUrl (u : string) (s : State) : State :=
  {| sessionId := sessionId s; currentUrl := u; browser := browser s; page := page s;
     cdpSession := cdpSession s; connectUrl := connectUrl s; trace := trace s |}.

Definition set_browser (b : bool) (s : State) : State :=
  {| sessionId := sessionId s; currentUrl := currentUrl s; browser := b; page := page s;
     cdpSession := cdpSession s; connectUrl := connectUrl s; trace := trace s |}.

Definition set_page (p : option PageRef) (s : State) : State :=
  {| sessionId := sessionId s; currentUrl := currentUrl s; browser := browser s; page := p;
     cdpSession := cdpSession s; connectUrl := connectUrl s; trace := trace s |}.

Definition set_cdpSession (c : bool) (s : State) : State :=
  {| sessionId := sessionId s; currentUrl := currentUrl s; browser := browser s; page := page s;
     cdpSession := c; connectUrl := connectUrl s; trace := trace s |}.

Definition set_connectUrl (u : option string) (s : State) : State :=
  {| sessionId := sessionId s; currentUrl := currentUrl s; browser := browser s; page := page s;
     cdpSession := cdpSession s; connectUrl := u; trace := trace s |}.

Definition add_entry (e : Entry) (s : State) : State :=
  {| sessionId := sessionId s; currentUrl := currentUrl s; browser := browser s; page := page s;
     cdpSession := cdpSession s; connectUrl := connectUrl s; trace := (trace s ++ [e])%list |}.

#[export] Instance traced : Traced State :=
  {| trace_of := trace; log_entry := add_entry |}.

(** [this.page && this.cdpSession] *)
Definition connected (s : State) : bool :=
  match page s with
  | Some _ => cdpSession s
  | None => false
  end.

(** [sessionInfo?.connectUrl || sessionInfo?.wsUrl || null] *)
Definition info_url (i : option SessionInfo) : option string :=
  match i with
  | Some r =>
      match truthy_str (info_connectUrl r) with
      | Some u => Some u
      | None => truthy_str (info_wsUrl r)
      end
  | None => None
  end.

Definition no_url (s : State) : bool :=
  match truthy_str (connectUrl s) with
  | Some _ => false
  | None => true
  end.

(** The in-page scan of [clickByText] over [document.querySelectorAll('button')]. *)
Definition buttonText (b : Button) : string :=
  match textContent b with
  | EmptyString => innerText b
  | t => t
  end.

Fixpoint scanButtons (normalizedTarget : string) (buttons : list Button) : bool :=
  match buttons with
  | [] => false
  | btn :: rest =>
      let btnText := toLowerCase (trim (collapse_spaces (buttonText btn))) in
      if offsetParent btn && includes normalizedTarget btnText
      then (if click_ok btn then true
            else if dispatch_ok btn then true
            else scanButtons normalizedTarget rest)
      else scanButtons normalizedTarget rest
  end.

(** The delay written in the in-page repaint script:
    [Math.max(maxDuration + 100, 300)], or 300 without animations.  No page
    gets as far as computing it: see [repaintSyntax] and [screenshot]. *)
Definition settleDelay (animations : list Animation) : number :=
  match map scaledDuration animations with
  | d :: ds => Qmax (math_max d ds + 100) 300
  | [] => 300
  end.

(** The repaint script is handed to [page.evaluate] as a template string,
    and the part of it that makes hidden tiles visible is written with the
    casts [(el as HTMLElement).style...]. *)
Definition repaintSyntax : Syntax := TypeScriptCasts.

Section Session.
Variable drv : Driver.

Definition ensureCDPConnection : M State unit :=
  isConnected <- gets connected ;;
  if isConnected then ret tt
  else
    try_catch
      (missing <- gets no_url ;;
       when missing
         (try_catch
            (id <- gets sessionId ;;
             wsUrl <- perform drv (GetDebugConnectionURLs id) ;;
             modify (set_connectUrl (truthy_str wsUrl)))
            (fun err1 => console "warn" ("getDebugConnectionURLs failed: " ++ describe err1)) ;;
          missing1 <- gets no_url ;;
          when missing1
            (try_catch
               (id <- gets sessionId ;;
                sessionInfo <- perform_optional drv "sessions.get" (SessionsGet id) ;;
                modify (set_connectUrl (info_url sessionInfo)))
               (fun err2 => console "warn" ("sessions.get failed: " ++ describe err2))) ;;
          missing2 <- gets no_url ;;
          when missing2
            (try_catch
               (id <- gets sessionId ;;
                sessionInfo <- perform_optional drv "sessions.retrieve" (SessionsRetrieve id) ;;
                modify (set_connectUrl (info_url sessionInfo)))
               (fun err3 => console "warn" ("sessions.retrieve failed: " ++ describe err3)))) ;;
       url <- gets connectUrl ;;
       match truthy_str url with
       | None =>
           throw (JsError "Could not get Browserbase CDP connection URL. Make sure the session is active.")
       | Some u =>
           console "log" ("Connecting to Browserbase CDP at: " ++ String.substring 0 50 u ++ "...") ;;
           info <- perform drv (ConnectOverCDP u 30000) ;;
           modify (set_browser true) ;;
           if (contexts info =? 0)%nat
           then throw (JsError "No browser contexts available after CDP connection")
           else
             (if (0 <? pages info)%nat then ret tt else perform drv NewPage) ;;
             modify (set_page (Some MainPage)) ;;
             perform drv NewCDPSession ;;
             modify (set_cdpSession true) ;;
             console "log" "CDP connection established successfully"
       end)
      (fun error =>
         console "error" ("CDP connection failed: " ++ describe error) ;;
         throw (JsError ("CDP connection failed: " ++ describe error
                           ++ ". Please check your Browserbase API key and session status."))).

Definition navigate (url : string) : M State unit :=
  modify (set_currentUrl url) ;;
  try_catch
    (ensureCDPConnection ;;
     pg <- gets page ;;
     match pg with
     | Some p =>
         try_catch
           (perform drv (PageGoto p url (Some DomContentLoaded) 45000) ;;
            wait 2000)
           (fun timeoutError =>
              console "warn" "Navigation timeout with domcontentloaded, trying commit..." ;;
              try_catch
                (perform drv (PageGoto p url (Some Commit) 60000) ;;
                 wait 3000)
                (fun commitError =>
                   console "warn" "Navigation failed, attempting without wait..." ;;
                   ignore_errors (perform drv (PageGoto p url None 10000)) ;;
                   wait 3000))
     | None =>
         id <- gets sessionId ;;
         perform drv (LoadURL url id) ;;
         wait 3000
     end)
    (fun error =>
       console "warn" ("Navigation warning: " ++ describe error) ;;
       wait 3000).

Definition screenshot : M State Buffer :=
  try_catch
    (ensureCDPConnection ;;
     cdp <- gets cdpSession ;;
     (if cdp then ret tt else throw (JsError "CDP session not available")) ;;
     pg <- gets page ;;
     match pg with
     | Some p =>
         try_catch
           (animations <- evaluateText drv repaintSyntax (GetAnimations p true) ;;
            wait (settleDelay animations))
           (fun _ => wait 300)
     | None => wait 300
     end ;;
     result <- perform drv CaptureScreenshot ;;
     match result with
     | Some r =>
         match truthy_str (data r) with
         | Some d => perform drv (BufferFromBase64 d)
         | None => throw (JsError "CDP screenshot returned no data")
         end
     | None => throw (JsError "CDP screenshot returned no data")
     end)
    (fun error =>
       id <- gets sessionId ;;
       console "error" ("Screenshot failed for session " ++ id ++ ": " ++ describe error) ;;
       throw (JsError ("Screenshot failed: " ++ describe error))).

(** [try { ...; return true } catch { }]: a strategy that gives [false] when
    it throws, so that the next one is tried. *)
Definition attempt (c : M State bool) : M State bool :=
  try_catch c (fun _ => ret false).

Definition clickByText (text : string) (exact : option bool) : M State bool :=
  try_catch
    (ensureCDPConnection ;;
     pg <- gets page ;;
     match pg with
     | None => ret false
     | Some p =>
         or_else
           (attempt
              (perform drv (RegExpNew text "i") ;;
               let button := GetByRole "button" text in
               perform drv (WaitVisible p button 2000) ;;
               perform drv (LocClick p button 3000) ;;
               wait 500 ;;
               ret true))
        (or_else
           (attempt
              (let locator :=
                 match exact with
                 | Some true => GetByText text true
                 | _ => GetByText text false
                 end in
               perform drv (WaitVisible p locator 2000) ;;
               perform drv (LocClick p (first locator) 3000) ;;
               wait 500 ;;
               ret true))
        (or_else
           (attempt
              (let locator := HasText (Css "button") text in
               perform drv (WaitVisible p locator 2000) ;;
               count <- perform drv (LocCount p locator) ;;
               if (0 <? count)%nat
               then perform drv (LocClick p (first locator) 3000) ;; wait 500 ;; ret true
               else ret false))
        (or_else
           (attempt
              (let xpath :=
                 "//button[contains(translate(text(), 'ABCDEFGHIJKLMNOPQRSTUVWXYZ', 'abcdefghijklmnopqrstuvwxyz'), '"
                   ++ toLowerCase text ++ "')]" in
               perform drv (WaitVisible p (XPath xpath) 2000) ;;
               perform drv (LocClick p (first (XPath xpath)) 3000) ;;
               wait 500 ;;
               ret true))
           (buttons <- perform drv (QueryButtons p) ;;
            let normalizedTarget := trim (collapse_spaces (toLowerCase text)) in
            if scanButtons normalizedTarget buttons
            then wait 500 ;; ret true
            else ret false))))
     end)
    (fun error =>
       console "warn" ("Click by text failed for '" ++ text ++ "': " ++ describe error) ;;
       ret false).

Definition close : M State unit :=
  try_catch
    (cdp <- gets cdpSession ;;
     when cdp (perform drv CdpDetach ;; modify (set_cdpSession false)) ;;
     br <- gets browser ;;
     when br (perform drv BrowserClose ;; modify (set_browser false)) ;;
     modify (set_page None))
    (fun error => console "warn" ("Error closing CDP connections: " ++ describe error)) ;;
  id <- gets sessionId ;;
  perform drv (CompleteSession id).

Definition enterFrame (iframe : nat) : M State bool :=
  frame <- perform drv (ContentFrame iframe) ;;
  match frame with
  | Some f => modify (set_page (Some (FramePage f))) ;; ret true
  | None => ret false
  end.

Definition switchToIframe (selector : option string) : M State bool :=
  try_catch
    (ensureCDPConnection ;;
     pg <- gets page ;;
     match pg with
     | None => ret false
     | Some p =>
         or_else
           (match truthy_str selector with
            | Some sel =>
                iframe <- perform drv (QuerySelector p sel) ;;
                match iframe with
                | Some i => enterFrame i
                | None => ret false
                end
            | None => ret false
            end)
           (pg' <- gets page ;;
            match pg' with
            | Some p' =>
                iframes <- perform drv (QueryIframes p') ;;
                match iframes with
                | [] => ret false
                | _ =>
                    found <- scanIframes drv iframes (None, 0%Q) ;;
                    match fst found with
                    | Some largestIframe => enterFrame largestIframe
                    | None => ret false
                    end
                end
            | None => throw (JsError "Cannot read properties of null")
            end)
     end)
    (fun error =>
       console "warn" ("Iframe switching failed: " ++ describe error) ;;
       ret false).

End Session.

End Browserbase.

(* ===================================================================== *)
(** ** Mock sessions and drivers used in the examples *)
(* ===================================================================== *)

Module Mock.

Import Engine.

(** [String(n)] for an integer-valued number. *)
Definition showInteger (n : number) : string :=
  DecimalString.NilZero.string_of_int (Z.to_int (Qfloor n)).

(** The time-outs of [defaultConfig]. *)
Definition defaults : TimeoutConfig := {| load := 30; action := 20; total := 300 |}.

(** Time-outs with a total of one second. *)
Definition hurried : TimeoutConfig := {| load := 30; action := 20; total := 1 |}.

Definition w0 : World := {| now := 0; calls := []; warnings := [] |}.

Definition waitFor (d : option number) : ActionConfig :=
  {| type := "wait"; duration := d; selector := None; key := None; repeat := None |}.

Definition clickOn (sel : option string) : ActionConfig :=
  {| type := "click"; duration := None; selector := sel; key := None; repeat := None |}.

Definition press (k : string) (r : option number) : ActionConfig :=
  {| type := "keypress"; duration := None; selector := None; key := Some k; repeat := r |}.

(** A session whose [wait] sleeps as long as asked, whose [click("#play")]
    throws "element not found" and whose other calls succeed. *)
Definition session : Session :=
  fun _ c =>
    match c with
    | SWait ms => Resolves (Qfloor ms)
    | SClick sel =>
        if sel =? "#play" then Rejects 30 (JsError "element not found")
        else Resolves 30
    | SKeypress _ => Resolves 100
    end.


(** A page for the session examples: its buttons, its running animations
    (what [getTiming().duration] reports for each), its iframes (bounding box
    and content frame of each) and the bytes a capture gives. *)
Record Dom : Type := {
  buttons : list Button;
  animations : list Animation;
  iframes : list (option Box * option nat);
  shot : Buffer
}.

(** Text matching of the mock's [getByText]: white space is normalized on
    both sides and case is ignored. *)
Definition normalized (s : string) : string := toLowerCase (trim (collapse_spaces s)).

Definition showsText (t : string) (b : Button) : bool :=
  offsetParent b && includes (normalized t) (normalized (Browserbase.buttonText b)).

Definition textLocator (l : Locator) : option string :=
  match l with
  | GetByText t _ => Some t
  | Nth (GetByText t _) _ => Some t
  | _ => None
  end.

(** Whether some visible button carries the text of a [getByText] locator;
    the other locators find nothing on this page. *)
Definition locates (dom : Dom) (l : Locator) : bool :=
  match textLocator l with
  | Some t => existsb (showsText t) (buttons dom)
  | None => false
  end.

(** A backend over a page that never fails by itself. *)
Fixpoint browser (dom : Dom) (A : Type) (p : Prim A) (tr : Trace) {struct p} : Res A :=
  match p in Prim T return Res T with
  | PageGoto _ _ _ _ => Ok tt
  | PageFocus _ _ => Ok tt
  | GetAnimations _ _ => Ok (animations dom)
  | PageScreenshot _ _ => Ok (shot dom)
  | RegExpNew _ _ => Ok tt
  | IsVisible _ l _ => Ok (locates dom l)
  | WaitVisible _ l _ =>
      if locates dom l then Ok tt else Throw (JsError "Timeout 2000ms exceeded.")
  | LocClick _ l _ =>
      if locates dom l then Ok tt else Throw (JsError "Timeout 3000ms exceeded.")
  | LocCount _ l => Ok (if locates dom l then 1%nat else 0%nat)
  | LocAll _ l => Ok (if locates dom l then 1%nat else 0%nat)
  | QueryButtons _ => Ok (buttons dom)
  | QuerySelector _ _ => Ok None
  | QueryIframes _ => Ok (seq 0 (List.length (iframes dom)))
  | BoundingBox i => Ok (fst (nth i (iframes dom) (None, None)))
  | ContentFrame i => Ok (snd (nth i (iframes dom) (None, None)))
  | Timed _ q =>
      match browser dom _ q tr with
      | Ok a => Ok (Some a)
      | Throw e => Throw e
      end
  | CdpDetach => Ok tt
  | CaptureScreenshot => Ok (Some {| data := Some "iVBORw0KGgo=" |})
  | BufferFromBase64 _ => Ok (shot dom)
  | ContextClose => Ok tt
  | BrowserClose => Ok tt
  | GetDebugConnectionURLs _ => Ok (Some "wss://connect.browserbase.com/mock")
  | SessionsGet _ => Ok None
  | SessionsRetrieve _ => Ok None
  | ConnectOverCDP _ _ => Ok {| contexts := 1; pages := 1 |}
  | NewPage => Ok tt
  | NewCDPSession => Ok tt
  | LoadURL _ _ => Ok tt
  | CompleteSession _ => Ok tt
  | HasMethod _ => Ok false
  end.

Definition isCompleteSession {A : Type} (p : Prim A) : bool :=
  match p with
  | CompleteSession _ => true
  | _ => false
  end.

Definition completed (tr : Trace) : bool :=
  existsb (fun e => match e with Called p => isCompleteSession p | _ => false end) tr.

(** A backend whose SDK refuses to complete a session twice. *)
Definition completesOnce (base : Driver) : Driver :=
  fun A p tr =>
    if isCompleteSession p && completed tr
    then Throw (JsError "Session already completed")
    else base A p tr.

Definition isWaitVisible {A : Type} (p : Prim A) : bool :=
  match p with
  | WaitVisible _ _ _ => true
  | _ => false
  end.

(** A backend on which no Playwright locator becomes visible in time. *)
Definition withoutLocators (base : Driver) : Driver :=
  fun A p tr =>
    if isWaitVisible p
    then Throw (JsError "Timeout 2000ms exceeded.")
    else base A p tr.

(** The first bytes of a PNG file. *)
Definition png : Buffer := [Byte.x89; Byte.x50; Byte.x4e; Byte.x47].

Definition newline : string := String "010"%char EmptyString.

(** The no-break space U+00A0. *)
Definition nbsp : string := String (ascii_of_nat 160) EmptyString.

Definition button (text : string) : Button :=
  {| textContent := text; innerText := text; offsetParent := true;
     click_ok := true; dispatch_ok := true |}.

Definition animation (d : number) : Animation := {| timing_duration := Some d |}.

Definition box (w h : number) : Box := {| x := 0; y := 0; width := w; height := h |}.

(** A page with a button "  Play  \n", two animations of 150 and 400, and
    two iframes of 800x600 and 100x100. *)
Definition gamePage : Dom :=
  {| buttons := [button ("  Play  " ++ newline)];
     animations := [animation 150; animation 400];
     iframes := [(Some (box 800 600), Some 7%nat); (Some (box 100 100), Some 8%nat)];
     shot := png |}.

(** The same page without buttons, animations or iframes. *)
Definition emptyPage : Dom :=
  {| buttons := []; animations := []; iframes := []; shot := png |}.

(** A local session as its provider creates it. *)
Definition local0 : Local.State :=
  {| Local.currentUrl := "about:blank"; Local.page := MainPage;
     Local.cdpSession := true; Local.trace := [] |}.

(** A Browserbase session as its provider creates it, and one that has
    connected. *)
Definition remote0 : Browserbase.State :=
  {| Browserbase.sessionId := "s-1"; Browserbase.currentUrl := "about:blank";
     Browserbase.browser := false; Browserbase.page := None;
     Browserbase.cdpSession := false; Browserbase.connectUrl := None;
     Browserbase.trace := [] |}.

Definition remote1 : Browserbase.State :=
  {| Browserbase.sessionId := "s-1"; Browserbase.currentUrl := "about:blank";
     Browserbase.browser := true; Browserbase.page := Some MainPage;
     Browserbase.cdpSession := true;
     Browserbase.connectUrl := Some "wss://connect.browserbase.com/mock";
     Browserbase.trace := [] |}.

End Mock.

(* ===================================================================== *)
(** ** Vocabulary of the statements about sessions *)
(* ===================================================================== *)

Module Stated.

(** The backend gives the same answer to a call whenever it is asked. *)
Definition answers (drv : Driver) {A : Type} (p : Prim A) (r : Res A) : Prop :=
  forall tr, drv A p tr = r.

(** The backend throws whenever it is asked. *)
Definition fails (drv : Driver) {A : Type} (p : Prim A) : Prop :=
  forall tr, exists e, drv A p tr = Throw e.

(** The choice made by the loop of [switchToIframe] when the bounding box of
    each iframe is known in advance. *)
Fixpoint pickFrom (boxOf : nat -> option Box) (iframes : list nat)
  (acc : option nat * number) : option nat * number :=
  match iframes with
  | [] => acc
  | iframe :: rest =>
      match boxOf iframe with
      | Some b =>
          if gtb (area b) (snd acc) && gtb (area b) minIframeArea
          then pickFrom boxOf rest (Some iframe, area b)
          else pickFrom boxOf rest acc
      | None => pickFrom boxOf rest acc
      end
  end.

(** What the accumulator of the scan holds: no iframe and an area that is
    not above the threshold, or an iframe above the threshold with its
    area. *)
Definition held (boxOf : nat -> option Box) (acc : option nat * number) : Prop :=
  match fst acc with
  | None => (snd acc <= minIframeArea)%Q
  | Some i => exists b, boxOf i = Some b /\ area b = snd acc /\ (minIframeArea < snd acc)%Q
  end.

(** The pieces of a text between its white-space characters:
    [s.split(/\s/)]. *)
Fixpoint pieces (s : string) : list string :=
  match s with
  | EmptyString => [EmptyString]
  | String c r =>
      if is_space c then EmptyString :: pieces r
      else match pieces r with
           | w :: ws => String c w :: ws
           | [] => [String c EmptyString]
           end
  end.

Definition nonempty (s : string) : bool :=
  match s with
  | EmptyString => false
  | String _ _ => true
  end.

(** The words of a text: its maximal runs of characters that are not white
    space. *)
Definition words (s : string) : list string := filter nonempty (pieces s).

(** A text with its white space normalized: its words, one space between
    two of them, nothing before the first and nothing after the last. *)
Definition singleSpaced (s : string) : string := String.concat " " (words s).

(** A text whose white space was collapsed, once its end is trimmed, told
    from its pieces ([in_run]: the text follows white space). *)
Definition trimmed_end (in_run : bool) (ps : list string) : string :=
  match ps with
  | [] => EmptyString
  | EmptyString :: ws =>
      match filter nonempty ws with
      | [] => EmptyString
      | v :: vs => (if in_run then EmptyString else " ") ++ String.concat " " (v :: vs)
      end
  | w :: ws => String.concat " " (w :: filter nonempty ws)
  end.

(** A button that a click by [text] lands on: it is displayed, its text
    contains [text] (white space normalized and case ignored on both
    sides), and it can be clicked, by [click()] or by a click event. *)
Definition lands (text : string) (b : Button) : bool :=
  offsetParent b
  && includes (singleSpaced (toLowerCase text))
       (toLowerCase (singleSpaced (Browserbase.buttonText b)))
  && (click_ok b || dispatch_ok b).

(** The calls of a trace, without the waits and the console output. *)
Definition isCall (e : Entry) : bool :=
  match e with
  | Called _ => true
  | _ => false
  end.

Definition callsOf (tr : Trace) : Trace := filter isCall tr.

End Stated.

Import Stated.

(* ===================================================================== *)
(** ** The two halves of [ensureCDPConnection] *)
(* ===================================================================== *)

Module Connection.

Import Browserbase.

Section Halves.
Variable drv : Driver.

(** The first half: when the session has no connection address, ask the
    SDK for one, by three methods in turn. *)
Definition discover : M State unit :=
  missing <- gets no_url ;;
  when missing
    (try_catch
       (id <- gets sessionId ;;
        wsUrl <- perform drv (GetDebugConnectionURLs id) ;;
        modify (set_connectUrl (truthy_str wsUrl)))
       (fun err1 => console "warn" ("getDebugConnectionURLs failed: " ++ describe err1)) ;;
     missing1 <- gets no_url ;;
     when missing1
       (try_catch
          (id <- gets sessionId ;;
           sessionInfo <- perform_optional drv "sessions.get" (SessionsGet id) ;;
           modify (set_connectUrl (info_url sessionInfo)))
          (fun err2 => console "warn" ("sessions.get failed: " ++ describe err2))) ;;
     missing2 <- gets no_url ;;
     when missing2
       (try_catch
          (id <- gets sessionId ;;
           sessionInfo <- perform_optional drv "sessions.retrieve" (SessionsRetrieve id) ;;
           modify (set_connectUrl (info_url sessionInfo)))
          (fun err3 => console "warn" ("sessions.retrieve failed: " ++ describe err3)))).

(** The second half: connect to the address, take the first page of the
    first context and open a CDP session on it. *)
Definition connect : M State unit :=
  url <- gets connectUrl ;;
  match truthy_str url with
  | None =>
      throw (JsError "Could not get Browserbase CDP connection URL. Make sure the session is active.")
  | Some u =>
      console "log" ("Connecting to Browserbase CDP at: " ++ String.substring 0 50 u ++ "...") ;;
      info <- perform drv (ConnectOverCDP u 30000) ;;
      modify (set_browser true) ;;
      if (contexts info =? 0)%nat
      then throw (JsError "No browser contexts available after CDP connection")
      else
        (if (0 <? pages info)%nat then ret tt else perform drv NewPage) ;;
        modify (set_page (Some MainPage)) ;;
        perform drv NewCDPSession ;;
        modify (set_cdpSession true) ;;
        console "log" "CDP connection established successfully"
  end.

(** The [catch] block around both. *)
Definition wrap (error : Thrown) : M State unit :=
  console "error" ("CDP connection failed: " ++ describe error) ;;
  throw (JsError ("CDP connection failed: " ++ describe error
                    ++ ". Please check your Browserbase API key and session status.")).

End Halves.

(** A discovery call that yields no address: it throws, or what it returns
    has none. *)
Definition yieldsNothing {A : Type} (drv : Driver) (p : Prim A) (url : A -> option string)
  : Prop :=
  forall tr,
    match drv A p tr with
    | Ok a => url a = None
    | Throw _ => True
    end.

End Connection.

(* ===================================================================== *)
(** ** Key names and key codes *)
(* ===================================================================== *)

Module Keys.

(** [table[key]] on an object literal used as a table (own keys only). *)
Fixpoint lookup {V : Type} (key : string) (table : list (string * V)) : option V :=
  match table with
  | [] => None
  | (k, v) :: rest => if k =? key then Some v else lookup key rest
  end.

(** The [keyMap] of [keypress], the same in both sessions. *)
Definition keyMap : list (string * string) :=
  [("ArrowUp", "ArrowUp"); ("ArrowDown", "ArrowDown"); ("ArrowLeft", "ArrowLeft");
   ("ArrowRight", "ArrowRight"); ("Space", " "); ("Enter", "Enter"); ("Escape", "Escape")].

(** [keyMap[key] || key] *)
Definition keyToPress (key : string) : string :=
  match truthy_str (lookup key keyMap) with
  | Some k => k
  | None => key
  end.

Definition keyCodes : list (string * number) :=
  [("ArrowUp", 38%Q); ("ArrowDown", 40%Q); ("ArrowLeft", 37%Q); ("ArrowRight", 39%Q);
   (" ", 32%Q); ("Enter", 13%Q); ("Escape", 27%Q)].

(** [getKeyCode]: [keyCodes[key] || 0] *)
Definition getKeyCode (key : string) : number := or_num (lookup key keyCodes) 0.

Definition keyCodeStrings : list (string * string) :=
  [("ArrowUp", "ArrowUp"); ("ArrowDown", "ArrowDown"); ("ArrowLeft", "ArrowLeft");
   ("ArrowRight", "ArrowRight"); (" ", "Space"); ("Enter", "Enter"); ("Escape", "Escape")].

(** [getKeyCodeString]: [keyCodeStrings[key] || key] *)
Definition getKeyCodeString (key : string) : string :=
  match truthy_str (lookup key keyCodeStrings) with
  | Some c => c
  | None => key
  end.

End Keys.

(* ===================================================================== *)
(** ** The input operations of the sessions *)
(* ===================================================================== *)

Module Ops.

Inductive MouseEvent : Type := MouseMoved | MousePressed | MouseReleased.

Inductive KeyEvent : Type := KeyDown | KeyUp.

(** [element.getBoundingClientRect()] *)
Record Rect : Type := {
  left : number;
  top : number;
  rect_width : number;
  rect_height : number
}.

(** The element of the in-page click scripts: whether it is laid out
    ([offsetParent !== null]), whether [click()] returns, whether
    [dispatchEvent] returns. *)
Record Target : Type := {
  displayed : bool;
  click_works : bool;
  events_work : bool
}.

(** What [page.evaluate(script)] gives back, as far as the sessions look. *)
Inductive JsValue : Type :=
| Undefined
| Null
| Bool (b : bool)
| Number (n : number)
| Text (s : string).

(** The backend calls of [click], [keypress], [clickAt], [evaluate] and
    [switchToMainFrame].  [FocusScript] is the [page.evaluate] of the script
    that focuses window and body ([events]: and dispatches focus events);
    [QueryRect] and [QueryTarget] are the [document.querySelector] of the
    in-page click scripts; [DispatchMouse] and [DispatchKey] are the CDP
    commands [Input.dispatchMouseEvent] and [Input.dispatchKeyEvent]. *)
Inductive Op : Type -> Type :=
| PageClick (pg : PageRef) (sel : string) (timeout : number) (force : bool) : Op unit
| BringToFront (pg : PageRef) : Op unit
| FocusScript (pg : PageRef) (events : bool) : Op unit
| QueryRect (pg : PageRef) (sel : string) : Op (option Rect)
| QueryTarget (pg : PageRef) (sel : string) : Op (option Target)
| DispatchMouse (ev : MouseEvent) (x y : number) (leftButton : bool) : Op unit
| DispatchKey (ev : KeyEvent) (windowsVirtualKeyCode : number) (code key : string) : Op unit
| KeyboardDown (pg : PageRef) (key : string) : Op unit
| KeyboardUp (pg : PageRef) (key : string) : Op unit
| KeyboardPress (pg : PageRef) (key : string) : Op unit
| MouseClick (pg : PageRef) (x y : number) : Op unit
| Evaluate (pg : PageRef) (script : string) : Op JsValue
| BrowserPages : Op nat.

(** What these operations leave behind: backend calls, and the DOM events
    that an in-page script delivered to its element. *)
Inductive Step : Type :=
| Did {A : Type} (o : Op A)
| Delivered (events : list string).

Definition Log : Type := list Step.

(** The backend answers a call from what the session did before: the trace
    of its other operations and the log of these. *)
Definition Backend : Type := forall A : Type, Op A -> Trace -> Log -> Res A.

(** A session with the log of its input operations. *)
Record Ext (S : Type) : Type := {
  base : S;
  steps : Log
}.
Arguments base {S} _.
Arguments steps {S} _.

Section Effects.
Context {S : Type} `{Traced S}.
Variable bk : Backend.

Definition note (e : Step) (s : Ext S) : Ext S :=
  {| base := base s; steps := (steps s ++ [e])%list |}.

(** An operation of the session proper, run on its part of the state. *)
Definition lift {A : Type} (c : M S A) : M (Ext S) A :=
  fun s => let (r, b) := c (base s) in (r, {| base := b; steps := steps s |}).

Definition op {A : Type} (o : Op A) : M (Ext S) A :=
  fun s => (bk A o (trace_of (base s)) (steps s), note (Did o) s).

Definition deliver (events : list string) : M (Ext S) unit :=
  modify (note (Delivered events)).

End Effects.

(** [Math.round] *)
Definition round (q : number) : number := inject_Z (Qfloor (q + (1 # 2))%Q).

(** [{ x: rect.left + rect.width / 2, y: rect.top + rect.height / 2 }] *)
Definition centre (r : Rect) : number * number :=
  ((left r + rect_width r / 2)%Q, (top r + rect_height r / 2)%Q).

(** The in-page click script with events:
    [if (element && element.offsetParent !== null) { element.click();
    dispatch click, mousedown, mouseup; return true } return false], any
    exception giving [false]. *)
Definition clickWithEvents {S : Type} (target : option Target) : M (Ext S) bool :=
  match target with
  | Some t =>
      if displayed t then
        if click_works t then
          if events_work t
          then deliver ["click"; "click"; "mousedown"; "mouseup"] ;; ret true
          else deliver ["click"] ;; ret false
        else ret false
      else ret false
  | None => ret false
  end.

(** The in-page click script without events: [element.click()] only. *)
Definition clickOnly {S : Type} (target : option Target) : M (Ext S) bool :=
  match target with
  | Some t =>
      if displayed t then
        if click_works t then deliver ["click"] ;; ret true else ret false
      else ret false
  | None => ret false
  end.

(** The mouse and key events sent over CDP, in order. *)
Fixpoint mouseEvents (l : Log) : list (MouseEvent * number * number) :=
  match l with
  | [] => []
  | Did (DispatchMouse ev x y _) :: rest => (ev, x, y) :: mouseEvents rest
  | _ :: rest => mouseEvents rest
  end.

Fixpoint keyEvents (l : Log) : list (KeyEvent * number * string * string) :=
  match l with
  | [] => []
  | Did (DispatchKey ev vk code key) :: rest => (ev, vk, code, key) :: keyEvents rest
  | _ :: rest => keyEvents rest
  end.

End Ops.

Import Ops.

(** *** LocalPlaywrightSession: click, keypress, evaluate, switchToMainFrame, clickAt *)

Module LocalInput.

#[local] Existing Instance Local.traced.

Section Session.
Variable showNumber : number -> string.
Variable drv : Driver.
Variable bk : Ops.Backend.

Definition click (selector : string) : M (Ext Local.State) unit :=
  try_catch
    (pg <- gets (fun s => Local.page (base s)) ;;
     lift (perform drv (PageFocus pg "body")) ;;
     op bk (PageClick pg selector 5000 false) ;;
     lift (wait 200))
    (fun error =>
       lift (console "warn" ("Click failed for selector "
                               ++ String Json.dquote (selector ++ String Json.dquote ": ")
                               ++ describe error)) ;;
       lift (wait 100)).

Definition keypress (key : string) : M (Ext Local.State) unit :=
  try_catch
    (pg <- gets (fun s => Local.page (base s)) ;;
     lift (perform drv (PageFocus pg "body")) ;;
     op bk (BringToFront pg) ;;
     let keyToPress := Keys.keyToPress key in
     op bk (KeyboardPress pg keyToPress) ;;
     lift (wait 100))
    (fun error =>
       lift (console "warn" ("Keypress failed for '" ++ key ++ "': " ++ describe error)) ;;
       lift (wait 100)).

Definition evaluate (script : string) : M (Ext Local.State) JsValue :=
  pg <- gets (fun s => Local.page (base s)) ;;
  op bk (Evaluate pg script).

Definition switchToMainFrame : M (Ext Local.State) unit :=
  lift (console "warn" "switchToMainFrame not fully supported in local mode").

Definition clickAt (x y : number) : M (Ext Local.State) bool :=
  try_catch
    (pg <- gets (fun s => Local.page (base s)) ;;
     op bk (MouseClick pg x y) ;;
     lift (wait 100) ;;
     ret true)
    (fun error =>
       lift (console "warn" ("clickAt failed at (" ++ showNumber x ++ ", " ++ showNumber y
                               ++ "): " ++ describe error)) ;;
       ret false).

End Session.

End LocalInput.

(** *** BrowserbaseSession: click, keypress, evaluate, switchToMainFrame, clickAt *)

Module BrowserbaseInput.

#[local] Existing Instance Browserbase.traced.

Section Session.
Variable showNumber : number -> string.
Variable drv : Driver.
Variable bk : Ops.Backend.

(** The in-page click of the last resort, and the check of its result. *)
Definition jsClick (pg : PageRef) (selector : string) (withEvents : bool)
  : M (Ext Browserbase.State) unit :=
  target <- op bk (QueryTarget pg selector) ;;
  clicked <- (if withEvents then clickWithEvents target else clickOnly target) ;;
  if clicked then ret tt
  else throw (JsError ("Element not found or not clickable: " ++ selector)).

Definition click (selector : string) : M (Ext Browserbase.State) unit :=
  try_catch
    (lift (Browserbase.ensureCDPConnection drv) ;;
     pg <- gets (fun s => Browserbase.page (base s)) ;;
     match pg with
     | Some p =>
         op bk (BringToFront p) ;;
         op bk (FocusScript p false) ;;
         lift (wait 100)
     | None => ret tt
     end ;;
     pg <- gets (fun s => Browserbase.page (base s)) ;;
     match pg with
     | Some p =>
         try_catch
           (op bk (PageClick p selector 5000 true))
           (fun clickError =>
              cdp <- gets (fun s => Browserbase.cdpSession (base s)) ;;
              if cdp then
                try_catch
                  (elementInfo <- op bk (QueryRect p selector) ;;
                   match elementInfo with
                   | Some r =>
                       op bk (DispatchMouse MousePressed (fst (centre r)) (snd (centre r)) true) ;;
                       lift (wait 50) ;;
                       op bk (DispatchMouse MouseReleased (fst (centre r)) (snd (centre r)) true) ;;
                       lift (wait 300)
                   | None => throw (JsError "Element not found")
                   end)
                  (fun cdpError => jsClick p selector true)
              else jsClick p selector false) ;;
         lift (wait 300)
     | None => throw (JsError "Page not available for click")
     end)
    (fun error =>
       lift (console "warn" ("Click failed on '" ++ selector ++ "': " ++ describe error)) ;;
       lift (wait 500)).

(** [page.keyboard.down], a pause, [page.keyboard.up]. *)
Definition playwrightKey (pg : PageRef) (keyToPress : string) : M (Ext Browserbase.State) unit :=
  op bk (KeyboardDown pg keyToPress) ;;
  lift (wait 50) ;;
  op bk (KeyboardUp pg keyToPress) ;;
  lift (wait 100).

Definition keypress (key : string) : M (Ext Browserbase.State) unit :=
  try_catch
    (lift (Browserbase.ensureCDPConnection drv) ;;
     pg <- gets (fun s => Browserbase.page (base s)) ;;
     match pg with
     | Some p =>
         op bk (FocusScript p true) ;;
         op bk (BringToFront p) ;;
         lift (perform drv (PageFocus p "body")) ;;
         lift (wait 200) ;;
         let keyToPress := Keys.keyToPress key in
         cdp <- gets (fun s => Browserbase.cdpSession (base s)) ;;
         if cdp then
           try_catch
             (op bk (DispatchKey KeyDown (Keys.getKeyCode keyToPress)
                       (Keys.getKeyCodeString keyToPress) keyToPress) ;;
              lift (wait 50) ;;
              op bk (DispatchKey KeyUp (Keys.getKeyCode keyToPress)
                       (Keys.getKeyCodeString keyToPress) keyToPress) ;;
              lift (wait 100))
             (fun cdpError =>
                lift (console "warn" ("CDP keypress failed, falling back to Playwright: "
                                        ++ describe cdpError)) ;;
                playwrightKey p keyToPress)
         else playwrightKey p keyToPress
     | None => throw (JsError "Page not available for keypress")
     end)
    (fun error =>
       lift (console "warn" ("Keypress failed for '" ++ key ++ "': " ++ describe error)) ;;
       lift (wait 100)).

Definition evaluate (script : string) : M (Ext Browserbase.State) JsValue :=
  try_catch
    (lift (Browserbase.ensureCDPConnection drv) ;;
     pg <- gets (fun s => Browserbase.page (base s)) ;;
     match pg with
     | Some p => op bk (Evaluate p script)
     | None => throw (JsError "Page not available for evaluation")
     end)
    (fun error =>
       lift (console "warn" ("Script evaluation failed: " ++ describe error)) ;;
       ret Undefined).

Definition switchToMainFrame : M (Ext Browserbase.State) unit :=
  try_catch
    (lift (Browserbase.ensureCDPConnection drv) ;;
     hasBrowser <- gets (fun s => Browserbase.browser (base s)) ;;
     when hasBrowser
       (pages <- op bk BrowserPages ;;
        when (0 <? pages)%nat (lift (modify (Browserbase.set_page (Some MainPage))))))
    (fun error =>
       lift (console "warn" ("Switching to main frame failed: " ++ describe error))).

Definition clickAt (x y : number) : M (Ext Browserbase.State) bool :=
  try_catch
    (lift (Browserbase.ensureCDPConnection drv) ;;
     cdp <- gets (fun s => Browserbase.cdpSession (base s)) ;;
     sent <- (if cdp then
                try_catch
                  (op bk (DispatchMouse MouseMoved (round x) (round y) false) ;;
                   lift (wait 50) ;;
                   op bk (DispatchMouse MousePressed (round x) (round y) true) ;;
                   lift (wait 50) ;;
                   op bk (DispatchMouse MouseReleased (round x) (round y) true) ;;
                   lift (wait 100) ;;
                   ret true)
                  (fun cdpError =>
                     lift (console "warn" ("CDP clickAt failed, trying Playwright: "
                                             ++ describe cdpError)) ;;
                     ret false)
              else ret false) ;;
     if sent then ret true
     else
       pg <- gets (fun s => Browserbase.page (base s)) ;;
       match pg with
       | Some p =>
           op bk (MouseClick p x y) ;;
           lift (wait 100) ;;
           ret true
       | None => ret false
       end)
    (fun error =>
       lift (console "warn" ("clickAt failed at (" ++ showNumber x ++ ", " ++ showNumber y
                               ++ "): " ++ describe error)) ;;
       ret false).

End Session.

End BrowserbaseInput.

(* ===================================================================== *)
(** ** InteractionEngine: detectAndInteract *)
(* ===================================================================== *)

Module Detect.

(** The button that the XPath search of the second script finds. *)
Record ButtonAttrs : Type := {
  button_id : string;
  className : string
}.

(** What [detectAndInteract] asks of its session.  [Probe selector] is
    [evaluate] of [document.querySelector('selector') !== null];
    [FindButton lowered] is [evaluate] of the script that returns the first
    button whose text contains [lowered]; [DescribeButton lowered] is the
    same search made by the script that names the button. *)
Inductive Ask : Type -> Type :=
| Probe (selector : string) : Ask JsValue
| FindButton (lowered : string) : Ask JsValue
| DescribeButton (lowered : string) : Ask (option ButtonAttrs)
| Click (selector : string) : Ask unit
| Wait (ms : number) : Ask unit.

Inductive Asked : Type :=
| Was {A : Type} (q : Ask A).

Definition History : Type := list Asked.

Definition Session : Type := forall A : Type, Ask A -> History -> Res A.

(** [if (v)] *)
Definition truthy (v : JsValue) : bool :=
  match v with
  | Undefined => false
  | Null => false
  | Bool b => b
  | Number n => negb (Qeq_bool n 0)
  | Text EmptyString => false
  | Text _ => true
  end.

(** [className.split(' ')[0]] *)
Fixpoint firstClass (className : string) : string :=
  match className with
  | EmptyString => EmptyString
  | String c rest => if Ascii.eqb c " " then EmptyString else String c (firstClass rest)
  end.

Definition quoted (s : string) : string := String Json.dquote (s ++ String Json.dquote EmptyString).

(** The selector that the second script returns for the button it found. *)
Definition selectorFor (b : ButtonAttrs) : string :=
  match button_id b with
  | String _ _ => "#" ++ button_id b
  | EmptyString =>
      match className b with
      | String _ _ => "." ++ firstClass (className b)
      | EmptyString => "button[data-qa-found=" ++ quoted "true" ++ "]"
      end
  end.

Definition commonSelectors : list string :=
  ["button.start"; "button.play"; ".start-button"; ".play-button";
   "[data-action=" ++ quoted "start" ++ "]"; "[data-action=" ++ quoted "play" ++ "]";
   "#start"; "#play";
   "button[id*=" ++ quoted "start" ++ " i]"; "button[id*=" ++ quoted "play" ++ " i]";
   "button[class*=" ++ quoted "start" ++ " i]"; "button[class*=" ++ quoted "play" ++ " i]"].

Definition textButtons : list string := ["Start"; "Play"; "Begin"; "Go"].

Section Engine.
Variable session : Session.

Definition ask {A : Type} (q : Ask A) : M History A :=
  fun h => (session A q h, (h ++ [Was q])%list).

(** A [for] loop whose body returns from the function ([true]) or goes on
    to the next element ([false]). *)
Fixpoint firstThat {X : Type} (body : X -> M History bool) (l : list X) : M History bool :=
  match l with
  | [] => ret false
  | x :: rest => returned <- body x ;; if returned then ret true else firstThat body rest
  end.

Definition trySelector (selector : string) : M History bool :=
  try_catch
    (exists_ <- ask (Probe selector) ;;
     if truthy exists_
     then ask (Click selector) ;; ask (Wait 1000) ;; ret true
     else ret false)
    (fun _ => ret false).

Definition tryText (text : string) : M History bool :=
  try_catch
    (found <- ask (FindButton (toLowerCase text)) ;;
     if truthy found
     then
       button <- ask (DescribeButton (toLowerCase text)) ;;
       match truthy_str (option_map selectorFor button) with
       | Some buttonSelector => ask (Click buttonSelector) ;; ask (Wait 1000) ;; ret true
       | None => ret false
       end
     else ret false)
    (fun _ => ret false).

Definition detectAndInteract : M History unit :=
  returned <- firstThat trySelector commonSelectors ;;
  if returned then ret tt
  else firstThat tryText textButtons ;; ret tt.

End Engine.

(** The clicks asked of the session, in order. *)
Fixpoint clicks (h : History) : list string :=
  match h with
  | [] => []
  | Was (Click selector) :: rest => selector :: clicks rest
  | _ :: rest => clicks rest
  end.

(** What one turn of a loop of [detectAndInteract] did: nothing was clicked
    and the loop goes on, or one selector was clicked, the second was
    waited, and the function returns. *)
Definition turned (h : History) (r : Res bool * History) : Prop :=
  (fst r = Ok false /\ clicks (snd r) = clicks h)
  \/ (fst r = Ok true
      /\ exists sel pre,
           snd r = (pre ++ [Was (Click sel); Was (Wait 1000)])%list
           /\ clicks (snd r) = (clicks h ++ [sel])%list
           /\ sel <> EmptyString
           /\ (In sel commonSelectors \/ exists b, sel = selectorFor b)).

(** A question that the session does not answer with something truthy. *)
Definition notFound (session : Session) (q : Ask JsValue) : Prop :=
  forall h, match session _ q h with Ok v => truthy v = false | Throw _ => True end.

End Detect.

(* ===================================================================== *)
(** ** BrowserbaseProvider.createSession and its caller *)
(* ===================================================================== *)

Module Provider.

(** The object that [client.createSession] resolves with: the properties
    the provider reads ([None]: not there), and [Object.keys]. *)
Record Response : Type := {
  id : option string;
  sessionId : option string;
  session_id : option string;
  statusCode : option number;
  error : option string;
  message : option string;
  connectUrl : option string;
  wsUrl : option string;
  connect_url : option string;
  keys : list string
}.

(** How [client.createSession] settles: with a response (or nothing), or
    with an exception, whose [response] property, if it has one, is given
    as [JSON.stringify] prints it. *)
Inductive ApiOutcome : Type :=
| Answered (session : option Response)
| Failed (thrown : Thrown) (response : option string).

(** [a || b || c] *)
Fixpoint firstTruthy (l : list (option string)) : option string :=
  match l with
  | [] => None
  | o :: rest =>
      match truthy_str o with
      | Some s => Some s
      | None => firstTruthy rest
      end
  end.

(** A property in a template string. *)
Definition shown (o : option string) : string :=
  match o with
  | Some s => s
  | None => "undefined"
  end.

Definition nl : string := String (Ascii.ascii_of_nat 10) EmptyString.

Definition isNetworkError (errorMessage : string) : bool :=
  includes "fetch failed" errorMessage
  || includes "timeout" errorMessage
  || includes "UND_ERR_CONNECT_TIMEOUT" errorMessage
  || includes "ECONNREFUSED" errorMessage.

(** The [catch] block of [createSession]. *)
Definition rethrown (error : Thrown) (response : option string) : Thrown :=
  let errorMessage := describe error in
  if isNetworkError errorMessage
  then JsError ("Network error connecting to Browserbase: " ++ errorMessage ++ nl
                  ++ "This is likely a temporary network issue. Please:" ++ nl
                  ++ "1. Check your internet connection" ++ nl
                  ++ "2. Wait a few moments and try again" ++ nl
                  ++ "3. Verify Browserbase service is accessible")
  else
    let errorDetails :=
      match error with
      | JsError _ => truthy_str response
      | JsOther _ => None
      end in
    JsError ("Failed to create browser session: " ++ errorMessage
               ++ match errorDetails with
                  | Some d => nl ++ "Details: " ++ d
                  | None => EmptyString
                  end
               ++ nl
               ++ "Please verify:" ++ nl
               ++ "1. BROWSERBASE_API_KEY is set correctly in .env" ++ nl
               ++ "2. Your Browserbase account is active" ++ nl
               ++ "3. You have available browser hours/quota").

Section Create.
Variable showNumber : number -> string.

(** The error thrown for a response that has [statusCode] and [error]. *)
Definition errorResponse (code : number) (err : string) (r : Response) : Thrown :=
  if Qeq_bool code 429
  then JsError ("Browserbase session limit exceeded: " ++ shown (message r) ++ nl
                  ++ "Please close any existing browser sessions or wait a few moments before retrying.")
  else if Qeq_bool code 402
  then JsError ("Browserbase quota limit reached: " ++ shown (message r) ++ nl
                  ++ "Your free plan browser minutes have been exhausted." ++ nl
                  ++ "Please upgrade your account at https://browserbase.com/plans or wait for quota reset.")
  else JsError ("Browserbase API error (" ++ showNumber code ++ "): " ++ err ++ nl
                  ++ "Message: " ++ shown (message r)).

(** The [try] block: the new session, or what it throws. *)
Definition tried (session : option Response) : Res Browserbase.State :=
  match session with
  | None => Throw (JsError "Failed to create browser session: API returned null/undefined")
  | Some r =>
      match statusCode r, error r with
      | Some code, Some err => Throw (errorResponse code err r)
      | _, _ =>
          match firstTruthy [id r; sessionId r; session_id r] with
          | None =>
              Throw (JsError ("Failed to create browser session: No session ID found. Response keys: "
                                ++ String.concat ", " (keys r)))
          | Some sid =>
              Ok {| Browserbase.sessionId := sid;
                    Browserbase.currentUrl := "about:blank";
                    Browserbase.browser := false;
                    Browserbase.page := None;
                    Browserbase.cdpSession := false;
                    Browserbase.connectUrl := firstTruthy [connectUrl r; wsUrl r; connect_url r];
                    Browserbase.trace := [] |}
          end
      end
  end.

Definition createSession (api : ApiOutcome) : Res Browserbase.State :=
  match api with
  | Failed thrown response => Throw (rethrown thrown response)
  | Answered session =>
      match tried session with
      | Ok s => Ok s
      | Throw e => Throw (rethrown e None)
      end
  end.

End Create.

(** The test of the caller of [createSession] that decides to start a local
    browser instead: the error is an [Error] whose message contains [402],
    [quota] or [Payment Required]. *)
Definition switchesToLocal (e : Thrown) : bool :=
  match e with
  | JsError m => includes "402" m || includes "quota" m || includes "Payment Required" m
  | JsOther _ => false
  end.

End Provider.

(* ===================================================================== *)
(** ** More sample inputs *)
(* ===================================================================== *)

Module Sample.

Import Engine.

(** A keypress action without a key. *)
Definition keyless : ActionConfig :=
  {| type := "keypress"; duration := None; selector := None; key := None;
     repeat := Some 2%Q |}.

(** An action of a type the executor does not know. *)
Definition hover : ActionConfig :=
  {| type := "hover"; duration := None; selector := Some "#menu"; key := None;
     repeat := None |}.

(** The screenshot action. *)
Definition snap : ActionConfig :=
  {| type := "screenshot"; duration := None; selector := None; key := None;
     repeat := None |}.

(** A session whose every call resolves after thirty seconds. *)
Definition sluggish : Session := fun _ _ => Resolves 30000.

(** A backend that cannot be reached. *)
Definition offline : Driver := fun A p tr => Throw (JsError "fetch failed").

(** The page of [Mock.gamePage] with one more iframe, the element [#game]
    (handle 3), whose content frame is frame 9. *)
Definition portal : Driver :=
  fun A p tr =>
    match p in Prim T return Res T with
    | QuerySelector _ sel => Ok (if sel =? "#game" then Some 3%nat else None)
    | ContentFrame i =>
        if (i =? 3)%nat then Ok (Some 9%nat)
        else Mock.browser Mock.gamePage _ (ContentFrame i) tr
    | q => Mock.browser Mock.gamePage _ q tr
    end.

(** An SDK client that has [getDebugConnectionURLs] but no [sessions]
    object, on a backend that cannot be reached. *)
Definition legacyClient : Driver :=
  fun A p tr =>
    match p in Prim T return Res T with
    | HasMethod _ => Ok false
    | q => offline _ q tr
    end.

(** A Browserbase session that was given its connection address when it was
    created and has not connected yet. *)
Definition addressed : Browserbase.State :=
  {| Browserbase.sessionId := "s-2"; Browserbase.currentUrl := "about:blank";
     Browserbase.browser := false; Browserbase.page := None;
     Browserbase.cdpSession := false;
     Browserbase.connectUrl := Some "wss://connect.browserbase.com/s-2";
     Browserbase.trace := [] |}.

(** The answer of the Browserbase API when too many sessions are open; it
    still names a session. *)
Definition rateLimited : Provider.Response :=
  {| Provider.id := Some "s-9"; Provider.sessionId := None; Provider.session_id := None;
     Provider.statusCode := Some 429%Q; Provider.error := Some "Too Many Requests";
     Provider.message := Some "Max concurrent sessions reached";
     Provider.connectUrl := None; Provider.wsUrl := None; Provider.connect_url := None;
     Provider.keys := ["id"; "statusCode"; "error"; "message"] |}.

(** The answer of the Browserbase API for a new session, with its address
    under [wsUrl]. *)
Definition granted : Provider.Response :=
  {| Provider.id := None; Provider.sessionId := Some "s-3"; Provider.session_id := None;
     Provider.statusCode := None; Provider.error := None; Provider.message := None;
     Provider.connectUrl := Some EmptyString;
     Provider.wsUrl := Some "wss://connect.browserbase.com/s-3";
     Provider.connect_url := None;
     Provider.keys := ["sessionId"; "connectUrl"; "wsUrl"] |}.

(** A page without buttons, seen through a session that answers every call. *)
Definition bare : Detect.Session :=
  fun A q h =>
    match q in Detect.Ask T return Res T with
    | Detect.Probe _ => Ok (Bool false)
    | Detect.FindButton _ => Ok Null
    | Detect.DescribeButton _ => Ok None
    | Detect.Click _ => Ok tt
    | Detect.Wait _ => Ok tt
    end.

(** A page whose only button reads [Start Game] and has the classes
    [btn primary] and no id. *)
Definition titleScreen : Detect.Session :=
  fun A q h =>
    match q in Detect.Ask T return Res T with
    | Detect.Probe _ => Ok (Bool false)
    | Detect.FindButton lowered =>
        Ok (if includes lowered "start game" then Text "JSHandle@node" else Null)
    | Detect.DescribeButton lowered =>
        Ok (if includes lowered "start game"
            then Some {| Detect.button_id := EmptyString; Detect.className := "btn primary" |}
            else None)
    | Detect.Click _ => Ok tt
    | Detect.Wait _ => Ok tt
    end.

(** A backend on which every input call succeeds and the page reports no
    element; the browser object is Playwright's, which has no [pages]
    method, so that [browser.pages()] throws a [TypeError]. *)
Definition willing : Ops.Backend :=
  fun A o tr lg =>
    match o in Ops.Op T return Res T with
    | PageClick _ _ _ _ => Ok tt
    | BringToFront _ => Ok tt
    | FocusScript _ _ => Ok tt
    | QueryRect _ _ => Ok None
    | QueryTarget _ _ => Ok None
    | DispatchMouse _ _ _ _ => Ok tt
    | DispatchKey _ _ _ _ => Ok tt
    | KeyboardDown _ _ => Ok tt
    | KeyboardUp _ _ => Ok tt
    | KeyboardPress _ _ => Ok tt
    | MouseClick _ _ _ => Ok tt
    | Evaluate _ _ => Ok Undefined
    | BrowserPages => Throw (JsError "this.browser.pages is not a function")
    end.

(** A connected Browserbase session that has entered a frame. *)
Definition framed : Ext Browserbase.State :=
  {| base := Browserbase.set_page (Some (FramePage 2)) Mock.remote1; steps := [] |}.

(** A local session that has entered a frame. *)
Definition framedLocal : Ext Local.State :=
  {| base := Local.set_page (FramePage 2) Mock.local0; steps := [] |}.

End Sample.

(* ===================================================================== *)
(** ** Relations that a computation maintains *)
(* ===================================================================== *)

Module Keeping.

(** [keeps R c]: whatever [c] does, and however it ends, the state it leaves
    is related by [R] to the state it started from. *)
Definition keeps {S A : Type} (R : S -> S -> Prop) (c : M S A) : Prop :=
  forall s, R s (snd (c s)).

(** The relations used here are preorders. *)
Record Preorder {S : Type} (R : S -> S -> Prop) : Prop := {
  pre_refl : forall s, R s s;
  pre_trans : forall s1 s2 s3, R s1 s2 -> R s2 s3 -> R s1 s3
}.

(** Equality of what a projection gives. *)
Definition same {S B : Type} (f : S -> B) : S -> S -> Prop :=
  fun s s' => f s' = f s.

(** A connected Browserbase session that stays connected, on the same
    page. *)
Definition steady (s s' : Browserbase.State) : Prop :=
  Browserbase.connected s = true ->
  Browserbase.page s' = Browserbase.page s /\ Browserbase.cdpSession s' = true.

(** A relation on sessions, read on sessions that carry the log of their
    input operations. *)
Definition onBase {S : Type} (R : S -> S -> Prop) : Ext S -> Ext S -> Prop :=
  fun s s' => R (base s) (base s').

End Keeping.

Import Keeping.

(* ===================================================================== *)
(** ** Properties of the action executor *)
(* ===================================================================== *)

Section EngineFacts.

Import Engine.

Variable showNumber : number -> string.
Variable session : Session.
Variable timeouts : TimeoutConfig.

#[local] Abbreviation runFrom := (Engine.runFrom showNumber session timeouts).
#[local] Abbreviation executeAction := (Engine.executeAction showNumber session timeouts).
#[local] Abbreviation executeActions := (Engine.executeActions showNumber session timeouts).
#[local] Abbreviation actionBody := (Engine.actionBody showNumber session timeouts).

Lemma gtb_true_iff (x y : number) : gtb x y = true <-> (y < x)%Q.
Proof.
  unfold gtb. destruct (Qle_bool x y) eqn:E; simpl.
  - apply Qle_bool_iff in E. split; [discriminate|].
    intros Hlt. exfalso. exact (Qlt_not_le _ _ Hlt E).
  - split; [|reflexivity]. intros _.
    apply Qnot_le_lt. intros Hle. apply Qle_bool_iff in Hle. congruence.
Qed.

Lemma gtb_false_iff (x y : number) : gtb x y = false <-> (x <= y)%Q.
Proof.
  unfold gtb. destruct (Qle_bool x y) eqn:E; simpl.
  - apply Qle_bool_iff in E. split; [intros _; exact E | reflexivity].
  - split; [discriminate|]. intros Hle. apply Qle_bool_iff in Hle. congruence.
Qed.

(** Both time-out messages of the executor contain the word the [catch]
    block looks for, whatever the number printed in them. *)
Lemma total_message_is_timeout : is_timeout (totalTimeoutError showNumber timeouts) = true.
Proof. reflexivity. Qed.

Lemma action_message_is_timeout (s : string) :
  is_timeout (JsError ("Action timeout exceeded (" ++ s)) = true.
Proof. reflexivity. Qed.

(** Running a list of actions is running its first part and, when that
    returns normally, the rest from the world reached. *)
Lemma runFrom_app (start : Z) (pre post : list ActionConfig) :
  forall w,
    runFrom start (pre ++ post)%list w =
    match runFrom start pre w with
    | (Ok _, w1) => runFrom start post w1
    | (Throw e, w1) => (Throw e, w1)
    end.
Proof.
  induction pre as [|a pre IH]; intros w.
  - reflexivity.
  - simpl. unfold bind, clock, gets.
    destruct (gtb _ _).
    + reflexivity.
    + destruct (executeAction a w) as [[u|e] w']; [apply IH | reflexivity].
Qed.

(** One turn of the loop when the total time-out has not expired. *)
Lemma runFrom_in_time (start : Z) (a : ActionConfig) (rest : list ActionConfig) (w : World) :
  (inject_Z (now w - start) <= total timeouts * 1000)%Q ->
  runFrom start (a :: rest) w =
  match executeAction a w with
  | (Ok _, w1) => runFrom start rest w1
  | (Throw e, w1) => (Throw e, w1)
  end.
Proof.
  intros Hle. apply gtb_false_iff in Hle.
  simpl. unfold bind, clock, gets. rewrite Hle. reflexivity.
Qed.


Lemma executeAction_ok (a : ActionConfig) (w w1 : World) :
  actionBody a w = (Ok tt, w1) -> executeAction a w = (Ok tt, w1).
Proof.
  intros Hbody. unfold Engine.executeAction, try_catch. rewrite Hbody. reflexivity.
Qed.

(** A raced session call always reaches the session, and only once. *)
Lemma race_calls (c : Call) (ms : number) (w : World) :
  calls (snd (race session c ms w)) = (calls w ++ [c])%list.
Proof.
  unfold race. destruct (session w c); destruct (Qle_bool _ _); reflexivity.
Qed.


(** [n || d] is [d] when [n] is omitted or zero. *)
Lemma or_num_falsy (n : option number) (d : number) :
  (n = None \/ exists q, n = Some q /\ (q == 0)%Q) -> or_num n d = d.
Proof.
  intros [-> | [q [-> Hq]]]; simpl; [reflexivity|].
  apply Qeq_bool_iff in Hq. rewrite Hq. reflexivity.
Qed.

(** The exception handler and the check after the action leave the list of
    session calls alone. *)
Lemma executeAction_calls_of_body (a : ActionConfig) (w : World) :
  calls (snd (executeAction a w)) = calls (snd (actionBody a w)).
Proof.
  unfold Engine.executeAction, try_catch, actionHandler.
  destruct (actionBody a w) as [[u|e] w1]; simpl; [reflexivity|].
  destruct (is_timeout e); reflexivity.
Qed.

End EngineFacts.

Section EngineClaims.

Import Engine.

(** C1. [executeActions] records the clock when it starts and compares the
    time elapsed since then with [timeouts.total] before each action: when
    the actions [pre] have run normally and more than [timeouts.total]
    seconds have passed, the next action [a] is not executed, nor is any
    action after it; the call throws the total-time-out error to its caller
    from the world that [pre] left (so the session was called by [pre]
    only). *)
Theorem total_timeout_aborts_sequence :
  forall (showNumber : number -> string) (session : Session) (timeouts : TimeoutConfig)
         (pre : list ActionConfig) (a : ActionConfig) (rest : list ActionConfig)
         (w w1 : World),
    runFrom showNumber session timeouts (now w) pre w = (Ok tt, w1) ->
    (total timeouts * 1000 < inject_Z (now w1 - now w))%Q ->
    executeActions showNumber session timeouts (pre ++ a :: rest)%list w
      = (Throw (totalTimeoutError showNumber timeouts), w1).
Proof.
  intros showNumber session timeouts pre a rest w w1 Hpre Hlate.
  unfold executeActions, bind, clock, gets.
  rewrite runFrom_app, Hpre.
  apply gtb_true_iff in Hlate.
  simpl. unfold bind, clock, gets. rewrite Hlate. reflexivity.
Qed.

Lemma total_timeout_aborts_sequence_witness :
  runFrom Mock.showInteger Mock.session Mock.hurried (now Mock.w0)
    [Mock.waitFor (Some 2)] Mock.w0
    = (Ok tt, {| now := 2000; calls := [SWait 2000]; warnings := [] |})
  /\ (total Mock.hurried * 1000 < inject_Z (2000 - now Mock.w0))%Q
  /\ executeActions Mock.showInteger Mock.session Mock.hurried
       ([Mock.waitFor (Some 2)] ++ Mock.clickOn (Some "#play") :: [Mock.press "ArrowRight" None])%list
       Mock.w0
     = (Throw (JsError "Total execution timeout exceeded (1s)"),
        {| now := 2000; calls := [SWait 2000]; warnings := [] |}).
Proof.
  split; [vm_compute; reflexivity|].
  split; [reflexivity|].
  apply (total_timeout_aborts_sequence Mock.showInteger Mock.session Mock.hurried
           [Mock.waitFor (Some 2)] (Mock.clickOn (Some "#play"))
           [Mock.press "ArrowRight" None] Mock.w0
           {| now := 2000; calls := [SWait 2000]; warnings := [] |}).
  - vm_compute; reflexivity.
  - reflexivity.
Defined.



(** A click action without a selector, followed by a key press, does not
    abort: [executeActions] returns normally and the key press is made. *)
Lemma click_without_selector_does_not_abort :
  executeActions Mock.showInteger Mock.session Mock.defaults
    [Mock.clickOn None; Mock.press "ArrowRight" (Some 1)] Mock.w0
  = (Ok tt,
     {| now := 100;
        calls := [SKeypress "ArrowRight"];
        warnings := [("Action click failed:", JsError "Click action requires a selector")] |}).
Proof. vm_compute. reflexivity. Qed.

(** C3, as the code has it.  A click action whose selector is absent (or
    empty) makes [executeAction] throw "Click action requires a selector"
    inside its own [try] block; the message does not contain "timeout", so
    the [catch] block logs it and the action is skipped: [executeAction]
    returns normally without calling the session and without time passing,
    and the remaining actions run. *)
Theorem click_without_selector_is_skipped :
  forall (showNumber : number -> string) (session : Session) (timeouts : TimeoutConfig)
         (a : ActionConfig) (w : World),
    type a = "click" ->
    truthy_str (selector a) = None ->
    let w1 := warn "Action click failed:" (JsError "Click action requires a selector") w in
    executeAction showNumber session timeouts a w = (Ok tt, w1)
    /\ calls w1 = calls w
    /\ now w1 = now w
    /\ forall (start : Z) (rest : list ActionConfig),
         (inject_Z (now w - start) <= total timeouts * 1000)%Q ->
         runFrom showNumber session timeouts start (a :: rest) w
         = runFrom showNumber session timeouts start rest w1.
Proof.
  intros showNumber session timeouts a w Htype Hsel w1.
  assert (Hexec : executeAction showNumber session timeouts a w = (Ok tt, w1)).
  { unfold executeAction, try_catch, actionBody, bind, clock, gets, actionHandler.
    rewrite Htype, Hsel. reflexivity. }
  repeat split; try exact Hexec.
  intros start rest Hin.
  rewrite (runFrom_in_time showNumber session timeouts start a rest w Hin), Hexec.
  reflexivity.
Qed.

Lemma click_without_selector_is_skipped_witness :
  type (Mock.clickOn None) = "click"
  /\ truthy_str (selector (Mock.clickOn None)) = None
  /\ executeAction Mock.showInteger Mock.session Mock.defaults (Mock.clickOn None) Mock.w0
     = (Ok tt,
        warn "Action click failed:" (JsError "Click action requires a selector") Mock.w0).
Proof.
  split; [reflexivity|]. split; [reflexivity|].
  exact (proj1 (click_without_selector_is_skipped
                  Mock.showInteger Mock.session Mock.defaults (Mock.clickOn None) Mock.w0
                  eq_refl eq_refl)).
Defined.

(** C10. The defaults of the numeric fields are applied with [||]: a wait
    action whose duration is omitted or 0 behaves as one of duration 1 and
    calls [session.wait(1000)], once; a keypress action (with a key) whose
    repeat is omitted or 0 behaves as one of repeat 1 and calls
    [session.keypress(key)] exactly once. *)
Theorem falsy_duration_and_repeat_default_to_one :
  forall (showNumber : number -> string) (session : Session) (timeouts : TimeoutConfig)
         (a : ActionConfig) (w : World),
    (type a = "wait" ->
     (duration a = None \/ exists q, duration a = Some q /\ (q == 0)%Q) ->
     executeAction showNumber session timeouts a w
       = executeAction showNumber session timeouts
           {| type := type a; duration := Some 1%Q; selector := selector a;
              key := key a; repeat := repeat a |} w
     /\ calls (snd (executeAction showNumber session timeouts a w))
        = (calls w ++ [SWait 1000])%list)
    /\ (type a = "keypress" ->
        (repeat a = None \/ exists q, repeat a = Some q /\ (q == 0)%Q) ->
        forall k, truthy_str (key a) = Some k ->
        executeAction showNumber session timeouts a w
          = executeAction showNumber session timeouts
              {| type := type a; duration := duration a; selector := selector a;
                 key := key a; repeat := Some 1%Q |} w
        /\ calls (snd (executeAction showNumber session timeouts a w))
           = (calls w ++ [SKeypress k])%list).
Proof.
  intros showNumber session timeouts a w. split.
  - intros Htype Hd. pose proof (or_num_falsy (duration a) 1 Hd) as Hor. split.
    + unfold executeAction, try_catch, actionBody, bind, clock, gets, actionHandler.
      simpl. rewrite Htype, Hor. reflexivity.
    + rewrite executeAction_calls_of_body.
      unfold actionBody, bind, clock, gets. rewrite Htype, Hor. simpl.
      pose proof (race_calls session (SWait (1 * 1000)) (action timeouts * 1000) w) as Hc.
      destruct (race session (SWait (1 * 1000)) (action timeouts * 1000) w) as [[u|e] w1];
        simpl in Hc |- *; [|exact Hc].
      unfold when. destruct (gtb _ _); exact Hc.
  - intros Htype Hr k Hk. pose proof (or_num_falsy (repeat a) 1 Hr) as Hor. split.
    + unfold executeAction, try_catch, actionBody, bind, clock, gets, actionHandler.
      simpl. rewrite Htype, Hor. reflexivity.
    + rewrite executeAction_calls_of_body.
      unfold actionBody, bind, clock, gets. rewrite Htype, Hk, Hor. simpl.
      unfold bind.
      pose proof (race_calls session (SKeypress k) (action timeouts * 1000) w) as Hc.
      destruct (race session (SKeypress k) (action timeouts * 1000) w) as [[u|e] w1];
        simpl in Hc |- *; [|exact Hc].
      unfold when. destruct (gtb _ _); exact Hc.
Qed.

Lemma falsy_duration_and_repeat_default_to_one_witness :
  calls (snd (executeAction Mock.showInteger Mock.session Mock.defaults
                (Mock.waitFor (Some 0)) Mock.w0)) = [SWait 1000]
  /\ calls (snd (executeAction Mock.showInteger Mock.session Mock.defaults
                   (Mock.press "ArrowRight" (Some 0)) Mock.w0)) = [SKeypress "ArrowRight"].
Proof.
  split.
  - refine (proj2 (proj1 (falsy_duration_and_repeat_default_to_one
                            Mock.showInteger Mock.session Mock.defaults
                            (Mock.waitFor (Some 0)) Mock.w0) eq_refl _)).
    right. exists 0%Q. split; reflexivity.
  - refine (proj2 (proj2 (falsy_duration_and_repeat_default_to_one
                            Mock.showInteger Mock.session Mock.defaults
                            (Mock.press "ArrowRight" (Some 0)) Mock.w0) eq_refl _
                     "ArrowRight" eq_refl)).
    right. exists 0%Q. split; reflexivity.
Defined.

End EngineClaims.


(* ===================================================================== *)
(** ** Properties of the sessions *)
(* ===================================================================== *)

#[local] Arguments Browserbase.ensureCDPConnection : simpl never.

Ltac run_monad :=
  unfold bind, try_catch, ret, throw, gets, modify, when, perform, wait, console,
    ignore_errors, false_on_error, or_else; cbn.

Ltac ensure s1 :=
  match goal with
  | |- context [Browserbase.ensureCDPConnection ?d ?s] =>
      let u := fresh "u" in
      let e := fresh "e" in
      destruct (Browserbase.ensureCDPConnection d s) as [[u|e] s1]
  end.

Ltac units := repeat match goal with u : unit |- _ => destruct u end.

Ltac ask :=
  match goal with
  | |- context [match ?d ?A ?p ?t with Ok _ => _ | Throw _ => _ end] =>
      destruct (d A p t); units
  end.

Section Navigation.

Variable drv : Driver.

Lemma local_navigate_returns (url : string) (st : Local.State) :
  exists st', Local.navigate drv url st = (Ok tt, st').
Proof.
  unfold Local.navigate. run_monad. ask; eexists; reflexivity.
Qed.

Lemma browserbase_navigate_returns (url : string) (st : Browserbase.State) :
  exists st', Browserbase.navigate drv url st = (Ok tt, st').
Proof.
  unfold Browserbase.navigate. run_monad.
  ensure s1; cbn; [|eexists; reflexivity].
  destruct (Browserbase.page s1) as [p|]; cbn.
  - repeat (ask; cbn; try (eexists; reflexivity)).
  - ask; eexists; reflexivity.
Qed.

End Navigation.

(** C4. Whatever the page-navigation primitive does at each tier (and, for
    the remote backend, whatever the connection set-up does), [navigate]
    returns normally: no exception reaches the caller, in the local and in
    the Browserbase session. *)
Theorem navigate_never_raises :
  forall (drv : Driver) (url : string),
    (forall st : Local.State, exists st', Local.navigate drv url st = (Ok tt, st'))
    /\ (forall st : Browserbase.State,
          exists st', Browserbase.navigate drv url st = (Ok tt, st')).
Proof.
  intros drv url. split; intros st.
  - apply local_navigate_returns.
  - apply browserbase_navigate_returns.
Qed.

Section Closing.

Variable drv : Driver.

(** The local [close] swallows every error, keeps the fields as they are
    and makes the same release calls each time. *)
Lemma local_close_releases (st : Local.State) :
  exists st',
    Local.close drv st = (Ok tt, st')
    /\ Local.cdpSession st' = Local.cdpSession st
    /\ callsOf (Local.trace st')
       = (callsOf (Local.trace st)
            ++ (if Local.cdpSession st then [Called CdpDetach] else [])
            ++ [Called ContextClose; Called BrowserClose])%list.
Proof.
  unfold Local.close. run_monad.
  destruct (Local.cdpSession st) eqn:Hcdp; cbn;
    repeat (ask; cbn);
    (eexists; split; [reflexivity|]; split; [exact Hcdp|]; cbn;
     unfold callsOf; rewrite !filter_app; cbn; rewrite <- ?app_assoc; reflexivity).
Qed.

(** Once the CDP session and the browser are released, the Browserbase
    [close] makes one call, [completeSession], and ends as that call ends. *)
Lemma browserbase_close_when_released (st : Browserbase.State) :
  Browserbase.cdpSession st = false ->
  Browserbase.browser st = false ->
  Browserbase.close drv st
  = (drv unit (CompleteSession (Browserbase.sessionId st)) (Browserbase.trace st),
     Browserbase.add_entry (Called (CompleteSession (Browserbase.sessionId st)))
       (Browserbase.set_page None st)).
Proof.
  intros Hcdp Hbr. unfold Browserbase.close. run_monad.
  rewrite Hcdp. cbn. rewrite Hbr. cbn. reflexivity.
Qed.

(** A [close] whose detach and browser close succeed leaves the three
    handles null, however [completeSession] ends. *)
Lemma browserbase_close_nulls_handles (st : Browserbase.State) :
  answers drv CdpDetach (Ok tt) ->
  answers drv BrowserClose (Ok tt) ->
  let st' := snd (Browserbase.close drv st) in
  Browserbase.cdpSession st' = false
  /\ Browserbase.browser st' = false
  /\ Browserbase.page st' = None.
Proof.
  intros Hdetach Hclose. unfold Browserbase.close. run_monad.
  destruct (Browserbase.cdpSession st) eqn:Hcdp; cbn;
    rewrite ?Hdetach; cbn;
    destruct (Browserbase.browser st) eqn:Hbr; cbn;
    rewrite ?Hclose; cbn; auto.
Qed.

End Closing.

(** A second [close] releases again.  On the local session it detaches the
    CDP session and closes the context and the browser a second time; on the
    Browserbase session it calls [completeSession] a second time and, with an
    SDK that refuses to complete a session twice, it throws. *)
Lemma second_close_releases_again :
  (let drv := Mock.browser Mock.gamePage in
   let st1 := snd (Local.close drv Mock.local0) in
   callsOf (Local.trace st1) = [Called CdpDetach; Called ContextClose; Called BrowserClose]
   /\ callsOf (Local.trace (snd (Local.close drv st1)))
      = [Called CdpDetach; Called ContextClose; Called BrowserClose;
         Called CdpDetach; Called ContextClose; Called BrowserClose])
  /\ (let drv := Mock.completesOnce (Mock.browser Mock.gamePage) in
      let first := Browserbase.close drv Mock.remote1 in
      fst first = Ok tt
      /\ fst (Browserbase.close drv (snd first))
         = Throw (JsError "Session already completed")).
Proof. vm_compute. repeat split. Qed.

(** C5, as the code has it.  The local [close] never raises, on a first or a
    later call, but it keeps no record of having run: every call detaches the
    CDP session (when the session has one) and closes the context and the
    browser again, swallowing their errors.  The Browserbase [close] nulls
    the CDP session, the browser and the page once it has detached and closed
    them, so a later [close] does not release them again; every [close] still
    calls [completeSession], outside the [try] block, and ends as that call
    ends. *)
Theorem close_twice_as_implemented :
  forall drv : Driver,
    (forall st : Local.State,
        exists st',
          Local.close drv st = (Ok tt, st')
          /\ Local.cdpSession st' = Local.cdpSession st
          /\ callsOf (Local.trace st')
             = (callsOf (Local.trace st)
                  ++ (if Local.cdpSession st then [Called CdpDetach] else [])
                  ++ [Called ContextClose; Called BrowserClose])%list)
    /\ (forall st : Browserbase.State,
          answers drv CdpDetach (Ok tt) ->
          answers drv BrowserClose (Ok tt) ->
          let st1 := snd (Browserbase.close drv st) in
          let again := CompleteSession (Browserbase.sessionId st1) in
          Browserbase.close drv st1
          = (drv unit again (Browserbase.trace st1),
             Browserbase.add_entry (Called again) (Browserbase.set_page None st1))).
Proof.
  intros drv. split.
  - intros st. apply local_close_releases.
  - intros st Hdetach Hclose st1 again.
    destruct (browserbase_close_nulls_handles drv st Hdetach Hclose) as [Hcdp [Hbr _]].
    apply browserbase_close_when_released; assumption.
Qed.

Lemma close_twice_as_implemented_witness :
  answers (Mock.browser Mock.gamePage) CdpDetach (Ok tt)
  /\ answers (Mock.browser Mock.gamePage) BrowserClose (Ok tt)
  /\ callsOf (Browserbase.trace
                (snd (Browserbase.close (Mock.browser Mock.gamePage)
                        (snd (Browserbase.close (Mock.browser Mock.gamePage) Mock.remote1)))))
     = [Called CdpDetach; Called BrowserClose;
        Called (CompleteSession "s-1"); Called (CompleteSession "s-1")].
Proof.
  assert (Hd : answers (Mock.browser Mock.gamePage) CdpDetach (Ok tt))
    by (intros tr; reflexivity).
  assert (Hb : answers (Mock.browser Mock.gamePage) BrowserClose (Ok tt))
    by (intros tr; reflexivity).
  split; [exact Hd|]. split; [exact Hb|].
  rewrite (proj2 (close_twice_as_implemented (Mock.browser Mock.gamePage))
             Mock.remote1 Hd Hb).
  vm_compute. reflexivity.
Defined.

Section Settling.

(** [Math.max] is at least its first argument and at least each of the
    others. *)
Lemma math_max_first (l : list number) :
  forall x, (x <= math_max x l)%Q.
Proof.
  unfold math_max. induction l as [|y l IH]; intros x; cbn.
  - apply Qle_refl.
  - apply Qle_trans with (Qmax x y); [apply Q.le_max_l | apply IH].
Qed.

Lemma math_max_each (l : list number) :
  forall x y, In y l -> (y <= math_max x l)%Q.
Proof.
  unfold math_max. induction l as [|z l IH]; intros x y Hin; cbn.
  - destruct Hin.
  - destruct Hin as [-> | Hin].
    + apply Qle_trans with (Qmax x y); [apply Q.le_max_r | apply (math_max_first l)].
    + apply IH. exact Hin.
Qed.

(** The longest scaled duration bounds every scaled duration. *)
Lemma longest_bounds_each (animations : list Animation) (a : Animation) :
  In a animations ->
  match map scaledDuration animations with
  | d :: ds => (scaledDuration a <= math_max d ds)%Q
  | [] => False
  end.
Proof.
  destruct animations as [|b bs]; intros Hin; cbn.
  - destruct Hin.
  - destruct Hin as [-> | Hin].
    + apply math_max_first.
    + apply math_max_each. apply in_map. exact Hin.
Qed.

Lemma local_settle_capped (animations : list Animation) :
  (Local.settleDelay animations <= 500)%Q.
Proof.
  unfold Local.settleDelay. destruct (map scaledDuration animations).
  - discriminate.
  - apply Q.le_min_r.
Qed.

Lemma local_settle_covers (animations : list Animation) (a : Animation) :
  In a animations ->
  (Qmin (scaledDuration a + 100) 500 <= Local.settleDelay animations)%Q.
Proof.
  intros Hin. pose proof (longest_bounds_each animations a Hin) as Hmax.
  unfold Local.settleDelay. destruct (map scaledDuration animations); [destruct Hmax|].
  apply Q.min_le_compat_r. lra.
Qed.

Variable drv : Driver.

(** The local session waits in the page before it asks for the capture. *)
Lemma local_screenshot_waits (st : Local.State) (animations : list Animation) :
  drv _ (Timed 1000 (GetAnimations (Local.page st) false)) (Local.trace st)
    = Ok (Some animations) ->
  exists rest,
    Local.trace (snd (Local.screenshot drv st))
    = (Local.trace st
         ++ [Called (Timed 1000 (GetAnimations (Local.page st) false));
             Slept (Local.settleDelay animations);
             Called (Timed 10000 (PageScreenshot (Local.page st) 10000))]
         ++ rest)%list.
Proof.
  intros Hanim. unfold Local.screenshot. run_monad. rewrite Hanim. cbn.
  ask; cbn.
  - match goal with |- context [match ?o with Some _ => _ | None => _ end] => destruct o end;
      cbn; rewrite <- !app_assoc; cbn; eexists; reflexivity.
  - rewrite <- !app_assoc; cbn; eexists; reflexivity.
Qed.

(** A connected Browserbase session does not: the page rejects the text of
    its repaint script, the [catch] block waits 300 ms, and the capture
    follows.  Nothing else is waited for. *)
Lemma browserbase_screenshot_waits (st : Browserbase.State) (p : PageRef) :
  Browserbase.page st = Some p ->
  Browserbase.cdpSession st = true ->
  exists rest,
    Browserbase.trace (snd (Browserbase.screenshot drv st))
    = (Browserbase.trace st
         ++ [Called (GetAnimations p true); Slept 300; Called CaptureScreenshot]
         ++ rest)%list
    /\ slept rest = 0%Q.
Proof.
  intros Hpage Hcdp. unfold Browserbase.screenshot.
  unfold Browserbase.ensureCDPConnection, Browserbase.connected. run_monad.
  rewrite Hpage, Hcdp. cbn. rewrite Hcdp. cbn. rewrite Hpage. cbn.
  ask; cbn.
  - match goal with |- context [match ?o with Some _ => _ | None => _ end] => destruct o as [r|] end;
      cbn; [destruct (truthy_str (data r)); cbn; [ask; cbn|] |];
      rewrite <- !app_assoc; cbn; eexists; split; reflexivity.
  - rewrite <- !app_assoc; cbn; eexists; split; reflexivity.
Qed.

End Settling.

(** C6. The local session waits for the animations before it captures: for
    [Math.min(maxDuration + 100, 500)] ms, where [maxDuration] is the longest
    duration [getTiming()] reports, times 1000 (200 ms without animations);
    that is at most 500 ms, and at least 400 ms with animations of 150 and
    400.  The Browserbase session does not: the text of its repaint script
    does not parse as JavaScript, so the page rejects it, and the session
    waits the 300 ms of its [catch] block whatever animations run; with
    animations of 150 and 400 it captures after 300 ms. *)
Theorem browserbase_settle_wait_ignores_animations :
  forall drv : Driver,
    (forall (st : Browserbase.State) (p : PageRef),
        Browserbase.page st = Some p ->
        Browserbase.cdpSession st = true ->
        exists rest,
          Browserbase.trace (snd (Browserbase.screenshot drv st))
          = (Browserbase.trace st
               ++ [Called (GetAnimations p true); Slept 300; Called CaptureScreenshot]
               ++ rest)%list
          /\ slept rest = 0%Q)
    /\ (forall (st : Local.State) (animations : list Animation),
          drv _ (Timed 1000 (GetAnimations (Local.page st) false)) (Local.trace st)
            = Ok (Some animations) ->
          exists rest,
            Local.trace (snd (Local.screenshot drv st))
            = (Local.trace st
                 ++ [Called (Timed 1000 (GetAnimations (Local.page st) false));
                     Slept (Local.settleDelay animations);
                     Called (Timed 10000 (PageScreenshot (Local.page st) 10000))]
                 ++ rest)%list)
    /\ (forall animations : list Animation,
          (Local.settleDelay animations <= 500)%Q
          /\ forall a, In a animations ->
               (Qmin (scaledDuration a + 100) 500 <= Local.settleDelay animations)%Q)
    /\ Local.settleDelay [] = 200%Q
    /\ Local.settleDelay [Mock.animation 150; Mock.animation 400] = 500%Q
    /\ slept (Local.trace (snd (Local.screenshot (Mock.browser Mock.gamePage) Mock.local0)))
       = 500%Q
    /\ slept (Browserbase.trace
                (snd (Browserbase.screenshot (Mock.browser Mock.gamePage) Mock.remote1)))
       = 300%Q
    /\ ~ (400 <= 300)%Q.
Proof.
  intros drv.
  split; [intros st p; apply browserbase_screenshot_waits|].
  split; [intros st animations; apply local_screenshot_waits|].
  split; [intros animations; split;
          [apply local_settle_capped | intros a; apply local_settle_covers]|].
  split; [reflexivity|].
  split; [vm_compute; reflexivity|].
  split; [vm_compute; reflexivity|].
  split; [vm_compute; reflexivity|].
  intros Hle. vm_compute in Hle. apply Hle. reflexivity.
Qed.

Lemma browserbase_settle_wait_ignores_animations_witness :
  let drv := Mock.browser Mock.gamePage in
  Browserbase.page Mock.remote1 = Some MainPage
  /\ Browserbase.cdpSession Mock.remote1 = true
  /\ exists rest,
       Browserbase.trace (snd (Browserbase.screenshot drv Mock.remote1))
       = (Browserbase.trace Mock.remote1
            ++ [Called (GetAnimations MainPage true); Slept 300; Called CaptureScreenshot]
            ++ rest)%list
       /\ slept rest = 0%Q.
Proof.
  intros drv. split; [reflexivity|]. split; [reflexivity|].
  exact (proj1 (browserbase_settle_wait_ignores_animations drv)
           Mock.remote1 MainPage eq_refl eq_refl).
Defined.

Section Clicking.

(** A [try] whose handler returns a value never throws. *)
Lemma try_catch_returns {S A : Type} (body : M S A) (handler : Thrown -> M S A) :
  (forall e s, exists a s', handler e s = (Ok a, s')) ->
  forall s, exists a s', try_catch body handler s = (Ok a, s').
Proof.
  intros Hh s. unfold try_catch. destruct (body s) as [[a|e] s1].
  - exists a, s1. reflexivity.
  - apply Hh.
Qed.

(** A strategy that fails hands over to the next one; when the chain ends
    in [true], so does the whole. *)
Lemma attempt_or_else_true {S : Type} (c k : M S bool) :
  (forall s, fst (k s) = Ok true) ->
  forall s, fst (or_else (try_catch c (fun _ => ret false)) k s) = Ok true.
Proof.
  intros Hk s. unfold or_else, try_catch, bind, ret.
  destruct (c s) as [[[|]|e] s1]; cbn; auto.
Qed.

Lemma attempt_or_else_false {S : Type} (c k : M S bool) :
  (forall s, fst (c s) <> Ok true) ->
  (forall s, fst (k s) = Ok false) ->
  forall s, fst (or_else (try_catch c (fun _ => ret false)) k s) = Ok false.
Proof.
  intros Hc Hk s. unfold or_else, try_catch, bind, ret.
  specialize (Hc s). destruct (c s) as [[[|]|e'] s1]; cbn in *; auto.
  exfalso. apply Hc. reflexivity.
Qed.

(** Normalizing is by words. *)
Lemma space_is_space : is_space " " = true.
Proof. reflexivity. Qed.

Lemma trim_start_collapse (s : string) :
  forall b, trim_start (collapse_from b s) = collapse_from false (trim_start s).
Proof.
  induction s as [|c r IH]; intros b; [reflexivity|].
  cbn [collapse_from trim_start]. destruct (is_space c) eqn:Hc.
  - destruct b; cbn [trim_start]; rewrite ?space_is_space; apply IH.
  - cbn [trim_start collapse_from]. rewrite Hc. reflexivity.
Qed.

Lemma words_trim_start (s : string) : words (trim_start s) = words s.
Proof.
  unfold words. induction s as [|c r IH]; [reflexivity|].
  cbn [trim_start pieces].
  destruct (is_space c) eqn:Hc; [|cbn [pieces]; rewrite Hc; reflexivity].
  cbn. exact IH.
Qed.

Lemma pieces_cons (s : string) : exists w ws, pieces s = w :: ws.
Proof.
  induction s as [|c r [w [ws IH]]]; cbn; [eauto|].
  destruct (is_space c); [eauto|]. rewrite IH. eauto.
Qed.

Lemma concat_cons_char (c : ascii) (w : string) (ws : list string) :
  String.concat " " (String c w :: ws) = String c (String.concat " " (w :: ws)).
Proof. destruct ws; reflexivity. Qed.

Lemma concat_not_empty (v : string) (vs : list string) :
  nonempty v = true -> nonempty (String.concat " " (v :: vs)) = true.
Proof. destruct v; [discriminate|]. intros _. destruct vs; reflexivity. Qed.

Lemma filter_head (ws : list string) :
  match filter nonempty ws with
  | v :: _ => nonempty v = true
  | [] => True
  end.
Proof.
  induction ws as [|w ws IH]; [exact I|]. cbn.
  destruct (nonempty w) eqn:Hw; [exact Hw | exact IH].
Qed.

Lemma trim_end_collapse (s : string) :
  forall b, trim_end (collapse_from b s) = trimmed_end b (pieces s).
Proof.
  induction s as [|c r IH]; intros b; [reflexivity|].
  cbn [collapse_from pieces]. destruct (is_space c) eqn:Hc.
  - specialize (IH true).
    destruct (pieces_cons r) as [w [ws Hp]]. rewrite Hp in *.
    cbn [trimmed_end filter] in *. pose proof (filter_head ws) as Hh.
    destruct b.
    + rewrite IH. destruct w as [|d w]; cbn [nonempty].
      * destruct (filter nonempty ws); reflexivity.
      * reflexivity.
    + cbn [trim_end]. rewrite IH, space_is_space.
      destruct w as [|d w]; cbn [nonempty].
      * destruct (filter nonempty ws) as [|v vs]; [reflexivity|].
        pose proof (concat_not_empty v vs Hh) as Hne.
        cbn [append]. destruct (String.concat " " (v :: vs)); [discriminate | reflexivity].
      * rewrite concat_cons_char. reflexivity.
  - cbn [trim_end]. rewrite (IH false).
    destruct (pieces_cons r) as [w [ws Hp]]. rewrite Hp.
    cbn [trimmed_end]. pose proof (filter_head ws) as Hh.
    destruct w as [|d w].
    + destruct (filter nonempty ws) as [|v vs]; [rewrite Hc; reflexivity|].
      rewrite concat_cons_char. cbn [append]. reflexivity.
    + rewrite !concat_cons_char. reflexivity.
Qed.

Lemma trim_start_head (s : string) :
  match trim_start s with
  | String c _ => is_space c = false
  | EmptyString => True
  end.
Proof.
  induction s as [|c r IH]; [exact I|].
  cbn. destruct (is_space c) eqn:Hc; [exact IH | exact Hc].
Qed.

(** [s.replace(/\s+/g, ' ').trim()] is the text with single spaces between
    its words. *)
Lemma normalization_by_words (s : string) :
  trim (collapse_spaces s) = singleSpaced s.
Proof.
  unfold trim, collapse_spaces, singleSpaced.
  rewrite trim_start_collapse, trim_end_collapse, <- (words_trim_start s).
  unfold words. pose proof (trim_start_head s) as Hh.
  destruct (trim_start s) as [|c r]; [reflexivity|].
  cbn [pieces]. rewrite Hh.
  destruct (pieces r) as [|w ws]; reflexivity.
Qed.

(** The in-page scan clicks exactly when a click lands on some button. *)
Lemma scanButtons_lands (text : string) (buttons : list Button) :
  Browserbase.scanButtons (trim (collapse_spaces (toLowerCase text))) buttons
  = existsb (lands text) buttons.
Proof.
  induction buttons as [|b rest IH]; [reflexivity|].
  cbn [Browserbase.scanButtons existsb]. rewrite IH. unfold lands.
  rewrite !normalization_by_words.
  destruct (offsetParent b && includes _ _); cbn [andb orb]; [|reflexivity].
  destruct (click_ok b); [reflexivity|]. cbn [orb].
  destruct (dispatch_ok b); reflexivity.
Qed.

Variable drv : Driver.

Lemma local_clickByText_returns (text : string) (exact : option bool) (st : Local.State) :
  exists b st', Local.clickByText drv text exact st = (Ok b, st').
Proof.
  unfold Local.clickByText. apply try_catch_returns.
  intros e s. exists false, s. reflexivity.
Qed.

Lemma browserbase_clickByText_returns (text : string) (exact : option bool)
  (st : Browserbase.State) :
  exists b st', Browserbase.clickByText drv text exact st = (Ok b, st').
Proof.
  unfold Browserbase.clickByText. apply try_catch_returns.
  intros e s. eexists. eexists. reflexivity.
Qed.

(** Browserbase: whatever the Playwright strategies do, a button on which
    the click lands is clicked. *)
Lemma browserbase_clickByText_finds (text : string) (exact : option bool)
  (st : Browserbase.State) (p : PageRef) (buttons : list Button) :
  Browserbase.page st = Some p ->
  Browserbase.cdpSession st = true ->
  answers drv (QueryButtons p) (Ok buttons) ->
  existsb (lands text) buttons = true ->
  fst (Browserbase.clickByText drv text exact st) = Ok true.
Proof.
  intros Hpage Hcdp Hq Hscan. unfold answers in Hq.
  rewrite <- scanButtons_lands in Hscan.
  unfold Browserbase.clickByText, Browserbase.ensureCDPConnection, Browserbase.connected.
  unfold try_catch at 1. unfold bind at 1. unfold bind at 1. unfold gets at 1.
  rewrite Hpage, Hcdp. unfold ret at 1. unfold bind at 1. unfold gets at 1.
  rewrite Hpage.
  match goal with
  | |- fst (match ?body st with _ => _ end) = _ =>
      assert (Hbody : fst (body st) = Ok true)
  end.
  { unfold Browserbase.attempt.
    do 4 (apply attempt_or_else_true; intros ?).
    unfold bind, perform. rewrite Hq. cbn. rewrite Hscan. reflexivity. }
  match goal with
  | |- fst (match ?body st with _ => _ end) = _ =>
      destruct (body st) as [[r|e] s1]; cbn in *; [exact Hbody | discriminate]
  end.
Qed.

(** Browserbase: when no locator becomes visible, the result is that of the
    in-page scan. *)
Lemma browserbase_clickByText_scans (text : string) (exact : option bool)
  (st : Browserbase.State) (p : PageRef) (buttons : list Button) :
  Browserbase.page st = Some p ->
  Browserbase.cdpSession st = true ->
  (forall l ms, fails drv (WaitVisible p l ms)) ->
  answers drv (QueryButtons p) (Ok buttons) ->
  fst (Browserbase.clickByText drv text exact st) = Ok (existsb (lands text) buttons).
Proof.
  intros Hpage Hcdp Hwait Hq.
  destruct (existsb (lands text) buttons) eqn:Hscan;
    [apply (browserbase_clickByText_finds text exact st p buttons); assumption|].
  unfold answers in Hq. rewrite <- scanButtons_lands in Hscan.
  unfold Browserbase.clickByText, Browserbase.ensureCDPConnection, Browserbase.connected.
  unfold try_catch at 1. unfold bind at 1. unfold bind at 1. unfold gets at 1.
  rewrite Hpage, Hcdp. unfold ret at 1. unfold bind at 1. unfold gets at 1.
  rewrite Hpage.
  match goal with
  | |- fst (match ?body st with _ => _ end) = _ =>
      assert (Hbody : fst (body st) = Ok false)
  end.
  { unfold Browserbase.attempt.
    set (locator2 := match exact with Some true => GetByText text true
                                | _ => GetByText text false end).
    clearbody locator2.
    repeat (apply attempt_or_else_false;
            [ intros ?; unfold bind, perform; cbn;
              repeat match goal with
                | |- context [drv unit (WaitVisible ?q ?l ?ms) ?tr] =>
                    let e := fresh "e" in
                    let He := fresh "He" in
                    destruct (Hwait l ms tr) as [e He]; rewrite He; cbn
                | |- context [drv unit (RegExpNew ?a ?f) ?tr] =>
                    destruct (drv unit (RegExpNew a f) tr); units; cbn
                end;
              discriminate
            | intros ? ]).
    unfold bind, perform. rewrite Hq. cbn. rewrite Hscan. reflexivity. }
  match goal with
  | |- fst (match ?body st with _ => _ end) = _ =>
      destruct (body st) as [[r|e] s1]; cbn in *; [exact Hbody | discriminate]
  end.
Qed.

(** Local: the target is normalized, and the session clicks what Playwright
    finds for it. *)
Lemma local_clickByText_finds (text : string) (exact : option bool) (st : Local.State) :
  let element :=
    GetByText (singleSpaced text) (match exact with Some b => b | None => false end) in
  answers drv (PageFocus (Local.page st) "body") (Ok tt) ->
  answers drv (IsVisible (Local.page st) element 2000) (Ok true) ->
  answers drv (LocClick (Local.page st) element 5000) (Ok tt) ->
  fst (Local.clickByText drv text exact st) = Ok true.
Proof.
  intros element Hfocus Hvis Hclick. unfold answers in *. subst element.
  rewrite <- normalization_by_words in Hvis, Hclick.
  unfold Local.clickByText. run_monad.
  rewrite Hfocus. cbn. rewrite Hvis. cbn. rewrite Hclick. reflexivity.
Qed.

(** Local: when Playwright finds nothing visible, nothing is clicked. *)
Lemma local_clickByText_misses (text : string) (exact : option bool) (st : Local.State) :
  (forall l ms, answers drv (IsVisible (Local.page st) l ms) (Ok false)) ->
  fst (Local.clickByText drv text exact st) = Ok false.
Proof.
  intros Hhidden. unfold answers in Hhidden. unfold Local.clickByText. run_monad.
  ask; cbn; [|reflexivity].
  rewrite Hhidden. cbn.
  ask; cbn; [|reflexivity].
  match goal with
  | |- context [Local.clickFirstVisible drv ?pg ?l ?i ?n ?s] =>
      assert (Hloop : forall count index s',
                 fst (Local.clickFirstVisible drv pg l index count s') = Ok false)
  end.
  { induction count as [|count IH]; intros index s'; [reflexivity|].
    cbn. run_monad. rewrite Hhidden. cbn. apply IH. }
  match goal with
  | |- context [Local.clickFirstVisible drv ?pg ?l ?i ?n ?s] =>
      specialize (Hloop n i s);
      destruct (Local.clickFirstVisible drv pg l i n s) as [[r|e] s1]
  end; cbn in *; [exact Hloop | reflexivity].
Qed.

End Clicking.

(** C7. [clickByText] returns a boolean and never raises, in both sessions,
    and its matching normalizes white space: [replace(/\s+/g, ' ').trim()]
    leaves the words of a text with single spaces between them (texts are
    strings of code units below 256; white space includes U+00A0).

    Browserbase: the in-page scan reads the target and the text of each
    button in lower case with white space normalized.  Whatever the
    Playwright strategies before it do, the call returns [true] when the
    click lands on a button (displayed, containing the target, clickable);
    when no locator becomes visible, it returns exactly whether it lands on
    one.  So on a page with the button "  Play  \n", [clickByText("Play")]
    returns [true], and on a page without buttons it returns [false].

    Local: the target is normalized and handed to Playwright's [getByText],
    which does the matching on the page; the call returns [true] when
    Playwright finds the element visible and clicks it, and [false] when
    Playwright finds nothing visible. *)
Theorem clickByText_matches_modulo_whitespace :
  forall (drv : Driver) (text : string) (exact : option bool),
    (forall st : Local.State,
        exists b st', Local.clickByText drv text exact st = (Ok b, st'))
    /\ (forall st : Browserbase.State,
          exists b st', Browserbase.clickByText drv text exact st = (Ok b, st'))
    /\ (forall s : string, trim (collapse_spaces s) = singleSpaced s)
    /\ (forall (st : Browserbase.State) (p : PageRef) (buttons : list Button),
          Browserbase.page st = Some p ->
          Browserbase.cdpSession st = true ->
          answers drv (QueryButtons p) (Ok buttons) ->
          existsb (lands text) buttons = true ->
          fst (Browserbase.clickByText drv text exact st) = Ok true)
    /\ (forall (st : Browserbase.State) (p : PageRef) (buttons : list Button),
          Browserbase.page st = Some p ->
          Browserbase.cdpSession st = true ->
          (forall l ms, fails drv (WaitVisible p l ms)) ->
          answers drv (QueryButtons p) (Ok buttons) ->
          fst (Browserbase.clickByText drv text exact st)
          = Ok (existsb (lands text) buttons))
    /\ (forall st : Local.State,
          let element :=
            GetByText (singleSpaced text)
              (match exact with Some b => b | None => false end) in
          answers drv (PageFocus (Local.page st) "body") (Ok tt) ->
          answers drv (IsVisible (Local.page st) element 2000) (Ok true) ->
          answers drv (LocClick (Local.page st) element 5000) (Ok tt) ->
          fst (Local.clickByText drv text exact st) = Ok true)
    /\ (forall st : Local.State,
          (forall l ms, answers drv (IsVisible (Local.page st) l ms) (Ok false)) ->
          fst (Local.clickByText drv text exact st) = Ok false)
    /\ words ("  Play  " ++ Mock.newline) = ["Play"]
    /\ singleSpaced ("Play " ++ Mock.nbsp ++ Mock.newline ++ "  Now ") = "Play Now"
    /\ (forall (st : Browserbase.State) (p : PageRef) (buttons : list Button),
          Browserbase.page st = Some p ->
          Browserbase.cdpSession st = true ->
          answers drv (QueryButtons p) (Ok buttons) ->
          In (Mock.button ("  Play  " ++ Mock.newline)) buttons ->
          fst (Browserbase.clickByText drv "Play" exact st) = Ok true)
    /\ (forall (st : Browserbase.State) (p : PageRef) (buttons : list Button),
          Browserbase.page st = Some p ->
          Browserbase.cdpSession st = true ->
          answers drv (QueryButtons p) (Ok buttons) ->
          In (Mock.button ("PLAY" ++ Mock.nbsp ++ Mock.newline ++ " Now")) buttons ->
          fst (Browserbase.clickByText drv ("play  now" ++ Mock.newline) exact st) = Ok true)
    /\ (forall (st : Browserbase.State) (p : PageRef),
          Browserbase.page st = Some p ->
          Browserbase.cdpSession st = true ->
          (forall l ms, fails drv (WaitVisible p l ms)) ->
          answers drv (QueryButtons p) (Ok []) ->
          fst (Browserbase.clickByText drv "Play" exact st) = Ok false)
    /\ (forall st : Local.State,
          answers drv (PageFocus (Local.page st) "body") (Ok tt) ->
          answers drv (IsVisible (Local.page st) (GetByText "Play" false) 2000) (Ok true) ->
          answers drv (LocClick (Local.page st) (GetByText "Play" false) 5000) (Ok tt) ->
          fst (Local.clickByText drv ("  Play " ++ Mock.newline) None st) = Ok true).
Proof.
  intros drv text exact.
  assert (Hlands : forall target b buttons,
             lands target b = true -> In b buttons ->
             existsb (lands target) buttons = true).
  { intros target b buttons Hb Hin. apply existsb_exists. exists b. split; assumption. }
  split; [intros st; apply local_clickByText_returns|].
  split; [intros st; apply browserbase_clickByText_returns|].
  split; [apply normalization_by_words|].
  split; [intros st p buttons; apply browserbase_clickByText_finds|].
  split; [intros st p buttons; apply browserbase_clickByText_scans|].
  split; [intros st; apply local_clickByText_finds|].
  split; [intros st; apply local_clickByText_misses|].
  split; [vm_compute; reflexivity|].
  split; [vm_compute; reflexivity|].
  split.
  { intros st p buttons Hp Hcdp Hq Hin.
    apply (browserbase_clickByText_finds drv "Play" exact st p buttons Hp Hcdp Hq).
    apply (Hlands _ _ _ (eq_refl : lands "Play" (Mock.button ("  Play  " ++ Mock.newline)) = true)
             Hin). }
  split.
  { intros st p buttons Hp Hcdp Hq Hin.
    apply (browserbase_clickByText_finds drv _ exact st p buttons Hp Hcdp Hq).
    refine (Hlands _ _ _ _ Hin). vm_compute. reflexivity. }
  split.
  { intros st p Hp Hcdp Hwait Hq.
    exact (browserbase_clickByText_scans drv "Play" exact st p [] Hp Hcdp Hwait Hq). }
  intros st Hfocus Hvis Hclick.
  apply (local_clickByText_finds drv ("  Play " ++ Mock.newline) None st); assumption.
Qed.

Lemma clickByText_matches_modulo_whitespace_witness :
  let drv := Mock.withoutLocators (Mock.browser Mock.gamePage) in
  let b := Mock.button ("  Play  " ++ Mock.newline) in
  Browserbase.page Mock.remote1 = Some MainPage
  /\ Browserbase.cdpSession Mock.remote1 = true
  /\ (forall l ms, fails drv (WaitVisible MainPage l ms))
  /\ answers drv (QueryButtons MainPage) (Ok [b])
  /\ existsb (lands "Play") [b] = true
  /\ fst (Browserbase.clickByText drv "Play" None Mock.remote1) = Ok true
  /\ fst (Browserbase.clickByText drv "Pause" None Mock.remote1) = Ok false.
Proof.
  intros drv b.
  assert (Hq : answers drv (QueryButtons MainPage) (Ok [b])) by (intros tr; reflexivity).
  assert (Hw : forall l ms, fails drv (WaitVisible MainPage l ms))
    by (intros l ms tr; eexists; reflexivity).
  assert (Hb : existsb (lands "Play") [b] = true) by (vm_compute; reflexivity).
  split; [reflexivity|]. split; [reflexivity|]. split; [exact Hw|].
  split; [exact Hq|]. split; [exact Hb|]. split.
  - exact (proj1 (proj2 (proj2 (proj2 (clickByText_matches_modulo_whitespace drv "Play" None))))
             Mock.remote1 MainPage [b] eq_refl eq_refl Hq Hb).
  - exact (proj1 (proj2 (proj2 (proj2 (proj2
                    (clickByText_matches_modulo_whitespace drv "Pause" None)))))
             Mock.remote1 MainPage [b] eq_refl eq_refl Hw Hq).
Defined.

#[local] Arguments scanIframes : simpl never.

Section Iframes.

Variable boxOf : nat -> option Box.

Lemma pickFrom_largest (iframes : list nat) :
  forall acc,
    held boxOf acc ->
    let r := pickFrom boxOf iframes acc in
    held boxOf r
    /\ (snd acc <= snd r)%Q
    /\ (forall j b, In j iframes -> boxOf j = Some b ->
          (area b <= snd r)%Q \/ (area b <= minIframeArea)%Q)
    /\ (fst r = fst acc \/ exists i, fst r = Some i /\ In i iframes).
Proof.
  induction iframes as [|h rest IH]; intros acc Hacc; cbn.
  - repeat split; [exact Hacc | apply Qle_refl | intros j b [] | left; reflexivity].
  - destruct (boxOf h) as [bh|] eqn:Hh.
    + destruct (gtb (area bh) (snd acc)) eqn:Hgt; cbn.
      * destruct (gtb (area bh) minIframeArea) eqn:Hthr; cbn.
        -- apply gtb_true_iff in Hgt. apply gtb_true_iff in Hthr.
           assert (Hnew : held boxOf (Some h, area bh))
             by (exists bh; cbn; repeat split; assumption).
           destruct (IH _ Hnew) as [Hr [Hle [Hall Hsel]]]. cbn in Hle.
           repeat split.
           ++ exact Hr.
           ++ lra.
           ++ intros j b [<- | Hj] Hb.
              ** rewrite Hh in Hb. injection Hb as <-. left. exact Hle.
              ** apply (Hall j b Hj Hb).
           ++ right. destruct Hsel as [Hsel | [i [Hi Hin]]].
              ** exists h. split; [exact Hsel | left; reflexivity].
              ** exists i. split; [exact Hi | right; exact Hin].
        -- apply gtb_false_iff in Hthr.
           destruct (IH _ Hacc) as [Hr [Hle [Hall Hsel]]].
           repeat split; try assumption.
           ++ intros j b [<- | Hj] Hb.
              ** rewrite Hh in Hb. injection Hb as <-. right. exact Hthr.
              ** apply (Hall j b Hj Hb).
           ++ destruct Hsel as [Hsel | [i [Hi Hin]]]; [left; exact Hsel|].
              right. exists i. split; [exact Hi | right; exact Hin].
      * apply gtb_false_iff in Hgt.
        destruct (IH _ Hacc) as [Hr [Hle [Hall Hsel]]].
        repeat split; try assumption.
        -- intros j b [<- | Hj] Hb.
           ++ rewrite Hh in Hb. injection Hb as <-. left. lra.
           ++ apply (Hall j b Hj Hb).
        -- destruct Hsel as [Hsel | [i [Hi Hin]]]; [left; exact Hsel|].
           right. exists i. split; [exact Hi | right; exact Hin].
    + destruct (IH _ Hacc) as [Hr [Hle [Hall Hsel]]].
      repeat split; try assumption.
      * intros j b [<- | Hj] Hb; [congruence | apply (Hall j b Hj Hb)].
      * destruct Hsel as [Hsel | [i [Hi Hin]]]; [left; exact Hsel|].
        right. exists i. split; [exact Hi | right; exact Hin].
Qed.

Lemma start_held : held boxOf (None, 0%Q).
Proof. unfold held, minIframeArea. cbn. discriminate. Qed.

(** The iframe chosen from [(null, 0)] is above the threshold and no iframe
    of the list is larger. *)
Lemma pickFrom_some (iframes : list nat) (i : nat) :
  fst (pickFrom boxOf iframes (None, 0%Q)) = Some i ->
  In i iframes
  /\ exists b, boxOf i = Some b
               /\ (minIframeArea < area b)%Q
               /\ forall j b', In j iframes -> boxOf j = Some b' -> (area b' <= area b)%Q.
Proof.
  intros Hpick.
  destruct (pickFrom_largest iframes _ start_held) as [Hr [_ [Hall Hsel]]].
  unfold held in Hr. rewrite Hpick in Hr. destruct Hr as [b [Hb [Harea Hthr]]].
  split.
  - destruct Hsel as [Hsel | [k [Hk Hin]]]; [rewrite Hpick in Hsel; discriminate|].
    rewrite Hpick in Hk. injection Hk as <-. exact Hin.
  - exists b. rewrite Harea. repeat split; try assumption.
    intros j b' Hj Hb'. destruct (Hall j b' Hj Hb') as [Hle | Hle]; lra.
Qed.

(** Nothing is chosen exactly when no iframe is above the threshold. *)
Lemma pickFrom_none (iframes : list nat) :
  (forall j b, In j iframes -> boxOf j = Some b -> (area b <= minIframeArea)%Q) ->
  fst (pickFrom boxOf iframes (None, 0%Q)) = None.
Proof.
  intros Hsmall.
  destruct (fst (pickFrom boxOf iframes (None, 0%Q))) as [i|] eqn:Hpick; [|reflexivity].
  destruct (pickFrom_some iframes i Hpick) as [Hin [b [Hb [Hthr _]]]].
  specialize (Hsmall i b Hin Hb). lra.
Qed.

Lemma pickFrom_finds (iframes : list nat) (j : nat) (b : Box) :
  In j iframes -> boxOf j = Some b -> (minIframeArea < area b)%Q ->
  exists i, fst (pickFrom boxOf iframes (None, 0%Q)) = Some i.
Proof.
  intros Hj Hb Hbig.
  destruct (pickFrom_largest iframes _ start_held) as [Hr [_ [Hall _]]].
  destruct (fst (pickFrom boxOf iframes (None, 0%Q))) as [i|] eqn:Hpick;
    [exists i; reflexivity|].
  unfold held in Hr. rewrite Hpick in Hr.
  destruct (Hall j b Hj Hb) as [Hle | Hle]; lra.
Qed.

Variable drv : Driver.
Hypothesis boxes : forall i, answers drv (BoundingBox i) (Ok (boxOf i)).

(** With bounding boxes that do not change, the loop of the session makes
    the choice of [pickFrom]; it only adds to the trace. *)
Lemma scanIframes_picks {S : Type} `{Traced S} (P : S -> Prop) :
  (forall e s, P s -> P (log_entry e s)) ->
  forall iframes acc s,
    P s ->
    exists s', scanIframes drv iframes acc s = (Ok (pickFrom boxOf iframes acc), s') /\ P s'.
Proof.
  intros Hkeep. induction iframes as [|h rest IH]; intros acc s Hs.
  - exists s. split; [reflexivity | exact Hs].
  - unfold scanIframes; fold (@scanIframes S _ drv). run_monad.
    rewrite (boxes h). cbn.
    destruct (boxOf h) as [b|]; [destruct (gtb (area b) (snd acc) && gtb (area b) minIframeArea)|];
      apply IH; apply Hkeep; exact Hs.
Qed.

End Iframes.

#[local] Arguments pickFrom : simpl never.

Section Switching.

Variable drv : Driver.
Variable boxOf : nat -> option Box.
Variable frameOf : nat -> option nat.
Variable iframes : list nat.
Hypothesis boxes : forall i, answers drv (BoundingBox i) (Ok (boxOf i)).
Hypothesis frames : forall i, answers drv (ContentFrame i) (Ok (frameOf i)).

(** Without a selector the local session enters the frame of the iframe
    that [pickFrom] chooses, when there is one and it has a frame. *)
Lemma local_switch_follows_pick (st : Local.State) :
  answers drv (QueryIframes (Local.page st)) (Ok iframes) ->
  let r := Local.switchToIframe drv None st in
  match fst (pickFrom boxOf iframes (None, 0%Q)) with
  | Some i =>
      match frameOf i with
      | Some f => fst r = Ok true /\ Local.page (snd r) = FramePage f
      | None => fst r = Ok false /\ Local.page (snd r) = Local.page st
      end
  | None => fst r = Ok false /\ Local.page (snd r) = Local.page st
  end.
Proof.
  intros Hq. unfold answers in Hq. unfold Local.switchToIframe. run_monad. rewrite Hq. cbn.
  destruct iframes as [|i0 rest] eqn:Hl; cbn; [split; reflexivity|].
  match goal with
  | |- context [scanIframes drv ?l ?acc ?s] =>
      destruct (@scanIframes_picks boxOf drv boxes Local.State Local.traced
                  (fun s' : Local.State => Local.page s' = Local.page st)
                  (fun e s' Hs' => Hs') l acc s eq_refl) as [s1 [Hscan Hpage]];
      rewrite Hscan
  end.
  cbn. destruct (fst (pickFrom boxOf (i0 :: rest) (None, 0%Q))) as [i|]; cbn;
    [|split; [reflexivity | exact Hpage]].
  unfold Local.enterFrame. run_monad. rewrite (frames i). cbn.
  destruct (frameOf i); cbn; split; try reflexivity. exact Hpage.
Qed.

(** So does a connected Browserbase session. *)
Lemma browserbase_switch_follows_pick (st : Browserbase.State) (p : PageRef) :
  Browserbase.page st = Some p ->
  Browserbase.cdpSession st = true ->
  answers drv (QueryIframes p) (Ok iframes) ->
  let r := Browserbase.switchToIframe drv None st in
  match fst (pickFrom boxOf iframes (None, 0%Q)) with
  | Some i =>
      match frameOf i with
      | Some f => fst r = Ok true /\ Browserbase.page (snd r) = Some (FramePage f)
      | None => fst r = Ok false /\ Browserbase.page (snd r) = Some p
      end
  | None => fst r = Ok false /\ Browserbase.page (snd r) = Some p
  end.
Proof.
  intros Hp Hcdp Hq. unfold answers in Hq.
  unfold Browserbase.switchToIframe, Browserbase.ensureCDPConnection, Browserbase.connected.
  run_monad. rewrite Hp, Hcdp. cbn. rewrite Hp. cbn. rewrite Hp. cbn. rewrite Hq. cbn.
  destruct iframes as [|i0 rest] eqn:Hl; cbn; [split; [reflexivity | exact Hp]|].
  match goal with
  | |- context [scanIframes drv ?l ?acc ?s] =>
      destruct (@scanIframes_picks boxOf drv boxes Browserbase.State Browserbase.traced
                  (fun s' : Browserbase.State => Browserbase.page s' = Some p)
                  (fun e s' Hs' => Hs') l acc s Hp) as [s1 [Hscan Hpage]];
      rewrite Hscan
  end.
  cbn. destruct (fst (pickFrom boxOf (i0 :: rest) (None, 0%Q))) as [i|]; cbn;
    [|split; [reflexivity | exact Hpage]].
  unfold Browserbase.enterFrame. run_monad. rewrite (frames i). cbn.
  destruct (frameOf i); cbn; split; try reflexivity. exact Hpage.
Qed.

End Switching.

Lemma local_switchToIframe_returns (drv : Driver) (selector : option string) (st : Local.State) :
  exists b st', Local.switchToIframe drv selector st = (Ok b, st').
Proof.
  unfold Local.switchToIframe. apply try_catch_returns.
  intros e s. exists false, s. reflexivity.
Qed.

Lemma browserbase_switchToIframe_returns (drv : Driver) (selector : option string)
  (st : Browserbase.State) :
  exists b st', Browserbase.switchToIframe drv selector st = (Ok b, st').
Proof.
  unfold Browserbase.switchToIframe. apply try_catch_returns.
  intros e s. eexists. eexists. reflexivity.
Qed.

(** C8. [switchToIframe] returns a boolean and never raises.  Without a
    selector (on a session that is connected, for Browserbase, and with
    bounding boxes that do not change during the scan):
    when some iframe has an area above 400 * 400, the session picks an iframe
    above the threshold that no other iframe exceeds, enters its frame and
    returns [true] (it returns [false] and stays where it is when that
    iframe has no content frame); when there is no iframe, or none above the
    threshold, it returns [false] and stays on the page it was on.  With
    iframes of 800x600 and 100x100 it enters the first and returns [true]. *)
Theorem switchToIframe_enters_largest :
  (forall (drv : Driver) (selector : option string),
      (forall st : Local.State,
          exists b st', Local.switchToIframe drv selector st = (Ok b, st'))
      /\ (forall st : Browserbase.State,
            exists b st', Browserbase.switchToIframe drv selector st = (Ok b, st')))
  /\ (forall (drv : Driver) (boxOf : nat -> option Box) (frameOf : nat -> option nat)
             (iframes : list nat),
        (forall i, answers drv (BoundingBox i) (Ok (boxOf i))) ->
        (forall i, answers drv (ContentFrame i) (Ok (frameOf i))) ->
        (forall st : Local.State,
            answers drv (QueryIframes (Local.page st)) (Ok iframes) ->
            let r := Local.switchToIframe drv None st in
            ((exists j b, In j iframes /\ boxOf j = Some b /\ (minIframeArea < area b)%Q) ->
             exists i b,
               In i iframes /\ boxOf i = Some b /\ (minIframeArea < area b)%Q
               /\ (forall j b', In j iframes -> boxOf j = Some b' -> (area b' <= area b)%Q)
               /\ match frameOf i with
                  | Some f => fst r = Ok true /\ Local.page (snd r) = FramePage f
                  | None => fst r = Ok false /\ Local.page (snd r) = Local.page st
                  end)
            /\ ((forall j b, In j iframes -> boxOf j = Some b ->
                   (area b <= minIframeArea)%Q) ->
                fst r = Ok false /\ Local.page (snd r) = Local.page st))
        /\ (forall (st : Browserbase.State) (p : PageRef),
              Browserbase.page st = Some p ->
              Browserbase.cdpSession st = true ->
              answers drv (QueryIframes p) (Ok iframes) ->
              let r := Browserbase.switchToIframe drv None st in
              ((exists j b, In j iframes /\ boxOf j = Some b /\ (minIframeArea < area b)%Q) ->
               exists i b,
                 In i iframes /\ boxOf i = Some b /\ (minIframeArea < area b)%Q
                 /\ (forall j b', In j iframes -> boxOf j = Some b' -> (area b' <= area b)%Q)
                 /\ match frameOf i with
                    | Some f => fst r = Ok true
                                /\ Browserbase.page (snd r) = Some (FramePage f)
                    | None => fst r = Ok false /\ Browserbase.page (snd r) = Some p
                    end)
              /\ ((forall j b, In j iframes -> boxOf j = Some b ->
                     (area b <= minIframeArea)%Q) ->
                  fst r = Ok false /\ Browserbase.page (snd r) = Some p)))
  /\ (let r := Local.switchToIframe (Mock.browser Mock.gamePage) None Mock.local0 in
      fst r = Ok true /\ Local.page (snd r) = FramePage 7)
  /\ (let r := Browserbase.switchToIframe (Mock.browser Mock.gamePage) None Mock.remote0 in
      fst r = Ok true /\ Browserbase.page (snd r) = Some (FramePage 7))
  /\ (let r := Local.switchToIframe (Mock.browser Mock.emptyPage) None Mock.local0 in
      fst r = Ok false /\ Local.page (snd r) = MainPage)
  /\ (let r := Browserbase.switchToIframe (Mock.browser Mock.emptyPage) None Mock.remote0 in
      fst r = Ok false /\ Browserbase.page (snd r) = Some MainPage).
Proof.
  split; [|split].
  - intros drv selector. split; intros st.
    + apply local_switchToIframe_returns.
    + apply browserbase_switchToIframe_returns.
  - intros drv boxOf frameOf iframes Hboxes Hframes. split.
    + intros st Hq r.
      pose proof (local_switch_follows_pick drv boxOf frameOf iframes Hboxes Hframes st Hq)
        as Hpick.
      cbv zeta in Hpick. fold r in Hpick. split.
      * intros [j [b [Hj [Hb Hbig]]]].
        destruct (pickFrom_finds boxOf iframes j b Hj Hb Hbig) as [i Hi].
        rewrite Hi in Hpick.
        destruct (pickFrom_some boxOf iframes i Hi) as [Hin [bi [Hbi [Hthr Hmax]]]].
        exists i, bi. repeat split; assumption.
      * intros Hsmall. rewrite (pickFrom_none boxOf iframes Hsmall) in Hpick. exact Hpick.
    + intros st p Hp Hcdp Hq r.
      pose proof (browserbase_switch_follows_pick drv boxOf frameOf iframes Hboxes Hframes
                    st p Hp Hcdp Hq) as Hpick.
      cbv zeta in Hpick. fold r in Hpick. split.
      * intros [j [b [Hj [Hb Hbig]]]].
        destruct (pickFrom_finds boxOf iframes j b Hj Hb Hbig) as [i Hi].
        rewrite Hi in Hpick.
        destruct (pickFrom_some boxOf iframes i Hi) as [Hin [bi [Hbi [Hthr Hmax]]]].
        exists i, bi. repeat split; assumption.
      * intros Hsmall. rewrite (pickFrom_none boxOf iframes Hsmall) in Hpick. exact Hpick.
  - repeat split; vm_compute; reflexivity.
Qed.

Lemma switchToIframe_enters_largest_witness :
  let drv := Mock.browser Mock.gamePage in
  let boxOf := fun i => fst (nth i (Mock.iframes Mock.gamePage) (None, None)) in
  let frameOf := fun i => snd (nth i (Mock.iframes Mock.gamePage) (None, None)) in
  (forall i, answers drv (BoundingBox i) (Ok (boxOf i)))
  /\ (forall i, answers drv (ContentFrame i) (Ok (frameOf i)))
  /\ answers drv (QueryIframes (Local.page Mock.local0)) (Ok [0%nat; 1%nat])
  /\ (exists j b, In j [0%nat; 1%nat] /\ boxOf j = Some b /\ (minIframeArea < area b)%Q)
  /\ exists i b,
       In i [0%nat; 1%nat] /\ boxOf i = Some b /\ (minIframeArea < area b)%Q
       /\ (forall j b', In j [0%nat; 1%nat] -> boxOf j = Some b' -> (area b' <= area b)%Q)
       /\ match frameOf i with
          | Some f =>
              fst (Local.switchToIframe drv None Mock.local0) = Ok true
              /\ Local.page (snd (Local.switchToIframe drv None Mock.local0)) = FramePage f
          | None =>
              fst (Local.switchToIframe drv None Mock.local0) = Ok false
              /\ Local.page (snd (Local.switchToIframe drv None Mock.local0))
                 = Local.page Mock.local0
          end.
Proof.
  intros drv boxOf frameOf.
  assert (Hb : forall i, answers drv (BoundingBox i) (Ok (boxOf i)))
    by (intros i tr; reflexivity).
  assert (Hf : forall i, answers drv (ContentFrame i) (Ok (frameOf i)))
    by (intros i tr; reflexivity).
  assert (Hq : answers drv (QueryIframes (Local.page Mock.local0)) (Ok [0%nat; 1%nat]))
    by (intros tr; reflexivity).
  assert (Hbig : exists j b, In j [0%nat; 1%nat] /\ boxOf j = Some b
                             /\ (minIframeArea < area b)%Q).
  { exists 0%nat, (Mock.box 800 600). split; [left; reflexivity|].
    split; reflexivity. }
  split; [exact Hb|]. split; [exact Hf|]. split; [exact Hq|]. split; [exact Hbig|].
  exact (proj1 (proj1 (proj1 (proj2 switchToIframe_enters_largest)
                         drv boxOf frameOf [0%nat; 1%nat] Hb Hf)
                  Mock.local0 Hq) Hbig).
Defined.

Section Capturing.

Variable drv : Driver.

(** What the local [screenshot] can end with: the buffer the capture
    resolved with, or an error that wraps the failure. *)
Lemma local_screenshot_outcome (st : Local.State) :
  match fst (Local.screenshot drv st) with
  | Ok buf =>
      exists tr,
        drv _ (Timed 10000 (PageScreenshot (Local.page st) 10000)) tr = Ok (Some buf)
  | Throw e => exists msg, e = JsError ("Screenshot failed: " ++ msg)
  end.
Proof.
  unfold Local.screenshot. run_monad.
  destruct (drv _ (Timed 1000 (GetAnimations (Local.page st) false)) (Local.trace st))
    as [[animations|]|e0]; cbn;
    match goal with
    | |- context [match ?d ?A ?p ?t with Ok _ => _ | Throw _ => _ end] =>
        destruct (d A p t) as [[buf|]|e1] eqn:E
    end; cbn; try (eexists; reflexivity); eexists; exact E.
Qed.

(** What the Browserbase [screenshot] can end with: the decoded data of a
    capture that returned some, or an error that wraps the failure. *)
Lemma browserbase_screenshot_outcome (st : Browserbase.State) :
  match fst (Browserbase.screenshot drv st) with
  | Ok buf =>
      exists tr tr' r d,
        drv _ CaptureScreenshot tr = Ok (Some r)
        /\ truthy_str (data r) = Some d
        /\ drv _ (BufferFromBase64 d) tr' = Ok buf
  | Throw e => exists msg, e = JsError ("Screenshot failed: " ++ msg)
  end.
Proof.
  unfold Browserbase.screenshot. run_monad.
  ensure s1; cbn; [|eexists; reflexivity].
  destruct (Browserbase.cdpSession s1); cbn; [|eexists; reflexivity].
  destruct (Browserbase.page s1) as [p|]; cbn;
    (match goal with
     | |- context [match ?d ?A CaptureScreenshot ?t with Ok _ => _ | Throw _ => _ end] =>
         destruct (d A CaptureScreenshot t) as [[shot|]|e1] eqn:Ecap
     end; cbn; try (eexists; reflexivity);
     destruct (truthy_str (data shot)) as [d64|] eqn:Edata; cbn; try (eexists; reflexivity);
     match goal with
     | |- context [match ?d ?A (BufferFromBase64 ?x) ?t with Ok _ => _ | Throw _ => _ end] =>
         destruct (d A (BufferFromBase64 x) t) as [buf|e2] eqn:Edec
     end; cbn; try (eexists; reflexivity);
     do 2 eexists; exists shot, d64; repeat split; eassumption).
Qed.

End Capturing.

(** C9.  Both sessions throw "Screenshot failed: ..." to the caller whenever
    the capture fails or gives no data, and return bytes only when the
    capture succeeded: the bytes it gave, never a substitute.  Local: a
    [page.screenshot] that throws or does not resolve within ten seconds
    makes [screenshot] throw, and what is returned is the buffer it resolved
    with.  Browserbase: a CDP capture that throws, returns [null] or has
    missing or empty [data] makes [screenshot] throw, and what is returned
    is the decoding of its data.  A capture that succeeds gives at least one
    byte, so the buffer returned is never empty. *)
Theorem screenshot_propagates_capture_failure :
  forall drv : Driver,
    (forall st : Local.State,
        match fst (Local.screenshot drv st) with
        | Ok buf =>
            exists tr,
              drv _ (Timed 10000 (PageScreenshot (Local.page st) 10000)) tr = Ok (Some buf)
        | Throw e => exists msg, e = JsError ("Screenshot failed: " ++ msg)
        end)
    /\ (forall st : Local.State,
          (forall tr buf,
              drv _ (Timed 10000 (PageScreenshot (Local.page st) 10000)) tr <> Ok (Some buf)) ->
          exists msg,
            fst (Local.screenshot drv st) = Throw (JsError ("Screenshot failed: " ++ msg)))
    /\ (forall st : Browserbase.State,
          match fst (Browserbase.screenshot drv st) with
          | Ok buf =>
              exists tr tr' r d,
                drv _ CaptureScreenshot tr = Ok (Some r)
                /\ truthy_str (data r) = Some d
                /\ drv _ (BufferFromBase64 d) tr' = Ok buf
          | Throw e => exists msg, e = JsError ("Screenshot failed: " ++ msg)
          end)
    /\ (forall st : Browserbase.State,
          (forall tr r, drv _ CaptureScreenshot tr = Ok (Some r) -> truthy_str (data r) = None) ->
          exists msg,
            fst (Browserbase.screenshot drv st)
            = Throw (JsError ("Screenshot failed: " ++ msg)))
    /\ (forall st : Local.State,
          (forall tr,
              drv _ (Timed 10000 (PageScreenshot (Local.page st) 10000)) tr <> Ok (Some [])) ->
          fst (Local.screenshot drv st) <> Ok [])
    /\ (forall st : Browserbase.State,
          (forall d tr, d <> EmptyString -> drv _ (BufferFromBase64 d) tr <> Ok []) ->
          fst (Browserbase.screenshot drv st) <> Ok [])
    /\ fst (Local.screenshot (Mock.browser Mock.gamePage) Mock.local0) = Ok Mock.png
    /\ fst (Browserbase.screenshot (Mock.browser Mock.gamePage) Mock.remote0) = Ok Mock.png.
Proof.
  intros drv.
  split; [intros st; apply local_screenshot_outcome|].
  split.
  { intros st Hfail. pose proof (local_screenshot_outcome drv st) as Hout.
    destruct (fst (Local.screenshot drv st)) as [buf|e].
    - destruct Hout as [tr Htr]. exfalso. exact (Hfail tr buf Htr).
    - destruct Hout as [msg ->]. exists msg. reflexivity. }
  split; [intros st; apply browserbase_screenshot_outcome|].
  split.
  { intros st Hfail. pose proof (browserbase_screenshot_outcome drv st) as Hout.
    destruct (fst (Browserbase.screenshot drv st)) as [buf|e].
    - destruct Hout as [tr [tr' [r [d [Hcap [Hdata _]]]]]].
      rewrite (Hfail tr r Hcap) in Hdata. discriminate.
    - destruct Hout as [msg ->]. exists msg. reflexivity. }
  split.
  { intros st Hbytes Hempty. pose proof (local_screenshot_outcome drv st) as Hout.
    rewrite Hempty in Hout. destruct Hout as [tr Htr]. exact (Hbytes tr Htr). }
  split.
  { intros st Hbytes Hempty. pose proof (browserbase_screenshot_outcome drv st) as Hout.
    rewrite Hempty in Hout. destruct Hout as [tr [tr' [r [d [_ [Hdata Hdec]]]]]].
    apply (Hbytes d tr'); [|exact Hdec].
    intros ->. destruct (data r) as [[|c t]|]; cbn in Hdata; discriminate. }
  split; vm_compute; reflexivity.
Qed.

Lemma screenshot_propagates_capture_failure_witness :
  let drv : Driver :=
    fun A p tr => Throw (JsError "Target page, context or browser has been closed") in
  (forall tr buf,
      drv _ (Timed 10000 (PageScreenshot (Local.page Mock.local0) 10000)) tr <> Ok (Some buf))
  /\ exists msg,
       fst (Local.screenshot drv Mock.local0) = Throw (JsError ("Screenshot failed: " ++ msg)).
Proof.
  intros drv.
  assert (Hfail : forall tr buf,
             drv _ (Timed 10000 (PageScreenshot (Local.page Mock.local0) 10000)) tr
             <> Ok (Some buf))
    by (intros tr buf; discriminate).
  split; [exact Hfail|].
  exact (proj1 (proj2 (screenshot_propagates_capture_failure drv)) Mock.local0 Hfail).
Defined.


(* ===================================================================== *)
(** ** Computations and the relations they maintain *)
(* ===================================================================== *)

Section KeepingFacts.

Context {S : Type} (R : S -> S -> Prop) (HR : Preorder R).

Lemma same_preorder {B : Type} (f : S -> B) : Preorder (same f).
Proof.
  split; unfold same.
  - reflexivity.
  - intros s1 s2 s3 H12 H23. congruence.
Qed.

Lemma keeps_ret {A : Type} (a : A) : keeps R (ret a).
Proof. intros s. apply (pre_refl R HR). Qed.

Lemma keeps_throw {A : Type} (e : Thrown) : keeps R (@throw S A e).
Proof. intros s. apply (pre_refl R HR). Qed.

Lemma keeps_gets {A : Type} (f : S -> A) : keeps R (gets f).
Proof. intros s. apply (pre_refl R HR). Qed.

Lemma keeps_modify (f : S -> S) : (forall s, R s (f s)) -> keeps R (modify f).
Proof. intros Hf s. apply Hf. Qed.

Lemma keeps_bind {A B : Type} (c : M S A) (k : A -> M S B) :
  keeps R c -> (forall a, keeps R (k a)) -> keeps R (bind c k).
Proof.
  intros Hc Hk s. unfold bind. specialize (Hc s).
  destruct (c s) as [[a|e] s1]; cbn in *; [|exact Hc].
  apply (pre_trans R HR s s1); [exact Hc | apply Hk].
Qed.

Lemma keeps_try_catch {A : Type} (c : M S A) (h : Thrown -> M S A) :
  keeps R c -> (forall e, keeps R (h e)) -> keeps R (try_catch c h).
Proof.
  intros Hc Hh s. unfold try_catch. specialize (Hc s).
  destruct (c s) as [[a|e] s1]; cbn in *; [exact Hc|].
  apply (pre_trans R HR s s1); [exact Hc | apply Hh].
Qed.

Lemma keeps_when (b : bool) (c : M S unit) : keeps R c -> keeps R (when b c).
Proof. intros Hc. destruct b; [exact Hc | apply keeps_ret]. Qed.

Lemma keeps_ignore_errors (c : M S unit) : keeps R c -> keeps R (ignore_errors c).
Proof. intros Hc. apply keeps_try_catch; [exact Hc | intros e; apply keeps_ret]. Qed.

Lemma keeps_false_on_error (c : M S bool) : keeps R c -> keeps R (false_on_error c).
Proof. intros Hc. apply keeps_try_catch; [exact Hc | intros e; apply keeps_ret]. Qed.

Lemma keeps_or_else (c k : M S bool) : keeps R c -> keeps R k -> keeps R (or_else c k).
Proof.
  intros Hc Hk. apply keeps_bind; [exact Hc|].
  intros [|]; [apply keeps_ret | exact Hk].
Qed.

Section Logged.
Context `{Traced S}.
Hypothesis logs : forall e s, R s (log_entry e s).
Variable drv : Driver.

Lemma keeps_perform {A : Type} (p : Prim A) : keeps R (perform drv p).
Proof. intros s. apply logs. Qed.

Lemma keeps_wait (ms : number) : keeps R (wait ms).
Proof. intros s. apply logs. Qed.

Lemma keeps_console (level text : string) : keeps R (console level text).
Proof. intros s. apply logs. Qed.

Lemma keeps_evaluateText {A : Type} (syntax : Syntax) (p : Prim A) :
  keeps R (evaluateText drv syntax p).
Proof. intros s. destruct syntax; apply logs. Qed.

Lemma keeps_scanIframes (iframes : list nat) :
  forall acc, keeps R (scanIframes drv iframes acc).
Proof.
  induction iframes as [|i rest IH]; intros acc; [apply keeps_ret|].
  cbn. apply keeps_bind; [apply keeps_perform|].
  intros [b|]; [destruct (gtb (area b) (snd acc) && gtb (area b) minIframeArea)|]; apply IH.
Qed.

End Logged.

End KeepingFacts.

(** One step of a proof that a computation maintains a relation. *)
Ltac keep_step HR :=
  first
    [ apply (keeps_ret _ HR)
    | apply (keeps_throw _ HR)
    | apply (keeps_gets _ HR)
    | apply (keeps_bind _ HR); [|intros ?]
    | apply (keeps_try_catch _ HR); [|intros ?]
    | apply (keeps_when _ HR)
    | apply (keeps_ignore_errors _ HR)
    | apply (keeps_false_on_error _ HR)
    | apply (keeps_or_else _ HR)
    | match goal with
      | |- keeps _ (match ?x with _ => _ end) => destruct x
      | |- keeps _ (if ?b then _ else _) => destruct b
      | |- keeps _ (let _ := _ in _) => cbv zeta
      end ].

(* ===================================================================== *)
(** ** Further properties of the action executor *)
(* ===================================================================== *)

Section EngineMore.

Import Engine.

Variable showNumber : number -> string.
Variable session : Session.
Variable timeouts : TimeoutConfig.

(** An integer below a number is below its ceiling. *)
Lemma below_ceiling (z : Z) (q : number) :
  (inject_Z z <= q)%Q -> (z <= Qceiling q)%Z.
Proof.
  intros Hle. rewrite Zle_Qle.
  apply Qle_trans with q; [exact Hle | apply Qle_ceiling].
Qed.

(** X1. A raced session call never takes longer than the timer: the clock
    advances by at most the time the timer needs to fire, and never goes
    back, whatever the session does. *)
Theorem race_settles_within_timer :
  forall (c : Call) (ms : number) (w : World),
    (now w <= now (snd (race session c ms w)) <= now w + timer_fires ms)%Z.
Proof.
  intros c ms w. unfold race, timer_fires.
  destruct (session w c) as [d|d e];
    destruct (Qle_bool (inject_Z (Z.max 0 d)) ms) eqn:Hwin; cbn;
    try (apply Qle_bool_iff, below_ceiling in Hwin); lia.
Qed.

(** The body of an action does not write to the console. *)
Lemma race_keeps_warnings (c : Call) (ms : number) :
  keeps (same warnings) (race session c ms).
Proof.
  intros w. unfold same, race.
  destruct (session w c); destruct (Qle_bool _ _); reflexivity.
Qed.

Lemma pressKeys_keeps_warnings (k : string) (ms : number) (n : nat) :
  keeps (same warnings) (pressKeys session k ms n).
Proof.
  induction n as [|n IH]; cbn.
  - apply (keeps_ret _ (same_preorder warnings)).
  - apply (keeps_bind _ (same_preorder warnings)); [apply race_keeps_warnings|].
    intros _. exact IH.
Qed.

Lemma actionBody_keeps_warnings (a : ActionConfig) :
  keeps (same warnings) (actionBody showNumber session timeouts a).
Proof.
  unfold actionBody, clock.
  repeat first
    [ apply race_keeps_warnings
    | apply pressKeys_keeps_warnings
    | keep_step (same_preorder warnings) ].
  intros w. unfold same, await_call. destruct (session w (SWait 200)); reflexivity.
Qed.

(** X2. An action that [executeAction] completes without logging a failure
    took at most [timeouts.action] seconds: the check after the action
    rejects every slower one, of whatever type. *)
Theorem completed_action_is_within_timeout :
  forall (a : ActionConfig) (w w1 : World),
    executeAction showNumber session timeouts a w = (Ok tt, w1) ->
    warnings w1 = warnings w ->
    (inject_Z (now w1 - now w) <= action timeouts * 1000)%Q.
Proof.
  intros a w w1 Hexec Hquiet.
  pose proof (actionBody_keeps_warnings a w) as Hbody. unfold same in Hbody.
  unfold executeAction, try_catch, actionHandler in Hexec.
  destruct (actionBody showNumber session timeouts a w) as [[u|e] w2] eqn:Hrun; cbn in Hbody.
  - destruct u. injection Hexec as <-.
    unfold actionBody, bind, clock, gets in Hrun.
    match type of Hrun with
    | (let (r, s') := ?inner in _) = _ => destruct inner as [[u0|e0] w3]
    end; [|discriminate].
    unfold when in Hrun.
    destruct (gtb (inject_Z (now w3 - now w)) (action timeouts * 1000)) eqn:Hlate;
      [discriminate|].
    injection Hrun as <-. apply gtb_false_iff. exact Hlate.
  - destruct (is_timeout e); [discriminate|].
    injection Hexec as <-. cbn in Hquiet. rewrite Hbody in Hquiet.
    exfalso. apply (f_equal (@List.length _)) in Hquiet.
    rewrite length_app in Hquiet. cbn in Hquiet. lia.
Qed.

(** The presses of a repeated key: a run of calls for that key, no longer
    than asked, and as long as asked when no press failed. *)
Lemma pressKeys_calls (k : string) (ms : number) (n : nat) :
  forall w,
    exists m,
      (m <= n)%nat
      /\ calls (snd (pressKeys session k ms n w))
         = (calls w ++ List.repeat (SKeypress k) m)%list
      /\ (fst (pressKeys session k ms n w) = Ok tt -> m = n).
Proof.
  induction n as [|n IH]; intros w.
  - exists 0%nat. cbn. rewrite app_nil_r. repeat split. lia.
  - cbn. unfold bind.
    pose proof (race_calls session (SKeypress k) ms w) as Hcall.
    destruct (race session (SKeypress k) ms w) as [[u|e] w1]; cbn in Hcall.
    + destruct (IH w1) as [m [Hm [Hcalls Hall]]].
      exists (S m). split; [lia|]. split.
      * rewrite Hcalls, Hcall, <- app_assoc. reflexivity.
      * intros Hok. rewrite (Hall Hok). reflexivity.
    + exists 1%nat. cbn. split; [lia|]. split; [exact Hcall | discriminate].
Qed.

(** X3. A keypress action calls [session.keypress] with its key and nothing
    else, at most as many times as [for (i = 0; i < repeat; i++)] iterates;
    when the action completes without a logged failure, it pressed exactly
    that many times. *)
Theorem keypress_presses_repeat_times :
  forall (a : ActionConfig) (k : string) (w : World),
    type a = "keypress" ->
    truthy_str (key a) = Some k ->
    let n := iterations (or_num (repeat a) 1) in
    let after := executeAction showNumber session timeouts a w in
    exists m,
      (m <= n)%nat
      /\ calls (snd after) = (calls w ++ List.repeat (SKeypress k) m)%list
      /\ (fst after = Ok tt -> warnings (snd after) = warnings w -> m = n).
Proof.
  intros a k w Htype Hkey n after.
  destruct (pressKeys_calls k (action timeouts * 1000) n w) as [m [Hm [Hcalls Hall]]].
  exists m. split; [exact Hm|].
  assert (Hbody : actionBody showNumber session timeouts a w
                  = (let (r, s') := pressKeys session k (action timeouts * 1000) n w in
                     match r with
                     | Ok _ =>
                         when (gtb (inject_Z (now s' - now w)) (action timeouts * 1000))
                           (throw (JsError ("Action timeout exceeded ("
                                              ++ showNumber (action timeouts) ++ "s)"))) s'
                     | Throw e => (Throw e, s')
                     end)).
  { unfold actionBody, bind, clock, gets. rewrite Htype, Hkey. reflexivity. }
  subst after. split.
  - rewrite executeAction_calls_of_body, Hbody.
    destruct (pressKeys session k (action timeouts * 1000) n w) as [[u|e] w1];
      cbn in *; [|exact Hcalls].
    unfold when. destruct (gtb _ _); exact Hcalls.
  - intros Hok Hquiet. apply Hall.
    pose proof (actionBody_keeps_warnings a w) as Hkept. unfold same in Hkept.
    unfold executeAction, try_catch, actionHandler in Hok, Hquiet.
    rewrite Hbody in Hok, Hquiet, Hkept.
    destruct (pressKeys session k (action timeouts * 1000) n w) as [[[]|e] w1];
      cbn in *; [reflexivity|].
    destruct (is_timeout e); cbn in *; [discriminate|].
    rewrite Hkept in Hquiet. exfalso.
    apply (f_equal (@List.length _)) in Hquiet.
    rewrite length_app in Hquiet. cbn in Hquiet. lia.
Qed.

(** How often the loop of a keypress action iterates: a positive whole
    number of times for a positive whole [repeat], not at all for a
    negative one. *)
Lemma iterations_of_count (p : positive) :
  iterations (or_num (Some (inject_Z (Z.pos p))) 1) = Pos.to_nat p.
Proof.
  unfold or_num, iterations.
  destruct (Qeq_bool (inject_Z (Z.pos p)) 0) eqn:Hz.
  - apply Qeq_bool_iff in Hz. unfold Qeq in Hz. cbn in Hz. lia.
  - rewrite Qceiling_Z. reflexivity.
Qed.

Lemma iterations_of_negative (q : number) :
  (q < 0)%Q -> iterations (or_num (Some q) 1) = 0%nat.
Proof.
  intros Hneg. unfold or_num, iterations.
  destruct (Qeq_bool q 0) eqn:Hz.
  - apply Qeq_bool_iff in Hz. lra.
  - assert (Hc : (Qceiling q <= 0)%Z).
    { change 0%Z with (Qceiling (inject_Z 0)) at 1 || idtac.
      rewrite <- (Qceiling_Z 0). apply Qceiling_resp_le. apply Qlt_le_weak. exact Hneg. }
    destruct (Qceiling q); cbn; try reflexivity; lia.
Qed.

(** X4. A keypress action with a negative [repeat] presses nothing: the
    count is truthy, so it is not replaced by 1, and the loop does not
    iterate; the action still completes normally, without a call to the
    session and without a log entry. *)
Theorem negative_repeat_presses_nothing :
  forall (a : ActionConfig) (k : string) (q : number) (w : World),
    type a = "keypress" ->
    truthy_str (key a) = Some k ->
    repeat a = Some q ->
    (q < 0)%Q ->
    (0 <= action timeouts)%Q ->
    executeAction showNumber session timeouts a w = (Ok tt, w).
Proof.
  intros a k q w Htype Hkey Hrep Hneg Hpos.
  unfold executeAction, try_catch, actionBody, bind, clock, gets.
  rewrite Htype, Hkey, Hrep, (iterations_of_negative q Hneg). cbn.
  rewrite Z.sub_diag.
  assert (Hin : gtb (inject_Z 0) (action timeouts * 1000) = false).
  { apply gtb_false_iff. change (inject_Z 0) with 0%Q. lra. }
  rewrite Hin. reflexivity.
Qed.

(** X5. A keypress action without a key is skipped like a click without a
    selector: the error is raised inside the [try] block, logged by the
    [catch] block, and the session is not called. *)
Theorem keypress_without_key_is_skipped :
  forall (a : ActionConfig) (w : World),
    type a = "keypress" ->
    truthy_str (key a) = None ->
    executeAction showNumber session timeouts a w
    = (Ok tt, warn "Action keypress failed:" (JsError "Keypress action requires a key") w).
Proof.
  intros a w Htype Hkey.
  unfold executeAction, try_catch, actionBody, bind, clock, gets, actionHandler.
  rewrite Htype, Hkey. reflexivity.
Qed.

(** The message for an unknown action type contains "timeout" exactly when
    the type does. *)
Lemma unknown_type_message (t : string) :
  is_timeout (JsError ("Unknown action type: " ++ t)) = includes "timeout" t.
Proof.
  unfold is_timeout, includes. cbn.
  destruct (String.index 0 "timeout" t); reflexivity.
Qed.

(** X6. An action of a type other than wait, click, keypress and screenshot
    is logged and skipped without a call to the session, unless the name of
    the type contains "timeout": then the message of its error passes the
    test of the [catch] block and the error ends the whole sequence. *)
Theorem unknown_action_type_is_skipped_unless_named_timeout :
  forall (a : ActionConfig) (w : World),
    (type a =? "wait") = false ->
    (type a =? "click") = false ->
    (type a =? "keypress") = false ->
    (type a =? "screenshot") = false ->
    let e := JsError ("Unknown action type: " ++ type a) in
    executeAction showNumber session timeouts a w
    = if includes "timeout" (type a)
      then (Throw e, w)
      else (Ok tt, warn ("Action " ++ type a ++ " failed:") e w).
Proof.
  intros a w Hw Hc Hk Hs e.
  unfold executeAction, try_catch, actionBody, bind, clock, gets, actionHandler.
  rewrite Hw, Hc, Hk, Hs. unfold throw. cbv beta iota zeta.
  rewrite (unknown_type_message (type a)).
  destruct (includes "timeout" (type a)); reflexivity.
Qed.


(** X8. The screenshot action is not raced against the timer: it awaits
    [session.wait(200)] to its end.  When that takes longer than the action
    time-out, the executor has waited all that time before it throws the
    "Action timeout exceeded" error, which ends the sequence. *)
Theorem screenshot_action_is_not_raced :
  forall (a : ActionConfig) (w : World) (d : Z),
    type a = "screenshot" ->
    session w (SWait 200) = Resolves d ->
    (action timeouts * 1000 < inject_Z (Z.max 0 d))%Q ->
    executeAction showNumber session timeouts a w
    = (Throw (JsError ("Action timeout exceeded (" ++ showNumber (action timeouts) ++ "s)")),
       tick d (record (SWait 200) w)).
Proof.
  intros a w d Htype Hs Hlate.
  unfold executeAction, try_catch, actionBody, bind, clock, gets, actionHandler.
  rewrite Htype. cbn [String.eqb Ascii.eqb Bool.eqb]. cbv beta iota.
  unfold await_call. rewrite Hs. cbn.
  assert (Hgt : gtb (inject_Z (now w + Z.max 0 d - now w)) (action timeouts * 1000) = true).
  { apply gtb_true_iff. replace (now w + Z.max 0 d - now w)%Z with (Z.max 0 d) by lia.
    exact Hlate. }
  rewrite Hgt. reflexivity.
Qed.

End EngineMore.

Lemma completed_action_is_within_timeout_witness :
  let w1 := {| Engine.now := 1000; Engine.calls := [Engine.SWait 1000];
               Engine.warnings := [] |} in
  Engine.executeAction Mock.showInteger Mock.session Mock.defaults
    (Mock.waitFor (Some 1)) Mock.w0 = (Ok tt, w1)
  /\ Engine.warnings w1 = Engine.warnings Mock.w0
  /\ (inject_Z (Engine.now w1 - Engine.now Mock.w0) <= Engine.action Mock.defaults * 1000)%Q.
Proof.
  intros w1.
  assert (Hrun : Engine.executeAction Mock.showInteger Mock.session Mock.defaults
                   (Mock.waitFor (Some 1)) Mock.w0 = (Ok tt, w1))
    by (vm_compute; reflexivity).
  split; [exact Hrun|]. split; [reflexivity|].
  exact (completed_action_is_within_timeout Mock.showInteger Mock.session Mock.defaults
           (Mock.waitFor (Some 1)) Mock.w0 w1 Hrun eq_refl).
Defined.

Lemma keypress_presses_repeat_times_witness :
  let a := Mock.press "ArrowRight" (Some 3%Q) in
  Engine.type a = "keypress"
  /\ truthy_str (Engine.key a) = Some "ArrowRight"
  /\ exists m,
       (m <= Engine.iterations (or_num (Engine.repeat a) 1%Q))%nat
       /\ Engine.calls
            (snd (Engine.executeAction Mock.showInteger Mock.session Mock.defaults a Mock.w0))
          = (Engine.calls Mock.w0 ++ List.repeat (Engine.SKeypress "ArrowRight") m)%list
       /\ (fst (Engine.executeAction Mock.showInteger Mock.session Mock.defaults a Mock.w0)
            = Ok tt ->
            Engine.warnings
              (snd (Engine.executeAction Mock.showInteger Mock.session Mock.defaults a Mock.w0))
            = Engine.warnings Mock.w0 ->
            m = Engine.iterations (or_num (Engine.repeat a) 1)).
Proof.
  intros a. split; [reflexivity|]. split; [reflexivity|].
  exact (keypress_presses_repeat_times Mock.showInteger Mock.session Mock.defaults
           a "ArrowRight" Mock.w0 eq_refl eq_refl).
Defined.

Lemma negative_repeat_presses_nothing_witness :
  let a := Mock.press "ArrowRight" (Some (-2)%Q) in
  Engine.type a = "keypress"
  /\ truthy_str (Engine.key a) = Some "ArrowRight"
  /\ Engine.repeat a = Some (-2)%Q
  /\ (-2 < 0)%Q
  /\ (0 <= Engine.action Mock.defaults)%Q
  /\ Engine.executeAction Mock.showInteger Mock.session Mock.defaults a Mock.w0
     = (Ok tt, Mock.w0).
Proof.
  intros a.
  assert (Hneg : (-2 < 0)%Q) by reflexivity.
  assert (Hpos : (0 <= Engine.action Mock.defaults)%Q) by (cbn; lra).
  repeat (split; [first [reflexivity | assumption]|]).
  exact (negative_repeat_presses_nothing Mock.showInteger Mock.session Mock.defaults
           a "ArrowRight" (-2)%Q Mock.w0 eq_refl eq_refl eq_refl Hneg Hpos).
Defined.

Lemma keypress_without_key_is_skipped_witness :
  Engine.type Sample.keyless = "keypress"
  /\ truthy_str (Engine.key Sample.keyless) = None
  /\ Engine.executeAction Mock.showInteger Mock.session Mock.defaults Sample.keyless Mock.w0
     = (Ok tt,
        Engine.warn "Action keypress failed:" (JsError "Keypress action requires a key")
          Mock.w0).
Proof.
  split; [reflexivity|]. split; [reflexivity|].
  exact (keypress_without_key_is_skipped Mock.showInteger Mock.session Mock.defaults
           Sample.keyless Mock.w0 eq_refl eq_refl).
Defined.

Lemma unknown_action_type_is_skipped_unless_named_timeout_witness :
  (Engine.type Sample.hover =? "wait") = false
  /\ (Engine.type Sample.hover =? "click") = false
  /\ (Engine.type Sample.hover =? "keypress") = false
  /\ (Engine.type Sample.hover =? "screenshot") = false
  /\ Engine.executeAction Mock.showInteger Mock.session Mock.defaults Sample.hover Mock.w0
     = (if includes "timeout" (Engine.type Sample.hover)
        then (Throw (JsError ("Unknown action type: " ++ Engine.type Sample.hover)), Mock.w0)
        else (Ok tt,
              Engine.warn ("Action " ++ Engine.type Sample.hover ++ " failed:")
                (JsError ("Unknown action type: " ++ Engine.type Sample.hover)) Mock.w0)).
Proof.
  repeat (split; [reflexivity|]).
  exact (unknown_action_type_is_skipped_unless_named_timeout
           Mock.showInteger Mock.session Mock.defaults Sample.hover Mock.w0
           eq_refl eq_refl eq_refl eq_refl).
Defined.


Lemma screenshot_action_is_not_raced_witness :
  Engine.type Sample.snap = "screenshot"
  /\ Sample.sluggish Mock.w0 (Engine.SWait 200) = Engine.Resolves 30000
  /\ (Engine.action Mock.defaults * 1000 < inject_Z (Z.max 0 30000))%Q
  /\ Engine.executeAction Mock.showInteger Sample.sluggish Mock.defaults Sample.snap Mock.w0
     = (Throw (JsError "Action timeout exceeded (20s)"),
        {| Engine.now := 30000; Engine.calls := [Engine.SWait 200];
           Engine.warnings := [] |}).
Proof.
  assert (Hlate : (Engine.action Mock.defaults * 1000 < inject_Z (Z.max 0 30000))%Q)
    by reflexivity.
  split; [reflexivity|]. split; [reflexivity|]. split; [exact Hlate|].
  exact (screenshot_action_is_not_raced Mock.showInteger Sample.sluggish Mock.defaults
           Sample.snap Mock.w0 30000 eq_refl eq_refl Hlate).
Defined.

(* ===================================================================== *)
(** ** The connection of the Browserbase session *)
(* ===================================================================== *)

(** [ensureCDPConnection] is its two halves under one [catch]. *)
Lemma ensure_halves (drv : Driver) (st : Browserbase.State) :
  Browserbase.ensureCDPConnection drv st
  = if Browserbase.connected st then (Ok tt, st)
    else try_catch (Connection.discover drv ;; Connection.connect drv)
           (Connection.wrap) st.
Proof.
  unfold Browserbase.ensureCDPConnection, Connection.discover, Connection.connect,
    Connection.wrap.
  unfold bind at 1. unfold gets at 1.
  destruct (Browserbase.connected st); [reflexivity|].
  unfold try_catch, bind, gets. cbn.
  destruct (Browserbase.no_url st); reflexivity.
Qed.

(** Normalizes the calls of a trace that was extended entry by entry. *)
Ltac calls_of := unfold callsOf; rewrite ?filter_app; cbn; rewrite <- ?app_assoc; cbn.

Section ConnectionFacts.

Variable drv : Driver.

(** When the second half returns, the session holds a page and a CDP
    session. *)
Lemma connect_connects (s : Browserbase.State) :
  match Connection.connect drv s with
  | (Ok _, s') => Browserbase.connected s' = true
  | (Throw _, _) => True
  end.
Proof.
  unfold Connection.connect. run_monad.
  destruct (truthy_str (Browserbase.connectUrl s)); cbn; [|exact I].
  match goal with
  | |- context [match ?d ?A ?p ?t with Ok _ => _ | Throw _ => _ end] =>
      destruct (d A p t) as [[[|c] [|n]]|e]
  end; cbn; try exact I; repeat (ask; cbn); try exact I; reflexivity.
Qed.

(** The [catch] block always throws, and what it throws is wrapped. *)
Lemma wrap_throws (e : Thrown) (s : Browserbase.State) :
  exists s',
    Connection.wrap e s
    = (Throw (JsError ("CDP connection failed: " ++ describe e
                         ++ ". Please check your Browserbase API key and session status.")),
       s').
Proof. unfold Connection.wrap. run_monad. eexists. reflexivity. Qed.

(** X9. The connection is memoized.  When [ensureCDPConnection] returns, the
    session holds a page and a CDP session, so the next call, with whatever
    backend, returns at once: it makes no call and leaves the session as it
    is. *)
Theorem connection_is_memoized :
  forall (again : Driver) (st st1 : Browserbase.State),
    Browserbase.ensureCDPConnection drv st = (Ok tt, st1) ->
    Browserbase.connected st1 = true
    /\ Browserbase.ensureCDPConnection again st1 = (Ok tt, st1).
Proof.
  intros again st st1 Hrun.
  assert (Hconn : Browserbase.connected st1 = true).
  { rewrite ensure_halves in Hrun.
    destruct (Browserbase.connected st) eqn:Hc.
    - injection Hrun as <-. exact Hc.
    - unfold try_catch, bind in Hrun.
      destruct (Connection.discover drv st) as [[u|e] s1].
      + pose proof (connect_connects s1) as Hcc.
        destruct (Connection.connect drv s1) as [[u2|e2] s2]; cbv beta iota in Hrun, Hcc.
        * destruct u2. injection Hrun as <-. exact Hcc.
        * destruct (wrap_throws e2 s2) as [s3 Hw]. rewrite Hw in Hrun. discriminate.
      + destruct (wrap_throws e s1) as [s3 Hw]. rewrite Hw in Hrun. discriminate. }
  split; [exact Hconn|].
  rewrite (ensure_halves again st1), Hconn. reflexivity.
Qed.

(** X10. Whatever goes wrong while connecting, the caller of
    [ensureCDPConnection] sees one kind of error: an [Error] whose message
    is "CDP connection failed: ", the message of the cause, and the advice to
    check the API key. *)
Theorem connection_failure_is_wrapped :
  forall (st st1 : Browserbase.State) (e : Thrown),
    Browserbase.ensureCDPConnection drv st = (Throw e, st1) ->
    Browserbase.connected st = false
    /\ exists cause,
         e = JsError ("CDP connection failed: " ++ describe cause
                        ++ ". Please check your Browserbase API key and session status.").
Proof.
  intros st st1 e Hrun. rewrite ensure_halves in Hrun.
  destruct (Browserbase.connected st); [discriminate|].
  split; [reflexivity|].
  unfold try_catch, bind in Hrun.
  destruct (Connection.discover drv st) as [[u|e1] s1].
  - destruct (Connection.connect drv s1) as [[u2|e2] s2]; [discriminate|].
    destruct (wrap_throws e2 s2) as [s3 Hw]. rewrite Hw in Hrun.
    injection Hrun as <- _. exists e2. reflexivity.
  - destruct (wrap_throws e1 s1) as [s3 Hw]. rewrite Hw in Hrun.
    injection Hrun as <- _. exists e1. reflexivity.
Qed.

(** With an address in hand the first half asks nothing. *)
Lemma discover_with_url (s : Browserbase.State) (u : string) :
  truthy_str (Browserbase.connectUrl s) = Some u ->
  Connection.discover drv s = (Ok tt, s).
Proof.
  intros Hu. unfold Connection.discover, bind, gets, Browserbase.no_url.
  rewrite Hu. reflexivity.
Qed.

(** When the three methods yield nothing, the first half has tried each
    once, in order, calling only the methods the client has, and the session
    still has no address. *)
Lemma discover_finds_nothing (s : Browserbase.State) (hasGet hasRetrieve : bool) :
  Browserbase.no_url s = true ->
  Connection.yieldsNothing drv (GetDebugConnectionURLs (Browserbase.sessionId s)) truthy_str ->
  answers drv (HasMethod "sessions.get") (Ok hasGet) ->
  answers drv (HasMethod "sessions.retrieve") (Ok hasRetrieve) ->
  Connection.yieldsNothing drv (SessionsGet (Browserbase.sessionId s)) Browserbase.info_url ->
  Connection.yieldsNothing drv (SessionsRetrieve (Browserbase.sessionId s))
    Browserbase.info_url ->
  exists s1,
    Connection.discover drv s = (Ok tt, s1)
    /\ truthy_str (Browserbase.connectUrl s1) = None
    /\ callsOf (Browserbase.trace s1)
       = (callsOf (Browserbase.trace s)
            ++ [Called (GetDebugConnectionURLs (Browserbase.sessionId s))]
            ++ (if hasGet then [Called (SessionsGet (Browserbase.sessionId s))] else [])
            ++ (if hasRetrieve then [Called (SessionsRetrieve (Browserbase.sessionId s))]
                else []))%list.
Proof.
  intros Hno H1 Hget Hret H2 H3. unfold Connection.yieldsNothing, answers in *.
  assert (Hurl : truthy_str (Browserbase.connectUrl s) = None)
    by (unfold Browserbase.no_url in Hno;
        destruct (truthy_str (Browserbase.connectUrl s)); [discriminate | reflexivity]).
  unfold Connection.discover, perform_optional. run_monad.
  unfold Browserbase.no_url. rewrite Hurl. cbn.
  match goal with
  | |- context [drv _ (GetDebugConnectionURLs ?i) ?t] =>
      specialize (H1 t); destruct (drv _ (GetDebugConnectionURLs i) t) as [a1|e1]
  end; cbn; rewrite ?H1, ?Hurl; cbn; rewrite !Hget;
    (destruct hasGet; cbn;
     [ match goal with
       | |- context [drv _ (SessionsGet ?i) ?t] =>
           specialize (H2 t); destruct (drv _ (SessionsGet i) t) as [a2|e2]
       end; cbn; rewrite ?H2, ?H1, ?Hurl; cbn
     | rewrite ?H1, ?Hurl; cbn ]);
    rewrite !Hret;
    (destruct hasRetrieve; cbn;
     [ match goal with
       | |- context [drv _ (SessionsRetrieve ?i) ?t] =>
           specialize (H3 t); destruct (drv _ (SessionsRetrieve i) t) as [a3|e3]
       end; cbn; rewrite ?H3, ?H2, ?H1, ?Hurl; cbn
     | rewrite ?H2, ?H1, ?Hurl; cbn ]);
    eexists; (split; [reflexivity|]); cbn; rewrite ?H3, ?H2, ?H1, ?Hurl;
    (split; [reflexivity|]); calls_of; reflexivity.
Qed.

(** X11. When the session has no connection address and the three
    discovery methods yield none, [ensureCDPConnection] has called
    [getDebugConnectionURLs] once, then [sessions.get] and
    [sessions.retrieve] once each if the client has them (both are optional
    calls; a client without them is asked nothing more), and throws without
    trying to connect. *)
Theorem connection_without_address_fails :
  forall (st : Browserbase.State) (hasGet hasRetrieve : bool),
    Browserbase.connected st = false ->
    Browserbase.no_url st = true ->
    Connection.yieldsNothing drv (GetDebugConnectionURLs (Browserbase.sessionId st))
      truthy_str ->
    answers drv (HasMethod "sessions.get") (Ok hasGet) ->
    answers drv (HasMethod "sessions.retrieve") (Ok hasRetrieve) ->
    Connection.yieldsNothing drv (SessionsGet (Browserbase.sessionId st))
      Browserbase.info_url ->
    Connection.yieldsNothing drv (SessionsRetrieve (Browserbase.sessionId st))
      Browserbase.info_url ->
    let out := Browserbase.ensureCDPConnection drv st in
    fst out
    = Throw (JsError ("CDP connection failed: "
                        ++ "Could not get Browserbase CDP connection URL. Make sure the session is active."
                        ++ ". Please check your Browserbase API key and session status."))
    /\ callsOf (Browserbase.trace (snd out))
       = (callsOf (Browserbase.trace st)
            ++ [Called (GetDebugConnectionURLs (Browserbase.sessionId st))]
            ++ (if hasGet then [Called (SessionsGet (Browserbase.sessionId st))] else [])
            ++ (if hasRetrieve then [Called (SessionsRetrieve (Browserbase.sessionId st))]
                else []))%list.
Proof.
  intros st hasGet hasRetrieve Hc Hno H1 Hget Hret H2 H3 out. subst out.
  rewrite ensure_halves, Hc.
  destruct (discover_finds_nothing st hasGet hasRetrieve Hno H1 Hget Hret H2 H3)
    as [s1 [Hd [Hurl Hcalls]]].
  unfold try_catch, bind. rewrite Hd.
  unfold Connection.connect, bind, gets. rewrite Hurl.
  unfold throw, Connection.wrap. run_monad. split; [reflexivity|].
  calls_of. rewrite app_nil_r. exact Hcalls.
Qed.

(** With an address in hand, the first call made is [connectOverCDP] with
    that address. *)
Lemma stored_address_is_dialled (st : Browserbase.State) (u : string) :
  Browserbase.connected st = false ->
  truthy_str (Browserbase.connectUrl st) = Some u ->
  exists rest,
    callsOf (Browserbase.trace (snd (Browserbase.ensureCDPConnection drv st)))
    = (callsOf (Browserbase.trace st) ++ Called (ConnectOverCDP u 30000) :: rest)%list.
Proof.
  intros Hc Hu. rewrite ensure_halves, Hc.
  unfold try_catch, bind. rewrite (discover_with_url st u Hu).
  unfold Connection.connect, Connection.wrap. run_monad. rewrite Hu. cbn.
  match goal with
  | |- context [match ?d ?A ?p ?t with Ok _ => _ | Throw _ => _ end] =>
      destruct (d A p t) as [[[|c] [|n]]|e]
  end; cbn; repeat (ask; cbn); calls_of; eexists; reflexivity.
Qed.

(** X12. When the session already has a connection address, connecting asks
    for no other: the first call [ensureCDPConnection] makes is
    [connectOverCDP] with that address. *)
Theorem connection_uses_stored_address :
  forall (st : Browserbase.State) (u : string),
    Browserbase.connected st = false ->
    truthy_str (Browserbase.connectUrl st) = Some u ->
    exists rest,
      callsOf (Browserbase.trace (snd (Browserbase.ensureCDPConnection drv st)))
      = (callsOf (Browserbase.trace st) ++ Called (ConnectOverCDP u 30000) :: rest)%list.
Proof. intros st u. apply stored_address_is_dialled. Qed.

End ConnectionFacts.

Lemma connection_is_memoized_witness :
  let drv := Mock.browser Mock.gamePage in
  let st1 := snd (Browserbase.ensureCDPConnection drv Mock.remote0) in
  Browserbase.ensureCDPConnection drv Mock.remote0 = (Ok tt, st1)
  /\ Browserbase.connected st1 = true
  /\ Browserbase.ensureCDPConnection Sample.offline st1 = (Ok tt, st1).
Proof.
  intros drv st1.
  assert (Hrun : Browserbase.ensureCDPConnection drv Mock.remote0 = (Ok tt, st1))
    by (vm_compute; reflexivity).
  split; [exact Hrun|].
  exact (connection_is_memoized drv Sample.offline Mock.remote0 st1 Hrun).
Defined.

Lemma connection_failure_is_wrapped_witness :
  let out := Browserbase.ensureCDPConnection Sample.offline Sample.addressed in
  out = (Throw (JsError ("CDP connection failed: fetch failed"
                           ++ ". Please check your Browserbase API key and session status.")),
         snd out)
  /\ Browserbase.connected Sample.addressed = false
  /\ exists cause,
       JsError ("CDP connection failed: fetch failed"
                  ++ ". Please check your Browserbase API key and session status.")
       = JsError ("CDP connection failed: " ++ describe cause
                    ++ ". Please check your Browserbase API key and session status.").
Proof.
  intros out.
  assert (Hrun : out
                 = (Throw (JsError ("CDP connection failed: fetch failed"
                                      ++ ". Please check your Browserbase API key and session status.")),
                    snd out))
    by (vm_compute; reflexivity).
  split; [exact Hrun|].
  exact (connection_failure_is_wrapped Sample.offline Sample.addressed (snd out) _ Hrun).
Defined.

Lemma connection_without_address_fails_witness :
  let drv := Sample.legacyClient in
  let id := Browserbase.sessionId Mock.remote0 in
  Browserbase.connected Mock.remote0 = false
  /\ Browserbase.no_url Mock.remote0 = true
  /\ Connection.yieldsNothing drv (GetDebugConnectionURLs id) truthy_str
  /\ answers drv (HasMethod "sessions.get") (Ok false)
  /\ answers drv (HasMethod "sessions.retrieve") (Ok false)
  /\ callsOf (Browserbase.trace (snd (Browserbase.ensureCDPConnection drv Mock.remote0)))
     = (callsOf (Browserbase.trace Mock.remote0)
          ++ [Called (GetDebugConnectionURLs id)] ++ [] ++ [])%list.
Proof.
  intros drv id.
  assert (H1 : Connection.yieldsNothing drv (GetDebugConnectionURLs id) truthy_str)
    by (intros tr; exact I).
  assert (Hget : answers drv (HasMethod "sessions.get") (Ok false))
    by (intros tr; reflexivity).
  assert (Hret : answers drv (HasMethod "sessions.retrieve") (Ok false))
    by (intros tr; reflexivity).
  assert (H2 : Connection.yieldsNothing drv (SessionsGet id) Browserbase.info_url)
    by (intros tr; exact I).
  assert (H3 : Connection.yieldsNothing drv (SessionsRetrieve id) Browserbase.info_url)
    by (intros tr; exact I).
  split; [reflexivity|]. split; [reflexivity|]. split; [exact H1|].
  split; [exact Hget|]. split; [exact Hret|].
  exact (proj2 (connection_without_address_fails drv Mock.remote0 false false
                  eq_refl eq_refl H1 Hget Hret H2 H3)).
Defined.

Lemma connection_uses_stored_address_witness :
  Browserbase.connected Sample.addressed = false
  /\ truthy_str (Browserbase.connectUrl Sample.addressed)
     = Some "wss://connect.browserbase.com/s-2"
  /\ exists rest,
       callsOf (Browserbase.trace
                  (snd (Browserbase.ensureCDPConnection (Mock.browser Mock.gamePage)
                          Sample.addressed)))
       = (callsOf (Browserbase.trace Sample.addressed)
            ++ Called (ConnectOverCDP "wss://connect.browserbase.com/s-2" 30000) :: rest)%list.
Proof.
  split; [reflexivity|]. split; [reflexivity|].
  exact (connection_uses_stored_address (Mock.browser Mock.gamePage) Sample.addressed
           "wss://connect.browserbase.com/s-2" eq_refl eq_refl).
Defined.

(* ===================================================================== *)
(** ** What the sessions leave alone *)
(* ===================================================================== *)

(** Steps of a proof that a session operation maintains a relation that
    logging maintains. *)
Ltac keep_session HR Hlog :=
  repeat first
    [ apply keeps_perform; exact Hlog
    | apply keeps_wait; exact Hlog
    | apply keeps_console; exact Hlog
    | apply keeps_scanIframes; [exact HR | exact Hlog]
    | apply keeps_modify; intros ?; reflexivity
    | keep_step HR ].

Section LocalKeeps.

Variable drv : Driver.

Lemma local_log_keeps_page (e : Entry) (s : Local.State) :
  same Local.page s (@log_entry _ Local.traced e s).
Proof. reflexivity. Qed.

Lemma clickFirstVisible_keeps_page (pg : PageRef) (l : Locator) (n : nat) :
  forall i, keeps (same Local.page) (Local.clickFirstVisible drv pg l i n).
Proof.
  induction n as [|n IH]; intros i; cbn.
  - apply (keeps_ret _ (same_preorder Local.page)).
  - apply (keeps_bind _ (same_preorder Local.page)).
    + keep_session (same_preorder Local.page) local_log_keeps_page.
    + intros [|]; [|apply IH].
      keep_session (same_preorder Local.page) local_log_keeps_page.
Qed.

(** X13. In the local session only [switchToIframe] changes the page the
    session works on: [navigate], [screenshot], [clickByText] and [close]
    leave it where it was, however they end.  After a frame has been entered,
    these operations therefore address the frame. *)
Theorem local_operations_stay_on_page :
  forall (st : Local.State) (url text : string) (exact : option bool),
    Local.page (snd (Local.navigate drv url st)) = Local.page st
    /\ Local.page (snd (Local.screenshot drv st)) = Local.page st
    /\ Local.page (snd (Local.clickByText drv text exact st)) = Local.page st
    /\ Local.page (snd (Local.close drv st)) = Local.page st.
Proof.
  intros st url text exact.
  assert (Hnav : keeps (same Local.page) (Local.navigate drv url)).
  { unfold Local.navigate.
    keep_session (same_preorder Local.page) local_log_keeps_page. }
  assert (Hshot : keeps (same Local.page) (Local.screenshot drv)).
  { unfold Local.screenshot.
    keep_session (same_preorder Local.page) local_log_keeps_page. }
  assert (Hclick : keeps (same Local.page) (Local.clickByText drv text exact)).
  { unfold Local.clickByText.
    repeat first
      [ apply clickFirstVisible_keeps_page
      | progress keep_session (same_preorder Local.page) local_log_keeps_page ]. }
  assert (Hclose : keeps (same Local.page) (Local.close drv)).
  { unfold Local.close.
    keep_session (same_preorder Local.page) local_log_keeps_page. }
  repeat split; [apply Hnav | apply Hshot | apply Hclick | apply Hclose].
Qed.

End LocalKeeps.

Section BrowserbaseKeeps.

Variable drv : Driver.

Lemma steady_preorder : Preorder steady.
Proof.
  split; unfold steady, Browserbase.connected.
  - intros s Hc. split; [reflexivity|]. destruct (Browserbase.page s); [exact Hc | discriminate].
  - intros s1 s2 s3 H12 H23 Hc. destruct (H12 Hc) as [Hp Hcdp].
    assert (Hc2 : match Browserbase.page s2 with
                  | Some _ => Browserbase.cdpSession s2
                  | None => false
                  end = true).
    { rewrite Hp, Hcdp. destruct (Browserbase.page s1); [reflexivity | discriminate]. }
    destruct (H23 Hc2) as [Hp3 Hcdp3]. split; [congruence | exact Hcdp3].
Qed.

Lemma browserbase_log_steady (e : Entry) (s : Browserbase.State) :
  steady s (@log_entry _ Browserbase.traced e s).
Proof. apply (pre_refl _ steady_preorder s). Qed.

Lemma set_currentUrl_steady (u : string) (s : Browserbase.State) :
  steady s (Browserbase.set_currentUrl u s).
Proof. apply (pre_refl _ steady_preorder s). Qed.

Lemma ensure_steady : keeps steady (Browserbase.ensureCDPConnection drv).
Proof.
  intros s Hc. rewrite ensure_halves, Hc. apply (pre_refl _ steady_preorder s Hc).
Qed.

Ltac keep_steady :=
  repeat first
    [ apply ensure_steady
    | apply keeps_perform; exact browserbase_log_steady
    | apply keeps_wait; exact browserbase_log_steady
    | apply keeps_console; exact browserbase_log_steady
    | apply keeps_evaluateText; exact browserbase_log_steady
    | apply keeps_modify; exact (set_currentUrl_steady _)
    | keep_step steady_preorder ].

(** X14. A connected Browserbase session stays connected and on its page
    through [navigate], [screenshot] and [clickByText], however these end:
    none of them drops, replaces or re-opens the connection. *)
Theorem browserbase_operations_stay_connected :
  forall (st : Browserbase.State) (url text : string) (exact : option bool),
    Browserbase.connected st = true ->
    let stays (s : Browserbase.State) :=
      Browserbase.page s = Browserbase.page st /\ Browserbase.connected s = true in
    stays (snd (Browserbase.navigate drv url st))
    /\ stays (snd (Browserbase.screenshot drv st))
    /\ stays (snd (Browserbase.clickByText drv text exact st)).
Proof.
  intros st url text exact Hc stays.
  assert (Hstays : forall s, steady st s -> stays s).
  { intros s Hs. destruct (Hs Hc) as [Hp Hcdp]. split; [exact Hp|].
    unfold Browserbase.connected in *. rewrite Hp, Hcdp.
    destruct (Browserbase.page st); [reflexivity | discriminate]. }
  assert (Hnav : keeps steady (Browserbase.navigate drv url)).
  { unfold Browserbase.navigate. keep_steady. }
  assert (Hshot : keeps steady (Browserbase.screenshot drv)).
  { unfold Browserbase.screenshot. keep_steady. }
  assert (Hclick : keeps steady (Browserbase.clickByText drv text exact)).
  { unfold Browserbase.clickByText, Browserbase.attempt. keep_steady. }
  split; [|split]; apply Hstays; [apply Hnav | apply Hshot | apply Hclick].
Qed.

End BrowserbaseKeeps.

Lemma browserbase_operations_stay_connected_witness :
  let drv := Mock.browser Mock.gamePage in
  Browserbase.connected Mock.remote1 = true
  /\ Browserbase.page (snd (Browserbase.navigate drv "https://play2048.co" Mock.remote1))
     = Browserbase.page Mock.remote1
  /\ Browserbase.connected (snd (Browserbase.navigate drv "https://play2048.co" Mock.remote1))
     = true.
Proof.
  intros drv. split; [reflexivity|].
  exact (proj1 (browserbase_operations_stay_connected drv Mock.remote1
                  "https://play2048.co" "Play" None eq_refl)).
Defined.

Section Tiers.

Variable drv : Driver.

(** X15. The page-navigation primitive is called in tiers.  The local
    session calls it once, waiting for the DOM content with 45 s.  A
    connected Browserbase session calls it one, two or three times, in the
    order DOM content (45 s), commit (60 s), no wait condition (10 s), and
    makes no other backend call; it sleeps 2 s after a first tier that
    succeeded and 3 s in every other case. *)
Theorem navigation_tiers_in_order :
  forall url : string,
    (forall st : Local.State,
        callsOf (Local.trace (snd (Local.navigate drv url st)))
        = (callsOf (Local.trace st)
             ++ [Called (PageGoto (Local.page st) url (Some DomContentLoaded) 45000)])%list)
    /\ (forall (st : Browserbase.State) (p : PageRef),
          Browserbase.page st = Some p ->
          Browserbase.cdpSession st = true ->
          let tiers :=
            [Called (PageGoto p url (Some DomContentLoaded) 45000);
             Called (PageGoto p url (Some Commit) 60000);
             Called (PageGoto p url None 10000)] in
          let after := Browserbase.trace (snd (Browserbase.navigate drv url st)) in
          exists n,
            (1 <= n <= 3)%nat
            /\ callsOf after = (callsOf (Browserbase.trace st) ++ firstn n tiers)%list
            /\ exists before,
                 after = (before ++ [Slept (if (n =? 1)%nat then 2000 else 3000)])%list).
Proof.
  intros url. split.
  - intros st. unfold Local.navigate. run_monad. ask; cbn; calls_of; reflexivity.
  - intros st p Hp Hcdp tiers after. subst after tiers.
    unfold Browserbase.navigate. run_monad.
    rewrite ensure_halves. unfold Browserbase.connected. cbn. rewrite Hp, Hcdp. cbn.
    rewrite Hp. cbn.
    ask; cbn.
    + exists 1%nat. split; [lia|]. split; [calls_of; reflexivity|].
      eexists. cbn. reflexivity.
    + ask; cbn.
      * exists 2%nat. split; [lia|]. split; [calls_of; reflexivity|].
        eexists. cbn. reflexivity.
      * ask; cbn; exists 3%nat; (split; [lia|]); (split; [calls_of; reflexivity|]);
          eexists; cbn; reflexivity.
Qed.

(** X16. Settling the page is best effort: when the capture itself works,
    [screenshot] returns its bytes whatever the repaint script does (it may
    throw, or lose its race in the local session). *)
Theorem repaint_failure_does_not_block_capture :
  forall buf : Buffer,
    (forall st : Local.State,
        answers drv (Timed 10000 (PageScreenshot (Local.page st) 10000)) (Ok (Some buf)) ->
        fst (Local.screenshot drv st) = Ok buf)
    /\ (forall (st : Browserbase.State) (shot : CdpShot) (d : string),
          Browserbase.connected st = true ->
          answers drv CaptureScreenshot (Ok (Some shot)) ->
          truthy_str (data shot) = Some d ->
          answers drv (BufferFromBase64 d) (Ok buf) ->
          fst (Browserbase.screenshot drv st) = Ok buf).
Proof.
  intros buf. split.
  - intros st Hcap. unfold answers in Hcap. unfold Local.screenshot. run_monad.
    destruct (drv _ (Timed 1000 (GetAnimations (Local.page st) false)) (Local.trace st))
      as [[animations|]|e]; cbn; rewrite Hcap; reflexivity.
  - intros st shot d Hc Hcap Hdata Hdec. unfold answers in Hcap, Hdec.
    unfold Browserbase.screenshot. run_monad. rewrite ensure_halves, Hc. cbn.
    unfold Browserbase.connected in Hc.
    destruct (Browserbase.page st) as [p|] eqn:Hp; [|discriminate].
    rewrite Hc. cbn. rewrite Hp. cbn.
    rewrite Hcap; cbn; rewrite Hdata; cbn; rewrite Hdec; reflexivity.
Qed.

End Tiers.

Lemma navigation_tiers_in_order_witness :
  let st := Mock.remote1 in
  Browserbase.page st = Some MainPage
  /\ Browserbase.cdpSession st = true
  /\ exists n,
       (1 <= n <= 3)%nat
       /\ callsOf (Browserbase.trace (snd (Browserbase.navigate Sample.offline "https://play2048.co" st)))
          = (callsOf (Browserbase.trace st)
               ++ firstn n
                    [Called (PageGoto MainPage "https://play2048.co" (Some DomContentLoaded) 45000);
                     Called (PageGoto MainPage "https://play2048.co" (Some Commit) 60000);
                     Called (PageGoto MainPage "https://play2048.co" None 10000)])%list.
Proof.
  intros st. split; [reflexivity|]. split; [reflexivity|].
  destruct (proj2 (navigation_tiers_in_order Sample.offline "https://play2048.co")
              st MainPage eq_refl eq_refl) as [n [Hn [Hcalls _]]].
  exists n. split; [exact Hn | exact Hcalls].
Defined.

Lemma repaint_failure_does_not_block_capture_witness :
  let drv := Mock.browser Mock.gamePage in
  answers drv (Timed 10000 (PageScreenshot (Local.page Mock.local0) 10000)) (Ok (Some Mock.png))
  /\ fst (Local.screenshot drv Mock.local0) = Ok Mock.png.
Proof.
  intros drv.
  assert (Hcap : answers drv (Timed 10000 (PageScreenshot (Local.page Mock.local0) 10000))
                   (Ok (Some Mock.png))) by (intros tr; reflexivity).
  split; [exact Hcap|].
  exact (proj1 (repaint_failure_does_not_block_capture drv Mock.png) Mock.local0 Hcap).
Defined.

Section Moves.

Variable drv : Driver.

(** One step of a case analysis of [switchToIframe]. *)
Ltac switch_step :=
  match goal with
  | |- context [scanIframes drv ?l ?acc ?s] =>
      let Hk := fresh "Hk" in
      let pick := fresh "pick" in
      first
        [ pose proof (keeps_scanIframes (same Local.page) (same_preorder Local.page)
                        local_log_keeps_page drv l acc s) as Hk
        | pose proof (keeps_scanIframes steady steady_preorder
                        browserbase_log_steady drv l acc s) as Hk ];
      destruct (scanIframes drv l acc s) as [[[[pick|] ?]|?] ?]; cbn in Hk |- *
  | |- context [match ?d ?A ?p ?t with Ok _ => _ | Throw _ => _ end] =>
      destruct (d A p t) as [[?|]|?]; cbn
  | |- context [match ?d ?A ?p ?t with Ok _ => _ | Throw _ => _ end] =>
      destruct (d A p t) as [[|? ?]|?]; cbn
  end.

(** X17. The result of [switchToIframe] tells whether the session moved:
    after [true] the session works on a frame; after [false] it works on the
    page it was on.  (For Browserbase: on a session that was connected.) *)
Theorem switchToIframe_result_tells_the_move :
  forall selector : option string,
    (forall st : Local.State,
        match Local.switchToIframe drv selector st with
        | (Ok true, s') => exists f, Local.page s' = FramePage f
        | (_, s') => Local.page s' = Local.page st
        end)
    /\ (forall st : Browserbase.State,
          Browserbase.connected st = true ->
          match Browserbase.switchToIframe drv selector st with
          | (Ok true, s') => exists f, Browserbase.page s' = Some (FramePage f)
          | (_, s') => Browserbase.page s' = Browserbase.page st
          end).
Proof.
  intros selector. split.
  - intros st. unfold Local.switchToIframe, Local.enterFrame. run_monad. run_monad.
    destruct (truthy_str selector); cbn;
      repeat switch_step;
      unfold same in *;
      first [reflexivity | assumption | eexists; reflexivity].
  - intros st Hc. unfold Browserbase.switchToIframe, Browserbase.enterFrame.
    run_monad. run_monad.
    rewrite ensure_halves, Hc. cbn. unfold Browserbase.connected in Hc.
    destruct (Browserbase.page st) as [p|] eqn:Hp; [|discriminate]. cbn.
    destruct (truthy_str selector); cbn; rewrite ?Hp; cbn;
      repeat (switch_step; rewrite ?Hp; cbn);
      first [ reflexivity | eexists; reflexivity | exact Hp
            | match goal with
              | Hk : steady _ _ |- _ =>
                  unfold steady, Browserbase.connected in Hk; cbn in Hk;
                  rewrite Hp in Hk; destruct (Hk Hc) as [Hk1 _]; exact Hk1
              end ].
Qed.

End Moves.

Lemma switchToIframe_result_tells_the_move_witness :
  let drv := Mock.browser Mock.gamePage in
  Browserbase.connected Mock.remote1 = true
  /\ match Browserbase.switchToIframe drv None Mock.remote1 with
     | (Ok true, s') => exists f, Browserbase.page s' = Some (FramePage f)
     | (_, s') => Browserbase.page s' = Browserbase.page Mock.remote1
     end.
Proof.
  intros drv. split; [reflexivity|].
  exact (proj2 (switchToIframe_result_tells_the_move drv None) Mock.remote1 eq_refl).
Defined.

Section Selectors.

Variable drv : Driver.

(** X18. With a selector, [switchToIframe] asks the page for that element
    first, in the local session and in a connected Browserbase session.
    When the element exists and has a content frame, the session enters it
    without looking at any other iframe.  When the page has no such element,
    the call goes on exactly as a call without selector: it falls back to
    the scan for the largest iframe. *)
Theorem switchToIframe_selector_first :
  forall sel : string,
    sel <> "" ->
    (forall st : Local.State,
        (forall i f,
            drv _ (QuerySelector (Local.page st) sel) (Local.trace st) = Ok (Some i) ->
            answers drv (ContentFrame i) (Ok (Some f)) ->
            let out := Local.switchToIframe drv (Some sel) st in
            fst out = Ok true
            /\ Local.page (snd out) = FramePage f
            /\ callsOf (Local.trace (snd out))
               = (callsOf (Local.trace st)
                    ++ [Called (QuerySelector (Local.page st) sel);
                        Called (ContentFrame i)])%list)
        /\ (drv _ (QuerySelector (Local.page st) sel) (Local.trace st) = Ok None ->
            Local.switchToIframe drv (Some sel) st
            = Local.switchToIframe drv None
                (Local.add_entry (Called (QuerySelector (Local.page st) sel)) st)))
    /\ (forall (st : Browserbase.State) (p : PageRef),
          Browserbase.connected st = true ->
          Browserbase.page st = Some p ->
          (forall i f,
              drv _ (QuerySelector p sel) (Browserbase.trace st) = Ok (Some i) ->
              answers drv (ContentFrame i) (Ok (Some f)) ->
              let out := Browserbase.switchToIframe drv (Some sel) st in
              fst out = Ok true
              /\ Browserbase.page (snd out) = Some (FramePage f)
              /\ callsOf (Browserbase.trace (snd out))
                 = (callsOf (Browserbase.trace st)
                      ++ [Called (QuerySelector p sel); Called (ContentFrame i)])%list)
          /\ (drv _ (QuerySelector p sel) (Browserbase.trace st) = Ok None ->
              Browserbase.switchToIframe drv (Some sel) st
              = Browserbase.switchToIframe drv None
                  (Browserbase.add_entry (Called (QuerySelector p sel)) st))).
Proof.
  intros sel Hsel. destruct sel as [|c sel]; [contradiction|]. split.
  - intros st. split.
    + intros i f Hq Hf out. subst out. unfold answers in Hf.
      unfold Local.switchToIframe, Local.enterFrame. run_monad. run_monad.
      rewrite Hq. cbn. rewrite Hf. cbn.
      repeat split. calls_of. reflexivity.
    + intros Hq. unfold Local.switchToIframe, Local.enterFrame. run_monad. run_monad.
      rewrite Hq. cbn. reflexivity.
  - intros st p Hc Hp.
    assert (Hc' : Browserbase.connected
                    (Browserbase.add_entry (Called (QuerySelector p (String c sel))) st)
                  = true) by exact Hc.
    split.
    + intros i f Hq Hf out. subst out. unfold answers in Hf.
      unfold Browserbase.switchToIframe, Browserbase.enterFrame. run_monad. run_monad.
      rewrite ensure_halves, Hc. cbn. rewrite Hp. cbn.
      rewrite Hq. cbn. rewrite Hf. cbn.
      repeat split. calls_of. reflexivity.
    + intros Hq. unfold Browserbase.switchToIframe, Browserbase.enterFrame.
      run_monad. run_monad.
      rewrite !ensure_halves, Hc, Hc'. cbn. rewrite Hp. cbn.
      rewrite Hq. cbn. rewrite Hp. cbn. reflexivity.
Qed.

End Selectors.

Section Reopening.

Variable drv : Driver.

Lemma browserbase_log_keeps_url (e : Entry) (s : Browserbase.State) :
  same Browserbase.connectUrl s (@log_entry _ Browserbase.traced e s).
Proof. reflexivity. Qed.

Lemma close_keeps_url : keeps (same Browserbase.connectUrl) (Browserbase.close drv).
Proof.
  unfold Browserbase.close.
  keep_session (same_preorder Browserbase.connectUrl) browserbase_log_keeps_url.
Qed.

(** X19. [close] does not mark the Browserbase session as closed: it nulls
    the handles and keeps the connection address.  The next operation on the
    session therefore connects again, to the same address. *)
Theorem closed_session_reconnects_on_use :
  forall (st : Browserbase.State) (u : string),
    answers drv CdpDetach (Ok tt) ->
    answers drv BrowserClose (Ok tt) ->
    truthy_str (Browserbase.connectUrl st) = Some u ->
    let closed := snd (Browserbase.close drv st) in
    Browserbase.connected closed = false
    /\ exists rest,
         callsOf (Browserbase.trace (snd (Browserbase.ensureCDPConnection drv closed)))
         = (callsOf (Browserbase.trace closed) ++ Called (ConnectOverCDP u 30000) :: rest)%list.
Proof.
  intros st u Hdetach Hclose Hu closed.
  destruct (browserbase_close_nulls_handles drv st Hdetach Hclose) as [Hcdp [Hbr Hpage]].
  fold closed in Hcdp, Hbr, Hpage.
  assert (Hc : Browserbase.connected closed = false)
    by (unfold Browserbase.connected; rewrite Hpage; reflexivity).
  split; [exact Hc|].
  apply stored_address_is_dialled; [exact Hc|].
  pose proof (close_keeps_url st) as Hk. unfold same in Hk. fold closed in Hk.
  rewrite Hk. exact Hu.
Qed.

End Reopening.

Lemma switchToIframe_selector_first_witness :
  let drv := Sample.portal in
  "#game" <> ""
  /\ drv _ (QuerySelector MainPage "#game") [] = Ok (Some 3%nat)
  /\ answers drv (ContentFrame 3) (Ok (Some 9%nat))
  /\ (let out := Local.switchToIframe drv (Some "#game") Mock.local0 in
      fst out = Ok true
      /\ Local.page (snd out) = FramePage 9
      /\ callsOf (Local.trace (snd out))
         = (callsOf (Local.trace Mock.local0)
              ++ [Called (QuerySelector (Local.page Mock.local0) "#game");
                  Called (ContentFrame 3)])%list)
  /\ (let out := Browserbase.switchToIframe drv (Some "#game") Mock.remote1 in
      fst out = Ok true
      /\ Browserbase.page (snd out) = Some (FramePage 9)
      /\ callsOf (Browserbase.trace (snd out))
         = (callsOf (Browserbase.trace Mock.remote1)
              ++ [Called (QuerySelector MainPage "#game"); Called (ContentFrame 3)])%list)
  /\ Browserbase.switchToIframe drv (Some "#menu") Mock.remote1
     = Browserbase.switchToIframe drv None
         (Browserbase.add_entry (Called (QuerySelector MainPage "#menu")) Mock.remote1).
Proof.
  intros drv.
  assert (Hsel : "#game" <> "") by discriminate.
  assert (Hmenu : "#menu" <> "") by discriminate.
  assert (Hf : answers drv (ContentFrame 3) (Ok (Some 9%nat))) by (intros tr; reflexivity).
  split; [exact Hsel|]. split; [reflexivity|]. split; [exact Hf|].
  split; [|split].
  - exact (proj1 (proj1 (switchToIframe_selector_first drv "#game" Hsel) Mock.local0)
             3%nat 9%nat eq_refl Hf).
  - exact (proj1 (proj2 (switchToIframe_selector_first drv "#game" Hsel)
                    Mock.remote1 MainPage eq_refl eq_refl)
             3%nat 9%nat eq_refl Hf).
  - exact (proj2 (proj2 (switchToIframe_selector_first drv "#menu" Hmenu)
                    Mock.remote1 MainPage eq_refl eq_refl)
             eq_refl).
Defined.

Lemma closed_session_reconnects_on_use_witness :
  let drv := Mock.browser Mock.gamePage in
  answers drv CdpDetach (Ok tt)
  /\ answers drv BrowserClose (Ok tt)
  /\ truthy_str (Browserbase.connectUrl Mock.remote1)
     = Some "wss://connect.browserbase.com/mock"
  /\ Browserbase.connected (snd (Browserbase.close drv Mock.remote1)) = false.
Proof.
  intros drv.
  assert (Hd : answers drv CdpDetach (Ok tt)) by (intros tr; reflexivity).
  assert (Hb : answers drv BrowserClose (Ok tt)) by (intros tr; reflexivity).
  split; [exact Hd|]. split; [exact Hb|]. split; [reflexivity|].
  exact (proj1 (closed_session_reconnects_on_use drv Mock.remote1
                  "wss://connect.browserbase.com/mock" Hd Hb eq_refl)).
Defined.

(* ===================================================================== *)
(** ** Key names and the codes sent for them *)
(* ===================================================================== *)

(** X20. The three key tables of [keypress] agree: for each of the seven
    names of [keyMap], the key that is pressed has a virtual key code other
    than 0, its code string is the name itself, and mapping it again changes
    nothing. *)
Theorem named_keys_have_codes :
  forall name : string,
    In name (map fst Keys.keyMap) ->
    let keyToPress := Keys.keyToPress name in
    ~ (Keys.getKeyCode keyToPress == 0)%Q
    /\ Keys.getKeyCodeString keyToPress = name
    /\ Keys.keyToPress keyToPress = keyToPress.
Proof.
  intros name Hin. cbn in Hin.
  repeat (destruct Hin as [<- | Hin]; [split; [intros H; vm_compute in H; discriminate | split; reflexivity]|]).
  destruct Hin.
Qed.

Lemma named_keys_have_codes_witness :
  In "Space" (map fst Keys.keyMap)
  /\ ~ (Keys.getKeyCode (Keys.keyToPress "Space") == 0)%Q
  /\ Keys.getKeyCodeString (Keys.keyToPress "Space") = "Space"
  /\ Keys.keyToPress (Keys.keyToPress "Space") = Keys.keyToPress "Space".
Proof.
  assert (Hin : In "Space" (map fst Keys.keyMap)) by (cbn; tauto).
  split; [exact Hin|].
  exact (named_keys_have_codes "Space" Hin).
Defined.

(* ===================================================================== *)
(** ** Creating a Browserbase session *)
(* ===================================================================== *)

Lemma includes_app_r (sub s1 s2 : string) :
  includes sub s2 = true -> includes sub (s1 ++ s2) = true.
Proof.
  unfold includes. intros H. induction s1 as [|c s1 IH]; [exact H|].
  cbn [String.append String.index].
  destruct (String.prefix sub (String c (s1 ++ s2))); [reflexivity|].
  destruct (String.index 0 sub (s1 ++ s2)); [reflexivity | discriminate].
Qed.

Lemma truthy_str_is_truthy (o : option string) (u : string) :
  truthy_str o = Some u -> u <> EmptyString /\ truthy_str (Some u) = Some u.
Proof.
  destruct o as [[|c r]|]; cbn; intros H; try discriminate.
  injection H as <-. split; [discriminate | reflexivity].
Qed.

Lemma firstTruthy_is_truthy (l : list (option string)) (u : string) :
  Provider.firstTruthy l = Some u -> u <> EmptyString /\ truthy_str (Some u) = Some u.
Proof.
  induction l as [|o rest IH]; cbn; [discriminate|].
  destruct (truthy_str o) as [v|] eqn:E; [|exact IH].
  intros H. injection H as <-. exact (truthy_str_is_truthy o v E).
Qed.

Section ProviderFacts.

Variable showNumber : number -> string.

(** What leaves the [catch] block of [createSession] is a network error, or
    a message that ends with the advice about the account. *)
Lemma rethrown_cases (error : Thrown) (response : option string) :
  Provider.switchesToLocal (Provider.rethrown error response) = true
  \/ (Provider.isNetworkError (describe error) = true
      /\ exists rest,
           Provider.rethrown error response
           = JsError ("Network error connecting to Browserbase: " ++ describe error ++ rest)).
Proof.
  unfold Provider.rethrown.
  destruct (Provider.isNetworkError (describe error)) eqn:Hnet.
  - right. split; [reflexivity|]. eexists. reflexivity.
  - left. unfold Provider.switchesToLocal.
    match goal with
    | |- (_ || includes "quota" ?m || _)%bool = true =>
        assert (Hq : includes "quota" m = true)
    end.
    { do 4 apply includes_app_r. reflexivity. }
    rewrite Hq. rewrite orb_true_r. reflexivity.
Qed.

(** X21. Whatever makes [createSession] fail, the error it throws either is
    the network error (the cause mentions [fetch failed], [timeout],
    [UND_ERR_CONNECT_TIMEOUT] or [ECONNREFUSED]) or passes the caller's test
    for an exhausted quota, since the generic message ends with the words
    [browser hours/quota]: a missing session id, a rate limit and a rejected
    API key all make the caller start a local browser. *)
Theorem creation_failure_reads_as_quota :
  forall (api : Provider.ApiOutcome) (e : Thrown),
    Provider.createSession showNumber api = Throw e ->
    Provider.switchesToLocal e = true
    \/ exists cause rest,
         Provider.isNetworkError cause = true
         /\ e = JsError ("Network error connecting to Browserbase: " ++ cause ++ rest).
Proof.
  intros api e H.
  assert (Hre : exists error response, e = Provider.rethrown error response).
  { unfold Provider.createSession in H. destruct api as [session | thrown response].
    - destruct (Provider.tried showNumber session) as [s|e'] eqn:Ht; [discriminate|].
      injection H as <-. eexists _, _. reflexivity.
    - injection H as <-. eexists _, _. reflexivity. }
  destruct Hre as [error [response ->]].
  destruct (rethrown_cases error response) as [Hq | [Hnet [rest Hr]]].
  - left. exact Hq.
  - right. exists (describe error), rest. split; [exact Hnet | exact Hr].
Qed.

(** X22. A response that has both [statusCode] and [error] never becomes a
    session, whatever else it has: the check for an error response comes
    before the check for a session id. *)
Theorem error_response_is_never_a_session :
  forall (r : Provider.Response) (code : number) (err : string),
    Provider.statusCode r = Some code ->
    Provider.error r = Some err ->
    exists m, Provider.createSession showNumber (Provider.Answered (Some r)) = Throw (JsError m).
Proof.
  intros r code err Hc He. unfold Provider.createSession, Provider.tried.
  rewrite Hc, He.
  unfold Provider.rethrown.
  destruct (Provider.isNetworkError _); eexists; reflexivity.
Qed.

Variable drv : Driver.

(** X23. A session that was created has a non-empty id and no connection
    yet; when the response carried an address ([connectUrl], [wsUrl] or
    [connect_url], the first that is not empty), the session's first
    connection dials that address as its first call, without asking the SDK
    for one. *)
Theorem created_session_dials_given_address :
  forall (api : Provider.ApiOutcome) (st : Browserbase.State),
    Provider.createSession showNumber api = Ok st ->
    Browserbase.sessionId st <> EmptyString
    /\ Browserbase.connected st = false
    /\ forall (r : Provider.Response) (u : string),
         api = Provider.Answered (Some r) ->
         Provider.firstTruthy [Provider.connectUrl r; Provider.wsUrl r; Provider.connect_url r]
         = Some u ->
         exists rest,
           callsOf (Browserbase.trace (snd (Browserbase.ensureCDPConnection drv st)))
           = Called (ConnectOverCDP u 30000) :: rest.
Proof.
  intros api st H. unfold Provider.createSession in H.
  destruct api as [session | thrown response]; [|discriminate].
  destruct (Provider.tried showNumber session) as [s|e'] eqn:Ht; [|discriminate].
  injection H as <-.
  unfold Provider.tried in Ht. destruct session as [r0|]; [|discriminate].
  assert (Hs : exists sid,
             Provider.firstTruthy [Provider.id r0; Provider.sessionId r0; Provider.session_id r0]
             = Some sid
             /\ s = {| Browserbase.sessionId := sid;
                       Browserbase.currentUrl := "about:blank";
                       Browserbase.browser := false;
                       Browserbase.page := None;
                       Browserbase.cdpSession := false;
                       Browserbase.connectUrl :=
                         Provider.firstTruthy
                           [Provider.connectUrl r0; Provider.wsUrl r0; Provider.connect_url r0];
                       Browserbase.trace := [] |}).
  { destruct (Provider.statusCode r0), (Provider.error r0); try discriminate;
      destruct (Provider.firstTruthy [Provider.id r0; _; _]) as [sid|]; try discriminate;
      injection Ht as <-; exists sid; split; reflexivity. }
  destruct Hs as [sid [Hsid ->]]. cbn [Browserbase.sessionId]. split; [|split].
  - exact (proj1 (firstTruthy_is_truthy _ sid Hsid)).
  - reflexivity.
  - intros r u Hr Hu. injection Hr as <-.
    match goal with
    | |- context [Browserbase.ensureCDPConnection drv ?s] =>
        destruct (stored_address_is_dialled drv s u) as [rest Hrest]
    end.
    + reflexivity.
    + cbn [Browserbase.connectUrl]. rewrite Hu.
      exact (proj2 (firstTruthy_is_truthy _ u Hu)).
    + exists rest. exact Hrest.
Qed.

End ProviderFacts.

Lemma creation_failure_reads_as_quota_witness :
  exists e,
    Provider.createSession Mock.showInteger (Provider.Answered (Some Sample.rateLimited))
    = Throw e
    /\ (Provider.switchesToLocal e = true
        \/ exists cause rest,
             Provider.isNetworkError cause = true
             /\ e = JsError ("Network error connecting to Browserbase: " ++ cause ++ rest)).
Proof.
  eexists. split; [reflexivity|].
  apply (creation_failure_reads_as_quota Mock.showInteger
           (Provider.Answered (Some Sample.rateLimited))).
  reflexivity.
Defined.

Lemma error_response_is_never_a_session_witness :
  Provider.statusCode Sample.rateLimited = Some 429%Q
  /\ Provider.error Sample.rateLimited = Some "Too Many Requests"
  /\ exists m,
       Provider.createSession Mock.showInteger (Provider.Answered (Some Sample.rateLimited))
       = Throw (JsError m).
Proof.
  split; [reflexivity|]. split; [reflexivity|].
  apply (error_response_is_never_a_session Mock.showInteger Sample.rateLimited
           429%Q "Too Many Requests"); reflexivity.
Defined.

Lemma created_session_dials_given_address_witness :
  exists st,
    Provider.createSession Mock.showInteger (Provider.Answered (Some Sample.granted)) = Ok st
    /\ Browserbase.sessionId st <> EmptyString
    /\ Browserbase.connected st = false
    /\ forall (r : Provider.Response) (u : string),
         Provider.Answered (Some Sample.granted) = Provider.Answered (Some r) ->
         Provider.firstTruthy [Provider.connectUrl r; Provider.wsUrl r; Provider.connect_url r]
         = Some u ->
         exists rest,
           callsOf (Browserbase.trace
                      (snd (Browserbase.ensureCDPConnection (Mock.browser Mock.gamePage) st)))
           = Called (ConnectOverCDP u 30000) :: rest.
Proof.
  eexists. split; [reflexivity|].
  apply (created_session_dials_given_address Mock.showInteger (Mock.browser Mock.gamePage)
           (Provider.Answered (Some Sample.granted))).
  reflexivity.
Defined.

(* ===================================================================== *)
(** ** Detecting a start button *)
(* ===================================================================== *)

Section DetectFacts.

Import Detect.

Variable session : Session.

Lemma clicks_app (h1 h2 : History) :
  clicks (h1 ++ h2)%list = (clicks h1 ++ clicks h2)%list.
Proof.
  induction h1 as [|[A q] h1 IH]; [reflexivity|].
  destruct q; cbn; rewrite IH; reflexivity.
Qed.

Lemma selectorFor_not_empty (b : ButtonAttrs) :
  truthy_str (Some (selectorFor b)) = Some (selectorFor b).
Proof.
  unfold selectorFor. destruct (button_id b); [destruct (className b)|]; reflexivity.
Qed.

(** A loop whose body always returns normally does so too. *)
Lemma firstThat_returns {X : Type} (body : X -> M History bool) (l : list X) :
  (forall x h, exists b h', body x h = (Ok b, h')) ->
  forall h, exists b h', firstThat body l h = (Ok b, h').
Proof.
  intros Hbody. induction l as [|x rest IH]; intros h; cbn.
  - exists false, h. reflexivity.
  - unfold bind. destruct (Hbody x h) as [b [h' ->]].
    destruct b; [exists true, h'; reflexivity | apply IH].
Qed.

(** X24. [detectAndInteract] returns normally whatever the session does:
    every exception of [evaluate], [click] and [wait] is caught inside the
    loop it occurs in. *)
Theorem detectAndInteract_never_raises :
  forall h : History, exists h', detectAndInteract session h = (Ok tt, h').
Proof.
  intros h. unfold detectAndInteract, bind.
  destruct (firstThat_returns (trySelector session) commonSelectors) with (h := h)
    as [b [h1 ->]].
  { intros x h0. apply try_catch_returns. intros e s. exists false, s. reflexivity. }
  destruct b; [exists h1; reflexivity|].
  destruct (firstThat_returns (tryText session) textButtons) with (h := h1)
    as [b [h2 ->]].
  { intros x h0. apply try_catch_returns. intros e s. exists false, s. reflexivity. }
  exists h2. reflexivity.
Qed.

Lemma firstThat_turned {X : Type} (body : X -> M History bool) (l : list X) :
  (forall x, In x l -> forall h, turned h (body x h)) ->
  forall h, turned h (firstThat body l h).
Proof.
  induction l as [|x rest IH]; intros Hbody h; cbn.
  - left. split; reflexivity.
  - unfold bind. destruct (Hbody x (or_introl eq_refl) h) as [[Hr Hc] | [Hr Hc]];
      destruct (body x h) as [r h1]; cbn in Hr, Hc; subst r.
    + destruct (IH (fun y Hy => Hbody y (or_intror Hy)) h1)
        as [[Hr' Hc'] | [Hr' [sel [pre [Hh [Hc' Hs]]]]]].
      * left. split; [exact Hr' | congruence].
      * right. split; [exact Hr'|]. exists sel, pre.
        split; [exact Hh|]. split; [congruence | exact Hs].
    + right. split; [reflexivity | exact Hc].
Qed.

Section Obliging.

Hypothesis clicks_return : forall sel h, session _ (Click sel) h = Ok tt.
Hypothesis waits_return : forall ms h, session _ (Wait ms) h = Ok tt.

Lemma commonSelectors_not_empty (sel : string) : In sel commonSelectors -> sel <> EmptyString.
Proof.
  intros Hin. cbn in Hin.
  repeat (destruct Hin as [<- | Hin]; [discriminate|]). destruct Hin.
Qed.

Lemma trySelector_turned (sel : string) :
  In sel commonSelectors -> forall h, turned h (trySelector session sel h).
Proof.
  intros Hin h. unfold trySelector, try_catch, bind, ask, ret. cbn.
  destruct (session JsValue (Probe sel) h) as [v|e]; cbn.
  - destruct (truthy v); cbn.
    + rewrite clicks_return. cbn. rewrite waits_return. cbn. right; cbn [fst snd].
      split; [reflexivity|]. exists sel, (h ++ [Was (Probe sel)])%list.
      split; [rewrite <- !app_assoc; reflexivity|].
      split; [rewrite !clicks_app; cbn; rewrite ?app_nil_r; reflexivity|].
      split; [apply commonSelectors_not_empty; exact Hin | left; exact Hin].
    + left; cbn [fst snd]. split; [reflexivity|]. rewrite !clicks_app; cbn; rewrite ?app_nil_r; reflexivity.
  - left; cbn [fst snd]. split; [reflexivity|]. rewrite !clicks_app; cbn; rewrite ?app_nil_r; reflexivity.
Qed.

Lemma tryText_turned (text : string) : forall h, turned h (tryText session text h).
Proof.
  intros h. unfold tryText, try_catch, bind, ask, ret. cbn.
  destruct (session JsValue (FindButton (toLowerCase text)) h) as [v|e]; cbn.
  - destruct (truthy v); cbn.
    + destruct (session _ (DescribeButton (toLowerCase text)) _) as [[b|]|e];
        cbv beta iota; cbn [option_map].
      * rewrite selectorFor_not_empty. cbn.
        rewrite clicks_return. cbn. rewrite waits_return. cbn. right; cbn [fst snd].
        split; [reflexivity|].
        exists (selectorFor b),
          (h ++ [Was (FindButton (toLowerCase text)); Was (DescribeButton (toLowerCase text))])%list.
        split; [rewrite <- !app_assoc; reflexivity|].
        split; [rewrite !clicks_app; cbn; rewrite ?app_nil_r; reflexivity|].
        split; [|right; exists b; reflexivity].
        intros Hempty. pose proof (selectorFor_not_empty b) as Ht.
        rewrite Hempty in Ht. discriminate.
      * cbn. left; cbn [fst snd]. split; [reflexivity|]. rewrite !clicks_app; cbn; rewrite ?app_nil_r; reflexivity.
      * cbn. left; cbn [fst snd]. split; [reflexivity|]. rewrite !clicks_app; cbn; rewrite ?app_nil_r; reflexivity.
    + left; cbn [fst snd]. split; [reflexivity|]. rewrite !clicks_app; cbn; rewrite ?app_nil_r; reflexivity.
  - left; cbn [fst snd]. split; [reflexivity|]. rewrite !clicks_app; cbn; rewrite ?app_nil_r; reflexivity.
Qed.

(** X25. With a session whose [click] and [wait] return normally (as those
    of both sessions do), [detectAndInteract] clicks at most once: either
    nothing is clicked, or exactly one selector is, after which the engine
    waits a second and stops.  The selector is never empty: it is one of the
    twelve common selectors, or the one computed for the button found by
    its text. *)
Theorem detection_clicks_at_most_once :
  forall h : History,
    let h' := snd (detectAndInteract session h) in
    clicks h' = clicks h
    \/ exists sel pre,
         h' = (pre ++ [Was (Click sel); Was (Wait 1000)])%list
         /\ clicks h' = (clicks h ++ [sel])%list
         /\ sel <> EmptyString
         /\ (In sel commonSelectors \/ exists b, sel = selectorFor b).
Proof.
  intros h h'. subst h'. unfold detectAndInteract, bind.
  pose proof (firstThat_turned (trySelector session) commonSelectors
                (fun x Hx => trySelector_turned x Hx) h) as H1.
  destruct (firstThat (trySelector session) commonSelectors h) as [r1 h1].
  destruct H1 as [[Hr Hc] | [Hr Hc]]; cbn [fst snd] in Hr, Hc; subst r1.
  - pose proof (firstThat_turned (tryText session) textButtons
                  (fun x _ => tryText_turned x) h1) as H2.
    destruct (firstThat (tryText session) textButtons h1) as [r2 h2].
    destruct H2 as [[Hr2 Hc2] | [Hr2 [sel [pre [Hh [Hc2 Hs]]]]]];
      cbn [fst snd] in Hr2, Hc2; subst r2; cbn.
    + left. congruence.
    + right. exists sel, pre. cbn [snd] in Hh.
      split; [exact Hh|]. split; [congruence | exact Hs].
  - cbn. right. exact Hc.
Qed.

End Obliging.

Lemma firstThat_misses {X : Type} (body : X -> M History bool) (f : X -> Asked) (l : list X) :
  (forall x h, body x h = (Ok false, (h ++ [f x])%list)) ->
  forall h, firstThat body l h = (Ok false, (h ++ map f l)%list).
Proof.
  intros Hbody. induction l as [|x rest IH]; intros h; cbn.
  - rewrite app_nil_r. reflexivity.
  - unfold bind. rewrite Hbody, IH, <- app_assoc. reflexivity.
Qed.

(** X26. When no probe and no text search finds anything (each answers
    with a falsy value or throws), [detectAndInteract] asks the twelve
    probes and then the four text searches, in the order of the lists, and
    nothing else: no click, no wait, no description of a button. *)
Theorem detection_without_match_asks_everything :
  (forall sel, notFound session (Probe sel)) ->
  (forall lowered, notFound session (FindButton lowered)) ->
  forall h : History,
    detectAndInteract session h
    = (Ok tt,
       (h ++ map (fun sel => Was (Probe sel)) commonSelectors
          ++ map (fun text => Was (FindButton (toLowerCase text))) textButtons)%list).
Proof.
  intros Hprobe Hfind h. unfold detectAndInteract, bind.
  rewrite (firstThat_misses (trySelector session) (fun sel => Was (Probe sel))).
  - rewrite (firstThat_misses (tryText session)
               (fun text => Was (FindButton (toLowerCase text)))).
    + rewrite <- app_assoc. reflexivity.
    + intros text h0. unfold tryText, try_catch, bind, ask, ret.
      specialize (Hfind (toLowerCase text) h0).
      destruct (session JsValue (FindButton (toLowerCase text)) h0) as [v|e];
        [rewrite Hfind|]; reflexivity.
  - intros sel h0. unfold trySelector, try_catch, bind, ask, ret.
    specialize (Hprobe sel h0).
    destruct (session JsValue (Probe sel) h0) as [v|e]; [rewrite Hprobe|]; reflexivity.
Qed.

End DetectFacts.

Lemma detection_clicks_at_most_once_witness :
  let h' := snd (Detect.detectAndInteract Sample.titleScreen []) in
  Detect.clicks h' = Detect.clicks []
  \/ exists sel pre,
       h' = (pre ++ [Detect.Was (Detect.Click sel); Detect.Was (Detect.Wait 1000)])%list
       /\ Detect.clicks h' = (Detect.clicks [] ++ [sel])%list
       /\ sel <> EmptyString
       /\ (In sel Detect.commonSelectors \/ exists b, sel = Detect.selectorFor b).
Proof.
  apply (detection_clicks_at_most_once Sample.titleScreen); reflexivity.
Defined.

Lemma detection_without_match_asks_everything_witness :
  Detect.detectAndInteract Sample.bare []
  = (Ok tt,
     ([] ++ map (fun sel => Detect.Was (Detect.Probe sel)) Detect.commonSelectors
         ++ map (fun text => Detect.Was (Detect.FindButton (toLowerCase text)))
              Detect.textButtons)%list).
Proof.
  apply (detection_without_match_asks_everything Sample.bare);
    intros q h; reflexivity.
Defined.

(* ===================================================================== *)
(** ** The input operations *)
(* ===================================================================== *)

Lemma mouseEvents_app (l1 l2 : Log) :
  mouseEvents (l1 ++ l2)%list = (mouseEvents l1 ++ mouseEvents l2)%list.
Proof.
  induction l1 as [|[A o|ev] l1 IH]; [reflexivity| |exact IH].
  destruct o; cbn; rewrite IH; reflexivity.
Qed.

Lemma keyEvents_app (l1 l2 : Log) :
  keyEvents (l1 ++ l2)%list = (keyEvents l1 ++ keyEvents l2)%list.
Proof.
  induction l1 as [|[A o|ev] l1 IH]; [reflexivity| |exact IH].
  destruct o; cbn; rewrite IH; reflexivity.
Qed.

(** Running the operations of a session with its log of input operations. *)
Ltac run_ops :=
  unfold bind, try_catch, ret, throw, gets, modify, when, lift, op, deliver, note,
    perform, wait, console; cbn.

(** A [catch] block that logs, waits and returns. *)
Ltac caught :=
  apply try_catch_returns; intros ? ?; run_ops; eexists _, _; reflexivity.

Section InputFacts.

Variable showNumber : number -> string.
Variable drv : Driver.
Variable bk : Ops.Backend.

(** X27. Of the input operations of the two sessions, only the local
    [evaluate] can raise, and it raises exactly what [page.evaluate] does:
    [click], [keypress], [clickAt] and [switchToMainFrame] of both sessions
    and the Browserbase [evaluate] return normally whatever the backend and
    the connection do. *)
Theorem input_operations_never_raise :
  forall (selector key script : string) (x y : number),
    (forall st : Ext Local.State,
        (exists st', LocalInput.click drv bk selector st = (Ok tt, st'))
        /\ (exists st', LocalInput.keypress drv bk key st = (Ok tt, st'))
        /\ (exists b st', LocalInput.clickAt showNumber bk x y st = (Ok b, st'))
        /\ (exists st', LocalInput.switchToMainFrame st = (Ok tt, st'))
        /\ fst (LocalInput.evaluate bk script st)
           = bk _ (Evaluate (Local.page (base st)) script) (Local.trace (base st)) (steps st))
    /\ (forall st : Ext Browserbase.State,
          (exists st', BrowserbaseInput.click drv bk selector st = (Ok tt, st'))
          /\ (exists st', BrowserbaseInput.keypress drv bk key st = (Ok tt, st'))
          /\ (exists b st', BrowserbaseInput.clickAt showNumber drv bk x y st = (Ok b, st'))
          /\ (exists st', BrowserbaseInput.switchToMainFrame drv bk st = (Ok tt, st'))
          /\ (exists v st', BrowserbaseInput.evaluate drv bk script st = (Ok v, st'))).
Proof.
  intros selector key script x y.
  assert (Hunit : forall (S : Type) (c : M S unit) (s : S),
             (exists a s', c s = (Ok a, s')) -> exists s', c s = (Ok tt, s')).
  { intros S c s [[] [s' H]]. exists s'. exact H. }
  split; intros st.
  - split; [apply Hunit; unfold LocalInput.click; caught|].
    split; [apply Hunit; unfold LocalInput.keypress; caught|].
    split; [unfold LocalInput.clickAt; caught|].
    split; [unfold LocalInput.switchToMainFrame; run_ops; eexists; reflexivity|].
    reflexivity.
  - split; [apply Hunit; unfold BrowserbaseInput.click; caught|].
    split; [apply Hunit; unfold BrowserbaseInput.keypress; caught|].
    split; [unfold BrowserbaseInput.clickAt; caught|].
    split; [apply Hunit; unfold BrowserbaseInput.switchToMainFrame; caught|].
    unfold BrowserbaseInput.evaluate; caught.
Qed.

(** [Math.round] gives the nearest integer, the upper one at a tie. *)
Lemma round_is_nearest (q : number) :
  (q - (1 # 2) < round q)%Q /\ (round q <= q + (1 # 2))%Q.
Proof.
  unfold round. split.
  - pose proof (Qlt_floor (q + (1 # 2))) as H.
    rewrite inject_Z_plus in H. change (inject_Z 1) with 1%Q in H. lra.
  - apply Qfloor_le.
Qed.

(** One step of the symbolic run of an input operation. *)
Ltac ops_step :=
  match goal with
  | |- context [Browserbase.ensureCDPConnection ?d ?s] =>
      destruct (Browserbase.ensureCDPConnection d s) as [[[]|?] ?]
  | |- context [match ?b ?A ?o ?tr ?lg with Ok _ => _ | Throw _ => _ end] =>
      let E := fresh "E" in destruct (b A o tr lg) eqn:E
  | |- context [match ?d ?A ?p ?t with Ok _ => _ | Throw _ => _ end] =>
      destruct (d A p t)
  | |- context [match Browserbase.page ?s with Some _ => _ | None => _ end] =>
      destruct (Browserbase.page s)
  | |- context [if Browserbase.cdpSession ?s then _ else _] =>
      destruct (Browserbase.cdpSession s)
  | |- context [if Browserbase.browser ?s then _ else _] =>
      destruct (Browserbase.browser s)
  | |- context [match ?o with Some _ => _ | None => _ end] => is_var o; destruct o
  | |- context [if displayed ?t then _ else _] => destruct (displayed t)
  | |- context [if click_works ?t then _ else _] => destruct (click_works t)
  | |- context [if events_work ?t then _ else _] => destruct (events_work t)
  end; units; cbn.

(** The new events of a log, once the run is over. *)
Ltac new_events app_lemma :=
  rewrite ?app_lemma; cbn; rewrite <- ?app_assoc; cbn;
  first [ exists []; split; [symmetry; apply app_nil_r|]
        | eexists; split; [reflexivity|] ].

(** X28. The mouse events a Browserbase session sends over CDP are well
    placed, whatever the backend does.  [click] sends nothing, or a press,
    or a press and then a release, both at the centre of the rectangle the
    page reported for the selector.  [clickAt] sends a prefix of move, press,
    release, each at the coordinates rounded to the nearest integers. *)
Theorem mouse_events_are_well_placed :
  forall (selector : string) (x y : number) (st : Ext Browserbase.State),
    (exists new,
        mouseEvents (steps (snd (BrowserbaseInput.click drv bk selector st)))
        = (mouseEvents (steps st) ++ new)%list
        /\ (new = []
            \/ exists r pg tr lg,
                 bk _ (QueryRect pg selector) tr lg = Ok (Some r)
                 /\ (new = [(MousePressed, fst (centre r), snd (centre r))]
                     \/ new = [(MousePressed, fst (centre r), snd (centre r));
                               (MouseReleased, fst (centre r), snd (centre r))])))
    /\ (exists new k,
          mouseEvents (steps (snd (BrowserbaseInput.clickAt showNumber drv bk x y st)))
          = (mouseEvents (steps st) ++ new)%list
          /\ new = firstn k [(MouseMoved, round x, round y);
                             (MousePressed, round x, round y);
                             (MouseReleased, round x, round y)])
    /\ (x - (1 # 2) < round x)%Q /\ (round x <= x + (1 # 2))%Q
    /\ (y - (1 # 2) < round y)%Q /\ (round y <= y + (1 # 2))%Q.
Proof.
  intros selector x y st. split; [|split].
  - unfold BrowserbaseInput.click, BrowserbaseInput.jsClick, clickWithEvents, clickOnly.
    run_ops. repeat ops_step; run_ops;
      new_events mouseEvents_app;
      first [ left; reflexivity
            | right; eexists _, _, _, _; split; [eassumption|];
              first [left; reflexivity | right; reflexivity] ].
  - unfold BrowserbaseInput.clickAt. run_ops. repeat ops_step; run_ops;
      rewrite ?mouseEvents_app; cbn; rewrite <- ?app_assoc; cbn;
      first [ exists [], 0%nat; split; [symmetry; apply app_nil_r | reflexivity]
            | exists [], 0%nat; split; reflexivity
            | eexists _, 1%nat; split; reflexivity
            | eexists _, 2%nat; split; reflexivity
            | eexists _, 3%nat; split; reflexivity ].
  - pose proof (round_is_nearest x). pose proof (round_is_nearest y). tauto.
Qed.

(** X29. The key events a Browserbase session sends over CDP for
    [keypress(key)] are a key-down and then a key-up, or only the key-down,
    or nothing; both carry the mapped key, its virtual key code and its code
    string. *)
Theorem key_events_are_paired :
  forall (key : string) (st : Ext Browserbase.State),
    let keyToPress := Keys.keyToPress key in
    exists new k,
      keyEvents (steps (snd (BrowserbaseInput.keypress drv bk key st)))
      = (keyEvents (steps st) ++ new)%list
      /\ new = firstn k
                 [(KeyDown, Keys.getKeyCode keyToPress, Keys.getKeyCodeString keyToPress,
                   keyToPress);
                  (KeyUp, Keys.getKeyCode keyToPress, Keys.getKeyCodeString keyToPress,
                   keyToPress)].
Proof.
  intros key st keyToPress. subst keyToPress.
  unfold BrowserbaseInput.keypress, BrowserbaseInput.playwrightKey.
  generalize (Keys.keyToPress key) as k. intros k.
  generalize (Keys.getKeyCode k) (Keys.getKeyCodeString k). intros vk code.
  run_ops. repeat ops_step; run_ops;
    rewrite ?keyEvents_app; cbn; rewrite <- ?app_assoc; cbn;
    first [ exists [], 0%nat; split; [symmetry; apply app_nil_r | reflexivity]
          | exists [], 0%nat; split; reflexivity
          | eexists _, 1%nat; split; reflexivity
          | eexists _, 2%nat; split; reflexivity ].
Qed.

Lemma onBase_preorder {S : Type} (R : S -> S -> Prop) : Preorder R -> Preorder (onBase R).
Proof.
  intros HR. split; unfold onBase.
  - intros s. apply (pre_refl R HR).
  - intros s1 s2 s3. apply (pre_trans R HR).
Qed.

Lemma keeps_lift {S A : Type} (R : S -> S -> Prop) (c : M S A) :
  keeps R c -> keeps (onBase R) (lift c).
Proof.
  intros Hc s. unfold onBase, lift. specialize (Hc (base s)).
  destruct (c (base s)) as [r b]. exact Hc.
Qed.

Lemma keeps_op {S A : Type} `{Traced S} (R : S -> S -> Prop) (o : Op A) :
  Preorder R -> keeps (onBase R) (op bk o).
Proof. intros HR s. apply (pre_refl R HR). Qed.

Lemma keeps_deliver {S : Type} (R : S -> S -> Prop) (events : list string) :
  Preorder R -> keeps (onBase R) (deliver (S := S) events).
Proof. intros HR s. apply (pre_refl R HR). Qed.

(** Steps of a proof that an input operation maintains a relation on the
    session that logging maintains. *)
Ltac keep_ops HR Hlog Hensure :=
  repeat first
    [ apply keeps_lift;
      first [ exact Hensure
            | apply keeps_perform; exact Hlog
            | apply keeps_wait; exact Hlog
            | apply keeps_console; exact Hlog ]
    | apply keeps_op; exact HR
    | apply keeps_deliver; exact HR
    | keep_step (onBase_preorder _ HR) ].

(** X30. Apart from the frame switches, no input operation moves the
    session.  In the local session [click], [keypress], [clickAt],
    [evaluate] and also [switchToMainFrame] leave the page where it was, so
    that a local session that entered a frame stays in it.  A connected
    Browserbase session stays connected and on its page through [click],
    [keypress], [clickAt] and [evaluate].  Its [switchToMainFrame] goes back
    to the main page only when the session holds a browser and
    [browser.pages()] answers with at least one page; when that call
    throws, or answers with none, the session stays where it was. *)
Theorem only_frame_switches_move_the_session :
  forall (selector key script : string) (x y : number),
    (forall lst : Ext Local.State,
        let stayed (s : Ext Local.State) := Local.page (base s) = Local.page (base lst) in
        stayed (snd (LocalInput.click drv bk selector lst))
        /\ stayed (snd (LocalInput.keypress drv bk key lst))
        /\ stayed (snd (LocalInput.clickAt showNumber bk x y lst))
        /\ stayed (snd (LocalInput.evaluate bk script lst))
        /\ stayed (snd (LocalInput.switchToMainFrame lst)))
    /\ (forall st : Ext Browserbase.State,
          Browserbase.connected (base st) = true ->
          let stays (s : Ext Browserbase.State) :=
            Browserbase.page (base s) = Browserbase.page (base st)
            /\ Browserbase.connected (base s) = true in
          stays (snd (BrowserbaseInput.click drv bk selector st))
          /\ stays (snd (BrowserbaseInput.keypress drv bk key st))
          /\ stays (snd (BrowserbaseInput.clickAt showNumber drv bk x y st))
          /\ stays (snd (BrowserbaseInput.evaluate drv bk script st))
          /\ Browserbase.page (base (snd (BrowserbaseInput.switchToMainFrame drv bk st)))
             = if Browserbase.browser (base st)
               then match bk _ BrowserPages (Browserbase.trace (base st)) (steps st) with
                    | Ok n =>
                        if (0 <? n)%nat then Some MainPage
                        else Browserbase.page (base st)
                    | Throw _ => Browserbase.page (base st)
                    end
               else Browserbase.page (base st)).
Proof.
  intros selector key script x y. split.
  - intros lst stayed.
    assert (H1 : keeps (onBase (same Local.page)) (LocalInput.click drv bk selector)).
    { unfold LocalInput.click.
      keep_ops (same_preorder Local.page) local_log_keeps_page I. }
    assert (H2 : keeps (onBase (same Local.page)) (LocalInput.keypress drv bk key)).
    { unfold LocalInput.keypress.
      keep_ops (same_preorder Local.page) local_log_keeps_page I. }
    assert (H3 : keeps (onBase (same Local.page)) (LocalInput.clickAt showNumber bk x y)).
    { unfold LocalInput.clickAt.
      keep_ops (same_preorder Local.page) local_log_keeps_page I. }
    assert (H4 : keeps (onBase (same Local.page)) (LocalInput.evaluate bk script)).
    { unfold LocalInput.evaluate.
      keep_ops (same_preorder Local.page) local_log_keeps_page I. }
    assert (H5 : keeps (onBase (same Local.page)) LocalInput.switchToMainFrame).
    { unfold LocalInput.switchToMainFrame.
      keep_ops (same_preorder Local.page) local_log_keeps_page I. }
    split; [apply H1|]. split; [apply H2|]. split; [apply H3|].
    split; [apply H4 | apply H5].
  - intros st Hc stays.
    assert (Hstays : forall s, onBase steady st s -> stays s).
    { intros s Hs. destruct (Hs Hc) as [Hp Hcdp]. split; [exact Hp|].
      unfold Browserbase.connected in *. rewrite Hp, Hcdp.
      destruct (Browserbase.page (base st)); [reflexivity | discriminate]. }
    assert (H1 : keeps (onBase steady) (BrowserbaseInput.click drv bk selector)).
    { unfold BrowserbaseInput.click, BrowserbaseInput.jsClick, clickWithEvents, clickOnly.
      keep_ops steady_preorder browserbase_log_steady (ensure_steady drv). }
    assert (H2 : keeps (onBase steady) (BrowserbaseInput.keypress drv bk key)).
    { unfold BrowserbaseInput.keypress, BrowserbaseInput.playwrightKey.
      keep_ops steady_preorder browserbase_log_steady (ensure_steady drv). }
    assert (H3 : keeps (onBase steady) (BrowserbaseInput.clickAt showNumber drv bk x y)).
    { unfold BrowserbaseInput.clickAt.
      keep_ops steady_preorder browserbase_log_steady (ensure_steady drv). }
    assert (H4 : keeps (onBase steady) (BrowserbaseInput.evaluate drv bk script)).
    { unfold BrowserbaseInput.evaluate.
      keep_ops steady_preorder browserbase_log_steady (ensure_steady drv). }
    split; [apply Hstays, H1|]. split; [apply Hstays, H2|].
    split; [apply Hstays, H3|]. split; [apply Hstays, H4|].
    unfold BrowserbaseInput.switchToMainFrame, try_catch, bind, lift.
    rewrite ensure_halves, Hc. unfold gets, when, op, bind. cbn.
    destruct (Browserbase.browser (base st)); [|reflexivity]. cbn.
    destruct (bk nat BrowserPages (Browserbase.trace (base st)) (steps st)) as [[|n]|e];
      reflexivity.
Qed.

End InputFacts.

Lemma only_frame_switches_move_the_session_witness :
  let drv := Mock.browser Mock.gamePage in
  let bk := Sample.willing in
  Browserbase.connected (base Sample.framed) = true
  /\ Local.page (base (snd (LocalInput.switchToMainFrame Sample.framedLocal))) = FramePage 2
  /\ Browserbase.page (base (snd (BrowserbaseInput.click drv bk "#start" Sample.framed)))
     = Some (FramePage 2)
  /\ Browserbase.page (base (snd (BrowserbaseInput.switchToMainFrame drv bk Sample.framed)))
     = Some (FramePage 2).
Proof.
  intros drv bk.
  assert (Hc : Browserbase.connected (base Sample.framed) = true) by reflexivity.
  split; [exact Hc|].
  pose proof (only_frame_switches_move_the_session Mock.showInteger drv bk
                "#start" "Space" "1 + 1" 10 20) as [Hlocal Hremote].
  destruct (Hlocal Sample.framedLocal) as [_ [_ [_ [_ Hmain]]]].
  destruct (Hremote Sample.framed Hc) as [[Hclick _] [_ [_ [_ Hback]]]].
  split; [exact Hmain|]. split; [exact Hclick | exact Hback].
Defined.
